(** * thelper.transforms: a shallow embedding of the transformation pipeline

    The development follows [thelper/transforms.py] and the helpers of
    [thelper/utils.py] it relies on ([safe_crop], the dictionary, string
    and label colour helpers).  Python exceptions are values of an error
    monad, Python objects are values of one universe [pyval], numpy arrays
    are a shape together with an indexing function, and the process-wide
    random source is a tape threaded through the stochastic operations.

    Conventions of the model:
    - a Python [float] is the rational number it denotes ([inf] and [nan]
      are not represented, nor is the overflow of a conversion or of a
      product); the product of an [int] and a [float] that [Tile] and
      [RandomResizedCrop] pass to [int(round(...))] or compare with a
      count is rounded to the nearest double ([mul_int_float]), other
      float arithmetic is exact;
    - [int(round(x))] is Python 3 rounding, half to even;
    - [copy.copy] and [copy.deepcopy] return a value equal to their
      argument (object identity is not tracked);
    - the OpenCV primitives are modelled by their documented contract on
      shapes, with nearest-neighbour sampling standing for interpolation. *)

From Stdlib Require Import ZArith QArith Qround Qabs Qpower Lia String.
From stdpp Require Import base list strings gmap.

Local Open Scope Z_scope.

(** ** Exceptions and the error monad *)

Inductive exn : Type :=
| AssertionError (msg : string)
| TypeError (msg : string)
| IndexError
| ValueError
| ZeroDivisionError
| AttributeError
| NotImplementedError
| CvError.

Inductive result (A : Type) : Type :=
| Ok (a : A)
| Raise (e : exn).

Arguments Ok {A} a.
Arguments Raise {A} e.

#[global] Instance result_ret : MRet result := fun A a => Ok a.

#[global] Instance result_bind : MBind result :=
  fun A B f m => match m with Ok a => f a | Raise e => Raise e end.

#[global] Instance result_fmap : FMap result :=
  fun A B f m => match m with Ok a => Ok (f a) | Raise e => Raise e end.

Definition raises {A} (m : result A) : Prop := exists e, m = Raise e.

Definition returns {A} (m : result A) : Prop := exists a, m = Ok a.

(** ** Numbers *)

(** [int(round(q))]: nearest integer, ties to the even neighbour. *)
Definition py_round (q : Q) : Z :=
  let f := Qfloor q in
  match Qcompare (q - inject_Z f) (1 # 2) with
  | Lt => f
  | Gt => f + 1
  | Eq => if Z.even f then f else f + 1
  end.

(** [int(round(math.sqrt(x)))] for [0 <= x], over the reals: with
    [s = floor (2 * sqrt x)], the root lies in [[s/2, (s+1)/2)]. *)
Definition round_sqrt (x : Q) : Z :=
  let s := Z.sqrt (Qfloor (4 * x)) in
  let k := s / 2 in
  if Z.even s then k
  else if Qeq_bool (4 * x) (inject_Z (s * s))
       then (if Z.even k then k else k + 1)
       else k + 1.

Definition math_sqrt_round (x : Q) : result Z :=
  if Qle_bool 0 x then Ok (round_sqrt x) else Raise ValueError.

Definition Qlt_bool (a b : Q) : bool := negb (Qle_bool b a).

(** ** Rounding to double precision *)

(** [floor (log2 q)] for [0 < q]: the difference of the bit lengths of
    numerator and denominator, or one less. *)
Definition Qlog2 (q : Q) : Z :=
  let e := Z.log2 (Qnum q) - Z.log2 (Z.pos (Qden q)) in
  if Qle_bool (2 ^ e) q then e else e - 1.

(** The double nearest to [q], ties to the even significand: [q] is
    scaled to a significand in [[2^52, 2^53)], which is rounded to an
    integer.  The exponent is not bounded. *)
Definition round_double (q : Q) : Q :=
  if Qeq_bool q 0 then 0%Q
  else
    let e := Qlog2 (Qabs q) - 52 in
    let m := py_round (Qabs q / 2 ^ e) in
    ((if Qlt_bool q 0 then inject_Z (- m) else inject_Z m) * 2 ^ e)%Q.

(** [z * q] and [q * z], an [int] and a [float]: the integer is
    converted to a double and the product is rounded to a double. *)
Definition mul_int_float (z : Z) (q : Q) : Q :=
  round_double (round_double (inject_Z z) * q).

(** ** numpy arrays *)

Record ndarray : Type := mk_ndarray {
  shape : list nat;
  item : list Z -> Q
}.

Definition ndim (a : ndarray) : Z := Z.of_nat (length (shape a)).

(** [a.shape[i]] *)
Definition shape_at (a : ndarray) (i : nat) : result Z :=
  match shape a !! i with
  | Some n => Ok (Z.of_nat n)
  | None => Raise IndexError
  end.

(** Same shape and same elements at every index tuple of the right rank. *)
Definition array_eq (a b : ndarray) : Prop :=
  shape a = shape b /\
  forall idx : list Z, length idx = length (shape a) -> item a idx = item b idx.

(** [range(lo, hi)] *)
Definition py_range (lo hi : Z) : list Z :=
  map (fun k : nat => lo + Z.of_nat k) (seq 0 (Z.to_nat (hi - lo))).

(** All index tuples of an array of the given shape, in row-major order. *)
Fixpoint indices (shp : list nat) : list (list Z) :=
  match shp with
  | [] => [[]]
  | n :: rest =>
      flat_map (fun i => map (cons i) (indices rest)) (py_range 0 (Z.of_nat n))
  end.

(** [np.count_nonzero(a)] *)
Definition count_nonzero (a : ndarray) : Z :=
  Z.of_nat (length (filter (fun idx => Qeq_bool (item a idx) 0 = false)
                           (indices (shape a)))).

(** Bound of a slice [i:j] on an axis of length [len], as Python adjusts it. *)
Definition slice_bound (len i : Z) : Z :=
  if i <? 0 then Z.max (i + len) 0 else Z.min i len.

(** [a[r0:r1, c0:c1, ...]] *)
Definition slice2 (a : ndarray) (r0 r1 c0 c1 : Z) : result ndarray :=
  match shape a with
  | h :: w :: rest =>
      let rs := slice_bound (Z.of_nat h) r0 in
      let re := slice_bound (Z.of_nat h) r1 in
      let cs := slice_bound (Z.of_nat w) c0 in
      let ce := slice_bound (Z.of_nat w) c1 in
      Ok {| shape := Z.to_nat (re - rs) :: Z.to_nat (ce - cs) :: rest;
            item := fun idx =>
              match idx with
              | r :: c :: ch => item a (rs + r :: cs + c :: ch)
              | _ => item a idx
              end |}
  | _ => Raise IndexError
  end.

(** [np.expand_dims(a, 2)] of a 2-d array. *)
Definition expand_dims2 (a : ndarray) : result ndarray :=
  match shape a with
  | [h; w] =>
      Ok {| shape := [h; w; 1%nat];
            item := fun idx =>
              match idx with
              | [r; c; _] => item a [r; c]
              | _ => item a idx
              end |}
  | _ => Raise ValueError
  end.

(** [np.split(a, a.shape[2], 2)]: one (H, W, 1) array per channel. *)
Definition split_channels (a : ndarray) : result (list ndarray) :=
  match shape a with
  | [h; w; c] =>
      Ok (map (fun k : Z =>
                 {| shape := [h; w; 1%nat];
                    item := fun idx =>
                      match idx with
                      | [r; col; _] => item a [r; col; k]
                      | _ => item a idx
                      end |})
              (py_range 0 (Z.of_nat c)))
  | _ => Raise IndexError
  end.

(** ** OpenCV primitives *)

Inductive border_type : Type :=
| BORDER_CONSTANT
| BORDER_REPLICATE
| BORDER_REFLECT
| BORDER_WRAP
| BORDER_REFLECT_101.

(** [cv::borderInterpolate]: source coordinate standing for the
    coordinate [p] on an axis of length [len]; the reflections are
    written in closed form. *)
Definition borderInterpolate (p len : Z) (bt : border_type) : Z :=
  if (0 <=? p) && (p <? len) then p
  else
    match bt with
    | BORDER_CONSTANT => -1
    | BORDER_REPLICATE => if p <? 0 then 0 else len - 1
    | BORDER_REFLECT =>
        let q := p mod (2 * len) in
        if q <? len then q else 2 * len - 1 - q
    | BORDER_REFLECT_101 =>
        if len =? 1 then 0
        else let q := p mod (2 * len - 2) in
             if q <? len then q else 2 * len - 2 - q
    | BORDER_WRAP => p mod len
    end.

(** [cv2.copyMakeBorder(src, top, bottom, left, right, borderType, value)];
    [value] is the fill scalar, read at the channel index.  A 3-d source
    with a single channel comes back 2-d. *)
Definition copyMakeBorder (src : ndarray) (top bottom left right : Z)
    (bt : border_type) (value : list Z -> Q) : result ndarray :=
  match shape src with
  | h :: w :: rest =>
      if (1 <? Z.of_nat (length rest))
         || (top <? 0) || (bottom <? 0) || (left <? 0) || (right <? 0)
      then Raise CvError
      else
        let H := Z.of_nat h in
        let W := Z.of_nat w in
        let pixel r c ch :=
          let r0 := r - top in
          let c0 := c - left in
          if (0 <=? r0) && (r0 <? H) && (0 <=? c0) && (c0 <? W)
          then item src (r0 :: c0 :: ch)
          else
            match bt with
            | BORDER_CONSTANT => value ch
            | _ =>
                if (0 <? H) && (0 <? W)
                then item src (borderInterpolate r0 H bt
                                 :: borderInterpolate c0 W bt :: ch)
                else value ch
            end in
        match rest with
        | [1%nat] =>
            Ok {| shape := [Z.to_nat (H + top + bottom);
                            Z.to_nat (W + left + right)];
                  item := fun idx =>
                    match idx with
                    | [r; c] => pixel r c [0]
                    | _ => item src idx
                    end |}
        | _ =>
            Ok {| shape := Z.to_nat (H + top + bottom)
                             :: Z.to_nat (W + left + right) :: rest;
                  item := fun idx =>
                    match idx with
                    | r :: c :: ch => pixel r c ch
                    | _ => item src idx
                    end |}
        end
  | _ => Raise CvError
  end.

(** [cv2.resize(src, dsize, fx=fx, fy=fy, interpolation=...)].  A zero
    [dsize] is derived from the scale factors; an empty source or target
    is an error; a 3-d source with a single channel comes back 2-d. *)
Definition cv_resize (src : ndarray) (dsize : Z * Z) (fx fy : Q)
    : result ndarray :=
  match shape src with
  | h :: w :: rest =>
      let H := Z.of_nat h in
      let W := Z.of_nat w in
      let '(dw, dh) :=
        if (fst dsize =? 0) || (snd dsize =? 0)
        then (py_round (fx * inject_Z W), py_round (fy * inject_Z H))
        else dsize in
      if (1 <? Z.of_nat (length rest)) || (H =? 0) || (W =? 0)
         || (dw <=? 0) || (dh <=? 0)
      then Raise CvError
      else
        let sample_at r c ch := item src (r * H / dh :: c * W / dw :: ch) in
        match rest with
        | [1%nat] =>
            Ok {| shape := [Z.to_nat dh; Z.to_nat dw];
                  item := fun idx =>
                    match idx with
                    | [r; c] => sample_at r c [0]
                    | _ => item src idx
                    end |}
        | _ =>
            Ok {| shape := Z.to_nat dh :: Z.to_nat dw :: rest;
                  item := fun idx =>
                    match idx with
                    | r :: c :: ch => sample_at r c ch
                    | _ => item src idx
                    end |}
        end
  | _ => Raise CvError
  end.

(** ** Python objects *)

Inductive pyval : Type :=
| PyNone
| PyInt (z : Z)
| PyFloat (q : Q)
| PyStr (s : string)
| PyTuple (l : list pyval)
| PyList (l : list pyval)
| PyType (name : string)
| PyArray (a : ndarray)
| PyPIL (a : ndarray).

Definition is_int (v : pyval) : bool :=
  match v with PyInt _ => true | _ => false end.

Definition is_float (v : pyval) : bool :=
  match v with PyFloat _ => true | _ => false end.

Definition is_list (v : pyval) : bool :=
  match v with PyList _ => true | _ => false end.

(** The value of an [int] or [float]; anything else does not compare or
    multiply with a number. *)
Definition as_number (v : pyval) : result Q :=
  match v with
  | PyInt z => Ok (inject_Z z)
  | PyFloat q => Ok q
  | _ => Raise (TypeError "operand is not a number")
  end.

(** A value used where an integer is required (a slice bound, a pad). *)
Definition as_index (v : pyval) : result Z :=
  match v with
  | PyInt z => Ok z
  | _ => Raise (TypeError "slice indices must be integers")
  end.

(** [a + b] *)
Definition py_add (a b : pyval) : result pyval :=
  match a, b with
  | PyInt x, PyInt y => Ok (PyInt (x + y))
  | PyInt x, PyFloat y => Ok (PyFloat (inject_Z x + y))
  | PyFloat x, PyInt y => Ok (PyFloat (x + inject_Z y))
  | PyFloat x, PyFloat y => Ok (PyFloat (x + y))
  | _, _ => Raise (TypeError "unsupported operand type(s) for +")
  end.

(** [v[i]] *)
Definition py_getitem (v : pyval) (i : Z) : result pyval :=
  match v with
  | PyTuple l | PyList l =>
      let n := Z.of_nat (length l) in
      let j := if i <? 0 then i + n else i in
      if (j <? 0) || (n <=? j) then Raise IndexError
      else match l !! Z.to_nat j with
           | Some x => Ok x
           | None => Raise IndexError
           end
  | _ => Raise (TypeError "object is not subscriptable")
  end.

(** [np.asarray] on a PIL image, as the operations apply it on entry. *)
Definition asarray_if_pil (sample : pyval) : pyval :=
  match sample with
  | PyPIL a => PyArray a
  | _ => sample
  end.

(** The builtin [slice], a class object. *)
Definition builtin_slice : pyval := PyType "slice".

(** [cv2.resize] called on a Python object. *)
Definition cv_resize_py (src : pyval) (dsize : Z * Z) (fx fy : Q)
    : result ndarray :=
  match src with
  | PyArray a => cv_resize a dsize fx fy
  | _ => Raise (TypeError "Expected Ptr<cv::UMat> for argument 'src'")
  end.

(** [np.stack(arrays, 2)] *)
Definition np_stack2 (arrays : list pyval) : result ndarray :=
  match arrays with
  | PyArray a0 :: _ =>
      match shape a0 with
      | [h; w] =>
          if forallb (fun v => match v with
                               | PyArray a =>
                                   bool_decide (shape a = [h; w])
                               | _ => false
                               end) arrays
          then Ok {| shape := [h; w; length arrays];
                     item := fun idx =>
                       match idx with
                       | [r; c; k] =>
                           match arrays !! Z.to_nat k with
                           | Some (PyArray a) => item a [r; c]
                           | _ => 0%Q
                           end
                       | _ => 0%Q
                       end |}
          else Raise ValueError
      | _ => Raise ValueError
      end
  | _ => Raise ValueError
  end.

(** ** thelper.utils.safe_crop *)

(** [tl] and [br] are the (x, y) corners; every caller passes a tuple or
    a list, so the checks on their type always pass.  An array of rank
    below two fails on [image.shape[1]]. *)
Definition safe_crop (image : pyval) (tl br : Z * Z)
    (bordertype : border_type) (borderval : list Z -> Q) : result ndarray :=
  match image with
  | PyArray a =>
      h ← shape_at a 0;
      w ← shape_at a 1;
      if (fst tl <? 0) || (snd tl <? 0) || (w <? fst br) || (h <? snd br)
      then
        padded ← copyMakeBorder a (Z.max (- snd tl) 0) (Z.max (snd br - h) 0)
                                  (Z.max (- fst tl) 0) (Z.max (fst br - w) 0)
                                  bordertype borderval;
        let '(tl0, br0) :=
          if fst tl <? 0 then (0, fst br - fst tl) else (fst tl, fst br) in
        let '(tl1, br1) :=
          if snd tl <? 0 then (0, snd br - snd tl) else (snd tl, snd br) in
        slice2 padded tl1 br1 tl0 br0
      else slice2 a (snd tl) (snd br) (fst tl) (fst br)
  | _ => Raise (AssertionError "expected input image to be numpy array")
  end.

(** The default [borderval=0]. *)
Definition zero_border : list Z -> Q := fun _ => 0%Q.

(** ** Constructor arguments resolved by name *)

(** An argument given either as a value or as a dotted name that
    [thelper.utils.import_class] resolves at construction. *)
Inductive named (A : Type) : Type :=
| ByName (fullname : string)
| Given (a : A).

Arguments ByName {A} fullname.
Arguments Given {A} a.

Definition resolve {A} (import_class : string -> result A) (arg : named A)
    : result A :=
  match arg with
  | ByName fullname => import_class fullname
  | Given a => Ok a
  end.

(** [v <= 0] *)
Definition py_le0 (v : pyval) : result bool :=
  match v with
  | PyInt z => Ok (z <=? 0)
  | PyFloat q => Ok (Qle_bool q 0)
  | _ => Raise (TypeError "'<=' not supported between instances")
  end.

(** [v.shape[i]] *)
Definition py_shape (v : pyval) (i : nat) : result Z :=
  match v with
  | PyArray a => shape_at a i
  | _ => Raise AttributeError
  end.

(** ** Compose *)

(** An operation of a pipeline: its [__call__] and, when the object has
    the attribute, its [invert]. *)
Record transform : Type := mk_transform {
  t_call : pyval -> result pyval;
  t_invert : option (pyval -> result pyval)
}.

Module Compose.

Record t : Type := mk { transforms : list transform }.

Definition __init__ (transforms : list transform) : t := mk transforms.

(** [torchvision.transforms.Compose.__call__] *)
Fixpoint call_loop (ts : list transform) (img : pyval) : result pyval :=
  match ts with
  | [] => Ok img
  | op :: ts' => img' ← t_call op img; call_loop ts' img'
  end.

Definition __call__ (self : t) (img : pyval) : result pyval :=
  call_loop (transforms self) img.

Fixpoint invert_loop (ts : list transform) (sample : pyval)
    : result pyval :=
  match ts with
  | [] => Ok sample
  | op :: ts' =>
      match t_invert op with
      | None => Raise (AssertionError "missing invert op for transform")
      | Some inv => sample' ← inv sample; invert_loop ts' sample'
      end
  end.

Definition invert (self : t) (sample : pyval) : result pyval :=
  invert_loop (rev (transforms self)) sample.

End Compose.

(** ** CenterCrop *)

Module CenterCrop.

Record t : Type := mk {
  size : pyval * pyval;
  relative : bool;
  bordertype : border_type;
  borderval : list Z -> Q
}.

Definition __init__ (import_class : string -> result border_type)
    (size : pyval) (bordertype : named border_type)
    (borderval : list Z -> Q) : result t :=
  sz ← match size with
       | PyTuple l | PyList l =>
           match l with
           | [w; h] => Ok (w, h)
           | _ => Raise (AssertionError
                "expected center crop dim input as 2-item tuple (width,height)")
           end
       | PyInt _ | PyFloat _ => Ok (size, size)
       | _ => Raise (AssertionError
                "unexpected center crop dim input type (need tuple or int/float)")
       end;
  neg0 ← py_le0 (fst sz);
  neg1 ← (if neg0 : bool then Ok true else py_le0 (snd sz));
  if neg1 : bool then Raise (AssertionError "crop dimensions must be positive")
  else
    rel ← (if is_float (fst sz) then Ok true
           else if is_int (fst sz) then Ok false
           else Raise (AssertionError
                "unexpected center crop dim input type (need tuple or int/float)"));
    bt ← resolve import_class bordertype;
    Ok (mk sz (rel : bool) bt borderval).

Definition __call__ (self : t) (sample : pyval) : result pyval :=
  match sample with
  | PyArray a =>
      if (ndim a <? 2) || (3 <? ndim a)
      then Raise (AssertionError
             "bad input dimensions; must be 2-d, or 3-d (with channels)")
      else
        h ← shape_at a 0;
        w ← shape_at a 1;
        crop_height ← (if relative self
                       then s ← as_number (snd (size self));
                            Ok (py_round (s * inject_Z h))
                       else as_index (snd (size self)));
        crop_width ← (if relative self
                      then s ← as_number (fst (size self));
                           Ok (py_round (s * inject_Z w))
                      else as_index (fst (size self)));
        let tl := (w / 2 - crop_width / 2, h / 2 - crop_height / 2) in
        let br := (fst tl + crop_width, snd tl + crop_height) in
        crop ← safe_crop sample tl br (bordertype self) (borderval self);
        Ok (PyArray crop)
  | _ => Raise AttributeError
  end.

Definition invert (self : t) (sample : pyval) : result pyval :=
  Raise (AssertionError "cannot be inverted").

End CenterCrop.

(** ** Transpose *)

(** [l[k] = v] with numpy index semantics. *)
Definition np_setitem {A} (l : list A) (k : Z) (v : A) : result (list A) :=
  let n := Z.of_nat (length l) in
  let j := if k <? 0 then k + n else k in
  if (j <? 0) || (n <=? j) then Raise IndexError
  else Ok (<[Z.to_nat j := v]> l).

(** [out[ks[i]] = vs[i]] for every [i], starting from [acc]. *)
Fixpoint scatter {A} (ks : list nat) (vs : list A) (acc : list A) : list A :=
  match ks, vs with
  | k :: ks', v :: vs' => scatter ks' vs' (<[k := v]> acc)
  | _, _ => acc
  end.

(** The axes argument of [np.transpose] as numpy normalizes it. *)
Definition normalize_axis (n : nat) (ax : option Z) : result nat :=
  match ax with
  | None => Raise (TypeError "an integer is required")
  | Some k =>
      let j := if k <? 0 then k + Z.of_nat n else k in
      if (j <? 0) || (Z.of_nat n <=? j) then Raise ValueError
      else Ok (Z.to_nat j)
  end.

(** [np.transpose(a, axes)]: axis [i] of the result is axis [axes[i]] of
    [a], so the element at [idx] is the element of [a] whose index has
    [idx[i]] at position [axes[i]]. *)
Definition np_transpose (a : ndarray) (axes : list (option Z))
    : result ndarray :=
  let n := length (shape a) in
  if negb (length axes =? n)%nat then Raise ValueError
  else
    perm ← mapM (normalize_axis n) axes;
    if bool_decide (NoDup perm)
    then Ok {| shape := map (fun k => default 0%nat (shape a !! k)) perm;
               item := fun idx => item a (scatter perm idx (replicate n 0)) |}
    else Raise ValueError.

Module Transpose.

Record t : Type := mk {
  axes : list Z;
  axes_inv : list (option Z)
}.

(** [for i in range(len(axes)): axes_inv[axes[i]] = i] *)
Fixpoint init_loop (i : Z) (rest : list Z) (axes_inv : list (option Z))
    : result (list (option Z)) :=
  match rest with
  | [] => Ok axes_inv
  | ax :: rest' =>
      axes_inv' ← np_setitem axes_inv ax (Some i);
      init_loop (i + 1) rest' axes_inv'
  end.

(** [axes] is a 1-d integer array, so the check on [axes.ndim] passes. *)
Definition __init__ (axes : list Z) : result t :=
  if existsb (fun ax => Z.of_nat (length axes) <=? ax) axes
  then Raise (AssertionError "oob dim in axes")
  else
    inv ← init_loop 0 axes (replicate (length axes) None);
    Ok (mk axes inv).

Definition __call__ (self : t) (sample : ndarray) : result ndarray :=
  np_transpose sample (map Some (axes self)).

Definition invert (self : t) (sample : ndarray) : result ndarray :=
  np_transpose sample (axes_inv self).

End Transpose.

(** ** Duplicator *)

Definition copy_copy (v : pyval) : pyval := v.

Definition copy_deepcopy (v : pyval) : pyval := v.

Module Duplicator.

Record t : Type := mk { count : Z; deepcopy : bool }.

Definition __init__ (count : Z) (deepcopy : bool) : result t :=
  if count <=? 0 then Raise (AssertionError "invalid copy count")
  else Ok (mk count deepcopy).

(** [for idx in range(self.count): duplicates.append(...)] *)
Fixpoint call_loop (self : t) (sample : pyval) (iterations : nat)
    (duplicates : list pyval) : list pyval :=
  match iterations with
  | O => duplicates
  | S n =>
      call_loop self sample n
        (duplicates ++ [if deepcopy self then copy_deepcopy sample
                        else copy_copy sample])
  end.

Definition __call__ (self : t) (sample : pyval) : pyval :=
  PyList (call_loop self sample (Z.to_nat (count self)) []).

Definition invert (self : t) (sample : pyval) : result pyval :=
  match sample with
  | PyList l =>
      if negb (Z.of_nat (length l) =? count self)
      then Raise (AssertionError "invalid sample list length")
      else py_getitem sample 0
  | _ => Raise (AssertionError "invalid sample type (should be list)")
  end.

End Duplicator.

(** ** Sizes given in pixels or relative to the image *)

(** A validated (width, height) pair: two [int]s or two [float]s. *)
Inductive size_spec : Type :=
| AbsSize (w h : Z)
| RelSize (w h : Q).

(** The checks shared by the constructors that take a size: a pair of
    same-typed numbers, or a scalar standing for both. *)
Definition parse_size (arg : pyval) (what : string) : result size_spec :=
  match arg with
  | PyTuple l | PyList l =>
      if negb (length l =? 2)%nat
      then Raise (AssertionError
             ("expected " ++ what ++
              " to be two-element list or tuple, or single scalar"))
      else if negb (forallb is_int l) && negb (forallb is_float l)
      then Raise (AssertionError
             ("expected " ++ what ++
              " pair elements to be the same type (int or float)"))
      else match l with
           | [PyInt w; PyInt h] => Ok (AbsSize w h)
           | [PyFloat w; PyFloat h] => Ok (RelSize w h)
           | _ => Raise (AssertionError
                    ("expected " ++ what ++
                     " pair elements to be the same type (int or float)"))
           end
  | PyInt z => Ok (AbsSize z z)
  | PyFloat q => Ok (RelSize q q)
  | _ => Raise (AssertionError
           ("unexpected " ++ what ++ " type (need tuple/list/int/float)"))
  end.

(** ** Tile *)

(** Upper bound on the iterations of a [while x + size <= limit] loop
    that starts at [start] and advances by at least one. *)
Definition loop_fuel (start limit : Z) : nat := Z.to_nat (limit - start + 1).

Module Tile.

(** (x, y, w, h) *)
Definition rect : Type := Z * Z * Z * Z.

Record t : Type := mk {
  tile_size : size_spec;
  tile_overlap : Q;
  min_mask_iou : Q;
  offset_overlap : bool;
  bordertype : border_type;
  borderval : list Z -> Q
}.

Definition __init__ (import_class : string -> result border_type)
    (tile_size tile_overlap min_mask_iou : pyval) (offset_overlap : bool)
    (bordertype : named border_type) (borderval : list Z -> Q)
    : result t :=
  ts ← parse_size tile_size "tile size";
  ov ← match tile_overlap with
       | PyFloat q =>
           if Qlt_bool q 0 || Qle_bool 1 q
           then Raise (AssertionError
                  "invalid tile overlap (should be float in [0,1[)")
           else Ok q
       | _ => Raise (AssertionError
                "invalid tile overlap (should be float in [0,1[)")
       end;
  iou ← match min_mask_iou with
        | PyFloat q =>
            if Qlt_bool q 0 || Qlt_bool 1 ov
            then Raise (AssertionError
                   "invalid minimum mask IoU score (should be float in [0,1])")
            else Ok q
        | _ => Raise (AssertionError
                 "invalid minimum mask IoU score (should be float in [0,1])")
        end;
  bt ← resolve import_class bordertype;
  Ok (mk ts ov iou offset_overlap bt borderval).

(** [tile_size] resolved against the image. *)
Definition resolved_tile_size (self : t) (width height : Z) : Z * Z :=
  match tile_size self with
  | RelSize w h =>
      (py_round (mul_int_float width w), py_round (mul_int_float height h))
  | AbsSize w h => (w, h)
  end.

Definition overlap_of (self : t) (tile : Z * Z) : Z * Z :=
  (py_round (mul_int_float (fst tile) (tile_overlap self)),
   py_round (mul_int_float (snd tile) (tile_overlap self))).

Definition overlap_offset_of (self : t) (overlap : Z * Z) : Z * Z :=
  if offset_overlap self then (- fst overlap / 2, - snd overlap / 2)
  else (0, 0).

Definition step_size_of (tile overlap : Z * Z) : Z * Z :=
  (Z.max (fst tile - (fst overlap / 2) * 2) 1,
   Z.max (snd tile - (snd overlap / 2) * 2) 1).

Section Placement.

Variables (mask : pyval) (tile step overlap_offset : Z * Z).
Variables (width height : Z) (req_mask_area : Q).

(** [np.count_nonzero(safe_crop(mask, ...)) >= req_mask_area] *)
Definition covered (col row : Z) : result bool :=
  crop ← safe_crop mask (col, row) (col + fst tile, row + snd tile)
                   BORDER_CONSTANT zero_border;
  Ok (Qle_bool req_mask_area (inject_Z (count_nonzero crop))).

(** The exhaustive scan over [itertools.product(row_range, col_range)],
    left at the first accepted placement. *)
Fixpoint search (coords : list (Z * Z)) : result (option (Z * Z)) :=
  match coords with
  | [] => Ok None
  | (row, col) :: coords' =>
      hit ← covered col row;
      if hit : bool
      then Ok (Some
             (fst overlap_offset + (col - fst overlap_offset) mod fst step,
              snd overlap_offset + (row - snd overlap_offset) mod snd step))
      else search coords'
  end.

Definition visit (col row : Z) (tile_rects : list rect)
    : result (list rect) :=
  match mask with
  | PyNone => Ok (tile_rects ++ [(col, row, fst tile, snd tile)])
  | _ =>
      hit ← covered col row;
      Ok (if hit : bool
          then tile_rects ++ [(col, row, fst tile, snd tile)]
          else tile_rects)
  end.

(** [while col + tile_size[0] <= width - overlap_offset[0]] *)
Fixpoint col_loop (fuel : nat) (row col : Z) (tile_rects : list rect)
    : result (list rect) :=
  match fuel with
  | O => Ok tile_rects
  | S fuel' =>
      if col + fst tile <=? width - fst overlap_offset
      then tile_rects' ← visit col row tile_rects;
           col_loop fuel' row (col + fst step) tile_rects'
      else Ok tile_rects
  end.

(** [while row + tile_size[1] <= height - overlap_offset[1]] *)
Fixpoint row_loop (fuel : nat) (col0 row : Z) (tile_rects : list rect)
    : result (list rect) :=
  match fuel with
  | O => Ok tile_rects
  | S fuel' =>
      if row + snd tile <=? height - snd overlap_offset
      then tile_rects' ←
             col_loop (loop_fuel (col0 + fst tile)
                                 (width - fst overlap_offset))
                      row col0 tile_rects;
           row_loop fuel' col0 (row + snd step) tile_rects'
      else Ok tile_rects
  end.

Definition grid (offset_coord : Z * Z) : result (list rect) :=
  row_loop (loop_fuel (snd offset_coord + snd tile)
                      (height - snd overlap_offset))
           (fst offset_coord) (snd offset_coord) [].

End Placement.

Definition _get_tile_rects (self : t) (image mask : pyval)
    : result (list rect) :=
  let image := asarray_if_pil image in
  let mask := asarray_if_pil mask in
  height ← py_shape image 0;
  width ← py_shape image 1;
  let tile := resolved_tile_size self width height in
  let overlap := overlap_of self tile in
  let overlap_offset := overlap_offset_of self overlap in
  let step := step_size_of tile overlap in
  let req_mask_area :=
    mul_int_float (fst tile * snd tile) (min_mask_iou self) in
  offset_coord ←
    match mask with
    | PyNone => Ok (Some overlap_offset)
    | _ =>
        mask_h ← py_shape mask 0;
        mismatch ← (if negb (height =? mask_h) then Ok true
                    else mask_w ← py_shape mask 1;
                         Ok (negb (width =? mask_w)));
        if mismatch : bool
        then Raise (AssertionError "image and mask dimensions mismatch")
        else
          match mask with
          | PyArray m =>
              if negb (ndim m =? 2)
              then Raise (AssertionError
                     "mask should be 2d binary (uchar) array")
              else
                let row_range :=
                  py_range (snd overlap_offset)
                           (height - snd overlap_offset - snd tile + 1) in
                let col_range :=
                  py_range (fst overlap_offset)
                           (width - fst overlap_offset - fst tile + 1) in
                search mask tile step overlap_offset req_mask_area
                       (list_prod row_range col_range)
          | _ => Raise AttributeError
          end
    end;
  match offset_coord with
  | None => Ok []
  | Some coord =>
      grid mask tile step overlap_offset width height req_mask_area coord
  end.

Definition __call__ (self : t) (image mask : pyval)
    : result (list ndarray) :=
  tile_rects ← _get_tile_rects self image mask;
  mapM (fun r : rect =>
          let '(x, y, w, h) := r in
          safe_crop image (x, y) (x + w, y + h)
                    (bordertype self) (borderval self))
       tile_rects.

Definition count_tiles (self : t) (image mask : pyval) : result Z :=
  tile_rects ← _get_tile_rects self image mask;
  Ok (Z.of_nat (length tile_rects)).

Definition invert (self : t) (image mask : pyval) : result pyval :=
  match mask with
  | PyNone => Raise NotImplementedError
  | _ => Raise (AssertionError
           "cannot invert operation, mask might have forced the loss of image content")
  end.

End Tile.

(** ** Resize *)

Module Resize.

Record t : Type := mk {
  interp : Z;
  buffer : bool;
  dsize : Z * Z;
  dst : pyval;
  fx : Q;
  fy : Q
}.

Definition set_dst (self : t) (d : pyval) : t :=
  mk (interp self) (buffer self) (dsize self) d (fx self) (fy self).

Definition __init__ (import_class : string -> result Z)
    (dsize : Z * Z) (fx fy : Q) (interp : named Z) (buffer : bool)
    : result t :=
  it ← resolve import_class interp;
  if Qlt_bool fx 0 || Qlt_bool fy 0
  then Raise (AssertionError
         "scale factors should be null (ignored) or positive")
  else if (fst dsize <? 0) || (snd dsize <? 0)
  then Raise (AssertionError
         "destination image size should be null (ignored) or positive")
  else if Qeq_bool fx 0 && Qeq_bool fy 0
          && (fst dsize =? 0) && (snd dsize =? 0)
  then Raise (AssertionError
         "need to specify either destination size or scale factor(s)")
  else Ok (mk it buffer dsize PyNone fx fy).

(** What a [dst=] buffer holds after [cv2.resize] produced [r]: the
    result when the buffer is an array of that shape, else what it
    held before. *)
Definition written (buf : pyval) (r : ndarray) : pyval :=
  match buf with
  | PyArray d => if bool_decide (shape d = shape r) then PyArray r else buf
  | _ => buf
  end.

(** [for idx in range(len(slices)): cv.resize(slice[idx], ..., dst=slices_dst[idx], ...)].
    The subscripted name is [slice]; the function has no local of that
    name (the list of channels is [slices]), so it denotes the builtin. *)
Fixpoint resize_loop (self : t) (idxs : list Z) (slices_dst : list pyval)
    : result (list pyval) :=
  match idxs with
  | [] => Ok slices_dst
  | idx :: idxs' =>
      src ← py_getitem builtin_slice idx;
      r ← cv_resize_py src (dsize self) (fx self) (fy self);
      resize_loop self idxs'
        (alter (fun buf => written buf r) (Z.to_nat idx) slices_dst)
  end.

(** Returns the result together with the object, whose [dst] the call
    may have replaced. *)
Definition __call__ (self : t) (sample : pyval) : result pyval * t :=
  match asarray_if_pil sample with
  | PyArray a =>
      if (ndim a <? 2) || (3 <? ndim a)
      then (Raise (AssertionError
              "bad input dimensions; must be 2-d, or 3-d (with channels)"),
            self)
      else if (ndim a <? 3)
              || (Z.of_nat (default 0%nat (shape a !! 2%nat)) <=? 4)
      then
        if buffer self
        then
          match cv_resize a (dsize self) (fx self) (fy self) with
          | Raise e => (Raise e, self)
          | Ok r =>
              let self' := set_dst self (written (dst self) r) in
              match dst self' with
              | PyArray d =>
                  if ndim d =? 2
                  then (PyArray <$> expand_dims2 d, self')
                  else (Ok (PyArray d), self')
              | _ => (Raise AttributeError, self')
              end
          end
        else
          (r ← cv_resize a (dsize self) (fx self) (fy self);
           r' ← (if ndim r =? 2 then expand_dims2 r else Ok r);
           Ok (PyArray r'),
           self)
      else
        let slices_dst := if buffer self then dst self else PyNone in
        match split_channels a with
        | Raise e => (Raise e, self)
        | Ok slices =>
            let slices_dst :=
              match slices_dst with
              | PyList l =>
                  if (length l =? length slices)%nat then l
                  else replicate (length slices) PyNone
              | _ => replicate (length slices) PyNone
              end in
            match resize_loop self
                    (py_range 0 (Z.of_nat (length slices))) slices_dst with
            | Raise e => (Raise e, self)
            | Ok slices_dst' =>
                let self' := if buffer self
                             then set_dst self (PyList slices_dst')
                             else self in
                (PyArray <$> np_stack2 slices_dst', self')
            end
        end
  | _ => (Raise AttributeError, self)
  end.

Definition invert (self : t) (sample : pyval) : result pyval :=
  Raise (AssertionError "missing implementation").

End Resize.

(** ** The random source *)

(** [np.random] is a tape of draws and a read position; a draw is the
    fractional part of the tape entry, so every tape is a source of
    values in [[0, 1)]. *)
Record rng : Type := mk_rng { tape : nat -> Q; pos : nat }.

Definition rand (A : Type) : Type := rng -> result A * rng.

#[global] Instance rand_ret : MRet rand := fun A a g => (Ok a, g).

#[global] Instance rand_bind : MBind rand :=
  fun A B f m g =>
    match m g with
    | (Ok a, g') => f a g'
    | (Raise e, g') => (Raise e, g')
    end.

(** An exception-raising computation that draws nothing. *)
Definition lift {A} (m : result A) : rand A := fun g => (m, g).

(** [np.random.random()] *)
Definition np_random : rand Q :=
  fun g =>
    let x := tape g (pos g) in
    (Ok (x - inject_Z (Qfloor x))%Q, mk_rng (tape g) (S (pos g))).

(** [np.random.uniform(low, high)] *)
Definition np_uniform (low high : Q) : rand Q :=
  u ← np_random; mret (low + (high - low) * u)%Q.

(** [np.random.randint(low, high)] *)
Definition np_randint (low high : Z) : rand Z :=
  if high <=? low then lift (Raise ValueError)
  else u ← np_random; mret (low + Qfloor (u * inject_Z (high - low))).

(** ** RandomResizedCrop *)

Definition is_none (v : pyval) : bool :=
  match v with PyNone => true | _ => false end.

Definition is_number (v : pyval) : bool := is_int v || is_float v.

(** [(isinstance(s, float) and 0 < s <= 1) or (isinstance(s, int) and s > 0)] *)
Definition valid_size_value (s : pyval) : bool :=
  match s with
  | PyFloat q => Qlt_bool 0 q && Qle_bool q 1
  | PyInt z => 0 <? z
  | _ => false
  end.

(** [min(a, b)] and [max(a, b)] of two numbers. *)
Definition py_min (a b : pyval) : result pyval :=
  x ← as_number a; y ← as_number b;
  Ok (if Qlt_bool y x then b else a).

Definition py_max (a b : pyval) : result pyval :=
  x ← as_number a; y ← as_number b;
  Ok (if Qlt_bool x y then b else a).

Module RandomResizedCrop.

Record t : Type := mk {
  output_size : size_spec;
  input_size : (pyval * pyval) * (pyval * pyval);
  ratio : option (Q * Q);
  probability : Q;
  random_attempts : Z;
  flags : Z
}.

Definition size_values (s : size_spec) : list pyval :=
  match s with
  | AbsSize w h => [PyInt w; PyInt h]
  | RelSize w h => [PyFloat w; PyFloat h]
  end.

Definition is_pair_of (container : pyval -> bool) (v : pyval) : bool :=
  container v &&
  match v with
  | PyTuple l | PyList l => (length l =? 2)%nat
  | _ => false
  end.

Definition is_tuple (v : pyval) : bool :=
  match v with PyTuple _ => true | _ => false end.

Definition elements (v : pyval) : list pyval :=
  match v with PyTuple l | PyList l => l | _ => [] end.

Definition __init__ (import_class : string -> result Z)
    (output_size input_size ratio : pyval) (probability : Q)
    (random_attempts : Z) (flags : named Z) : result t :=
  os ← parse_size output_size "output size";
  if negb (forallb valid_size_value (size_values os))
  then Raise (AssertionError "invalid output size value")
  else
    match input_size with
    | PyTuple [lo; hi] | PyList [lo; hi] =>
        '(isz, rt) ←
          (if forallb is_int [lo; hi] || forallb is_float [lo; hi]
           then
             rt ← match ratio with
                  | PyTuple r | PyList r =>
                      match r with
                      | [PyFloat a; PyFloat b] =>
                          Ok (if Qlt_bool b a then (b, a) else (a, b))
                      | [_; _] => Raise (AssertionError
                            "expected ratio pair elements to be float values")
                      | _ => Raise (AssertionError
                            "invalid ratio tuple/list length (expected two elements)")
                      end
                  | PyFloat r => Ok (r, r)
                  | _ => Raise (AssertionError
                        "invalid aspect ratio, expected 2-element tuple/list or single float")
                  end;
             mn ← py_min lo hi;
             mx ← py_max lo hi;
             Ok (((mn, mn), (mx, mx)), Some rt)
           else if forallb (is_pair_of is_tuple) [lo; hi]
                   || forallb (is_pair_of is_list) [lo; hi]
           then
             if match ratio with
                | PyTuple r | PyList r => negb (length r =? 0)%nat
                | _ => false
                end
             then Raise (AssertionError
                    "cannot specify input sizes in two-element tuples/lists and also provide aspect ratios")
             else if negb (forallb is_number (elements lo ++ elements hi))
             then Raise (AssertionError
                    "input sizes should all be same type, either int or float")
             else
               (* input_size becomes a flat 4-tuple of numbers; the
                  validation loop then iterates over its first number *)
               Raise (TypeError "object is not iterable")
           else Raise (AssertionError
                  "expected input size to be two-elem list/tuple of int/float or two-element list/tuple of int/float"));
        if negb (forallb valid_size_value
                   [fst (fst isz); snd (fst isz); fst (snd isz); snd (snd isz)])
        then Raise (AssertionError "invalid input size value")
        else if Qlt_bool probability 0 || Qlt_bool 1 probability
        then Raise (AssertionError
               "invalid probability value (should be in [0,1]")
        else if random_attempts <=? 0
        then Raise (AssertionError
               "invalid random_attempts value (should be > 0)")
        else
          fl ← resolve import_class flags;
          Ok (mk os isz rt probability random_attempts fl)
    | _ => Raise (AssertionError
             "expected input size to be provided as a pair of elements or a pair of tuples/lists")
    end.

(** The locals of [__call__] that the sampling loop assigns. *)
Record target : Type := mk_target {
  target_width : pyval;
  target_height : pyval;
  target_row : pyval;
  target_col : pyval
}.

(** One draw of the region size: (target_width, target_height). *)
Definition sample_region (self : t) (image_width image_height : Z)
    : rand (Z * Z) :=
  let '((in00, in01), (in10, in11)) := input_size self in
  match ratio self with
  | None =>
      lo_w ← lift (as_number in00); hi_w ← lift (as_number in10);
      tw ← np_uniform lo_w hi_w;
      lo_h ← lift (as_number in01); hi_h ← lift (as_number in11);
      th ← np_uniform lo_h hi_h;
      let '(tw, th) :=
        if is_float in00
        then ((tw * inject_Z image_width)%Q, (th * inject_Z image_height)%Q)
        else (tw, th) in
      mret (py_round tw, py_round th)
  | Some (r_min, r_max) =>
      if is_number in00
      then
        lo ← lift (as_number in00); hi ← lift (as_number in10);
        u ← np_uniform lo hi;
        let target_area :=
          if is_float in00
          then (u * inject_Z (image_height * image_width))%Q
          else (u * u)%Q in
        aspect_ratio ← np_uniform r_min r_max;
        tw ← lift (math_sqrt_round (target_area * aspect_ratio));
        th ← (if Qeq_bool aspect_ratio 0 then lift (Raise ZeroDivisionError)
              else lift (math_sqrt_round (target_area / aspect_ratio)));
        coin ← np_random;
        mret (if Qlt_bool coin (1 # 2) then (th, tw) else (tw, th))
      else lift (Raise (AssertionError "unhandled crop strategy"))
  end.

(** [for attempt in range(self.random_attempts)], left by [break] at
    the first region that fits. *)
Fixpoint attempts (self : t) (image_width image_height : Z)
    (remaining : nat) (tg : target) : rand target :=
  match remaining with
  | O => mret tg
  | S remaining' =>
      '(tw, th) ← sample_region self image_width image_height;
      if (tw <=? image_width) && (th <=? image_height)
      then
        col ← np_randint (Z.min 0 (image_width - tw))
                         (Z.max 0 (image_width - tw) + 1);
        row ← np_randint (Z.min 0 (image_height - th))
                         (Z.max 0 (image_height - th) + 1);
        mret (mk_target (PyInt tw) (PyInt th) (PyInt row) (PyInt col))
      else
        attempts self image_width image_height remaining'
                 (mk_target (PyInt tw) (PyInt th)
                            (target_row tg) (target_col tg))
  end.

Definition __call__ (self : t) (sample : pyval) : rand pyval :=
  let sample := asarray_if_pil sample in
  skip ← (if Qlt_bool (probability self) 1
          then u ← np_uniform 0 1; mret (Qlt_bool (probability self) u)
          else mret false);
  if skip : bool then mret sample
  else
    h ← lift (py_shape sample 0);
    w ← lift (py_shape sample 1);
    let image_height := PyInt h in
    let image_width := PyInt w in
    tg ← attempts self w h (Z.to_nat (random_attempts self))
                  (mk_target PyNone PyNone PyNone PyNone);
    let tg :=
      if is_none image_height || is_none image_width
      then (* fallback, use centered crop *)
        let side := Z.min h w in
        mk_target (PyInt side) (PyInt side)
                  (PyInt ((h - side) / 2)) (PyInt ((w - side) / 2))
      else tg in
    lift (
      right ← py_add (target_col tg) (target_width tg);
      bottom ← py_add (target_row tg) (target_height tg);
      tl0 ← as_index (target_col tg);
      tl1 ← as_index (target_row tg);
      br0 ← as_index right;
      br1 ← as_index bottom;
      crop ← safe_crop sample (tl0, tl1) (br0, br1)
                       BORDER_CONSTANT zero_border;
      match output_size self with
      | RelSize ow oh =>
          PyArray <$> cv_resize crop (py_round (mul_int_float w ow),
                                       py_round (mul_int_float h oh)) 0 0
      | AbsSize ow oh => PyArray <$> cv_resize crop (ow, oh) 0 0
      end).

Definition invert (self : t) (sample : pyval) : result pyval :=
  Raise (AssertionError "cannot be inverted").

End RandomResizedCrop.

(** ** Definitions used to state the properties *)

(** The step of [Compose.invert] for one operation: its [invert], or the
    failure of the [hasattr] check. *)
Definition invert_or_raise (op : transform) (sample : pyval) : result pyval :=
  match t_invert op with
  | Some inv => inv sample
  | None => Raise (AssertionError "missing invert op for transform")
  end.

(** [n] positions, [step] apart, from [start]. *)
Fixpoint lattice (start step : Z) (n : nat) : list Z :=
  match n with
  | O => []
  | S n' => start :: lattice (start + step) step n'
  end.

(** How many positions [start + k * step] leave room for [size] below
    [limit]. *)
Definition lattice_count (start size limit step : Z) : nat :=
  if start + size <=? limit
  then S (Z.to_nat ((limit - size - start) / step))
  else O.

(** The overlap in pixels on one axis: the tile size times the ratio, a
    double product, rounded to an integer. *)
Definition pixel_overlap (tile_px : Z) (ratio : Q) : Z :=
  py_round (mul_int_float tile_px ratio).



(** The tiles of a regular grid, row by row. *)
Definition grid_rects (tile start step limit : Z * Z) : list Tile.rect :=
  flat_map
    (fun y =>
       map (fun x => (x, y, fst tile, snd tile))
           (lattice (fst start) (fst step)
              (lattice_count (fst start) (fst tile) (fst limit) (fst step))))
    (lattice (snd start) (snd step)
       (lattice_count (snd start) (snd tile) (snd limit) (snd step))).

(** None of the next [n] sampled regions fits inside a [w] x [h] image. *)
Fixpoint no_fit (self : RandomResizedCrop.t) (w h : Z) (n : nat) (g : rng)
    : Prop :=
  match n with
  | O => True
  | S n' =>
      exists tw th g',
        RandomResizedCrop.sample_region self w h g = (Ok (tw, th), g') /\
        (tw <=? w) && (th <=? h) = false /\
        no_fit self w h n' g'
  end.

(** The permutation that undoes [p], a permutation of [0 .. n-1]: it has
    [i] at position [p[i]]. *)
Definition inverse_permutation (n : nat) (p : list nat) : list nat :=
  scatter p (seq 0 n) (replicate n 0%nat).

(** Whether the rectangle from [tl] to [br] leaves an image of [h] rows
    and [w] columns, so that [safe_crop] pads the image before it cuts. *)
Definition needs_border (h w : nat) (tl br : Z * Z) : bool :=
  (fst tl <? 0) || (snd tl <? 0) || (Z.of_nat w <? fst br)
  || (Z.of_nat h <? snd br).

(** The channel axes of an array that went through OpenCV: a single
    channel is not kept as an axis. *)
Definition cv_channels (rest : list nat) : list nat :=
  match rest with
  | [1%nat] => []
  | _ => rest
  end.

(** The channel axes of a crop of an image with channel axes [rest]. *)
Definition crop_channels (h w : nat) (rest : list nat) (tl br : Z * Z)
    : list nat :=
  if needs_border h w tl br then cv_channels rest else rest.


(** ** Definitions used to state further properties *)

(** The pixel at row [y], column [x] of the image continued beyond its
    bounds by the border rule [bt], with [value] filling a constant
    border. *)
Definition extended_pixel (a : ndarray) (bt : border_type)
    (value : list Z -> Q) (y x : Z) (ch : list Z) : Q :=
  match shape a with
  | h :: w :: _ =>
      let H := Z.of_nat h in
      let W := Z.of_nat w in
      if (0 <=? y) && (y <? H) && (0 <=? x) && (x <? W)
      then item a (y :: x :: ch)
      else
        match bt with
        | BORDER_CONSTANT => value ch
        | _ =>
            if (0 <? H) && (0 <? W)
            then item a (borderInterpolate y H bt
                           :: borderInterpolate x W bt :: ch)
            else value ch
        end
  | _ => value ch
  end.

(** The axes of [np.transpose] with the negative ones counted from the
    last axis of an array of rank [n]. *)
Definition normalized_axes (n : nat) (axes : list Z) : list nat :=
  map (fun ax => Z.to_nat (if ax <? 0 then ax + Z.of_nat n else ax)) axes.

(** What the loops of [Tile._get_tile_rects] guarantee of a rect they
    append when started at column [col0] and row [row0]: the tile size,
    the bounds of the loop guards and, with a mask, the coverage test. *)
Definition placed (mask : pyval) (tile overlap_offset : Z * Z)
    (width height : Z) (req_mask_area : Q) (col0 row0 : Z) (r : Tile.rect)
    : Prop :=
  exists x y,
    r = (x, y, fst tile, snd tile) /\
    col0 <= x /\ x + fst tile <= width - fst overlap_offset /\
    row0 <= y /\ y + snd tile <= height - snd overlap_offset /\
    (mask = PyNone \/ Tile.covered mask tile req_mask_area x y = Ok true).

(** Whether an image with channel axes [rest] is 3-d with one channel. *)
Definition single_channel (rest : list nat) : bool :=
  bool_decide (rest = [1%nat]).

(** Whether the crop from [tl] to [br] of such an image comes back
    without its channel axis: the image is padded, by OpenCV, and has a
    single channel. *)
Definition crop_drops_channel (h w : nat) (rest : list nat)
    (tl br : Z * Z) : bool :=
  needs_border h w tl br && single_channel rest.

(** ** thelper.utils.get_label_color_mapping *)

(** [(byteval & (1 << ch)) != 0] *)
Definition bitget (byteval ch : Z) : bool :=
  negb (Z.land byteval (Z.shiftl 1 ch) =? 0).

(** [for j in range(8)]: one bit of each channel per iteration, three
    bits of [idx] consumed. *)
Fixpoint color_loop (js : list Z) (r g b idx : Z) : Z * Z * Z :=
  match js with
  | [] => (r, g, b)
  | j :: js' =>
      color_loop js'
        (Z.lor r (Z.shiftl (Z.b2z (bitget idx 0)) (7 - j)))
        (Z.lor g (Z.shiftl (Z.b2z (bitget idx 1)) (7 - j)))
        (Z.lor b (Z.shiftl (Z.b2z (bitget idx 2)) (7 - j)))
        (Z.shiftr idx 3)
  end.

(** [np.array([r, g, b], dtype=np.uint8)]: the integers reduced to eight
    bits. *)
Definition uint8_triplet (rgb : Z * Z * Z) : ndarray :=
  let '(r, g, b) := rgb in
  {| shape := [3%nat];
     item := fun idx =>
       match idx with
       | [0] => inject_Z (r mod 256)
       | [1] => inject_Z (g mod 256)
       | [2] => inject_Z (b mod 256)
       | _ => 0%Q
       end |}.

Definition get_label_color_mapping (idx : Z) : ndarray :=
  uint8_triplet (color_loop (py_range 0 8) 0 0 0 idx).

(** ** thelper.utils.get_key and get_key_def *)

(** The [key] argument: one key, or a list of alternative keys. *)
Inductive dict_key : Type :=
| Key (k : string)
| KeyList (ks : list string).

(** [for k in key: if k in config: return config[k]] *)
Fixpoint first_present (ks : list string) (config : gmap string pyval)
    : option pyval :=
  match ks with
  | [] => None
  | k :: ks' =>
      match config !! k with
      | Some v => Some v
      | None => first_present ks' config
      end
  end.

(** [raise AssertionError(msg)] when [msg] is given, else the message of
    the function. *)
Definition key_error (msg : option string) (fallback : string) : exn :=
  AssertionError (default fallback msg).

Section GetKey.

(** [str(key)] of a list of keys, for the error message. *)
Variable str_of_keys : list string -> string.

Definition get_key (key : dict_key) (config : gmap string pyval)
    (msg : option string) : result pyval :=
  match key with
  | KeyList ks =>
      if (length ks <=? 1)%nat
      then Raise (key_error msg
                    "must provide at least two valid keys to test")
      else
        match first_present ks config with
        | Some v => Ok v
        | None =>
            Raise (key_error msg
                     (String.append
                        "config dictionary missing a field named as one of '"
                        (String.append (str_of_keys ks) "'")))
        end
  | Key k =>
      match config !! k with
      | None =>
          Raise (key_error msg
                   (String.append "config dictionary missing '"
                      (String.append k "' field")))
      | Some v => Ok v
      end
  end.

Definition get_key_def (key : dict_key) (config : gmap string pyval)
    (default : pyval) (msg : option string) : result pyval :=
  match key with
  | KeyList ks =>
      if (length ks <=? 1)%nat
      then Raise (key_error msg
                    "must provide at least two valid keys to test")
      else
        match first_present ks config with
        | Some v => Ok v
        | None => Ok default
        end
  | Key k =>
      match config !! k with
      | None => Ok default
      | Some v => Ok v
      end
  end.

End GetKey.

(** ** thelper.utils.clipstr *)

(** [s[:n]] of a sequence. *)
Definition py_prefix {A} (s : list A) (n : Z) : list A :=
  take (Z.to_nat (slice_bound (Z.of_nat (length s)) n)) s.

(** [fill * n]: no copy at all for [n <= 0]. *)
Definition py_repeat {A} (fill : list A) (n : Z) : list A :=
  concat (replicate (Z.to_nat n) fill).

(** A string is the sequence of its characters. *)
Definition clipstr {A} (s : list A) (size : Z) (fill : list A) : list A :=
  let s := if size <? Z.of_nat (length s) then py_prefix s size else s in
  if Z.of_nat (length s) <? size
  then py_repeat fill (size - Z.of_nat (length s)) ++ s
  else s.

(** ** ToNumpy *)

(** The index [idx] with its last component counted from the other end
    of an axis of length [n]. *)
Fixpoint flip_index (n : Z) (idx : list Z) : list Z :=
  match idx with
  | [] => []
  | [i] => [n - 1 - i]
  | i :: rest => i :: flip_index n rest
  end.

(** [a[..., ::-1]]: the last axis reversed; a 0-d array has no axis to
    index. *)
Definition flip_last_axis (a : ndarray) : result ndarray :=
  match last (shape a) with
  | None => Raise IndexError
  | Some n =>
      Ok {| shape := shape a;
            item := fun idx => item a (flip_index (Z.of_nat n) idx) |}
  end.

Module ToNumpy.

Record t : Type := mk { reorder_BGR : bool }.

Definition __init__ (reorder_BGR : bool) : t := mk reorder_BGR.

(** What the operation is called on: a [torch.Tensor], given by the
    array that [sample.cpu().numpy()] returns, or any other object. *)
Inductive sample : Type :=
| Tensor (data : ndarray)
| Object (v : pyval).

Definition __call__ (self : t) (s : sample) : result ndarray :=
  a ← match s with
      | Object (PyArray a) => Ok a
      | Tensor data => np_transpose data [Some 1; Some 2; Some 0]
      | Object (PyPIL a) => Ok a
      | Object _ =>
          Raise (AssertionError "unknown image type, cannot process sample")
      end;
  if reorder_BGR self then flip_last_axis a else Ok a.

Definition invert (self : t) (s : sample) : result ndarray :=
  Raise (AssertionError "cannot be inverted").

End ToNumpy.

(** ** ImageTransformWrapper *)

(** [round(x, 1)] *)
Definition round1 (x : Q) : Q := (inject_Z (py_round (x * 10)) / 10)%Q.

Module ImageTransformWrapper.

(** [operation] is the wrapped callable with its keyword parameters
    applied; it may draw from the random source. *)
Record t : Type := mk {
  operation : pyval -> rand pyval;
  probability : Q;
  force_convert : bool
}.

Section Call.

(** [PIL.Image.fromarray] and [np.asarray]. *)
Variables (fromarray asarray : pyval -> result pyval).

(** [for idx in range(len(samples))]: each sample replaced by the
    result of the operation, converted before and after when
    [cvt_array] is set. *)
Fixpoint apply_loop (self : t) (cvt_array : bool) (samples : list pyval)
    : rand (list pyval) :=
  match samples with
  | [] => mret []
  | s :: rest =>
      s1 ← (if cvt_array then lift (fromarray s) else mret s);
      s2 ← operation self s1;
      s3 ← (if cvt_array then lift (asarray s2) else mret s2);
      rest' ← apply_loop self cvt_array rest;
      mret (s3 :: rest')
  end.

Definition __call__ (self : t) (samples : pyval) : rand pyval :=
  match samples with
  | PyNone => mret PyNone
  | PyList [] => mret (PyList [])
  | _ =>
      let '(in_list, l) :=
        match samples with
        | PyList l => (true, l)
        | _ => (false, [samples])
        end in
      cvt_array ←
        lift (match l with
              | PyArray _ :: _ => Ok (force_convert self)
              | PyPIL _ :: _ => Ok false
              | _ => Raise (AssertionError
                       "unexpected input sample type (must be np.ndarray or PIL.Image)")
              end);
      go ← (if Qle_bool 1 (probability self) then mret true
            else u ← np_uniform 0 1;
                 mret (Qle_bool (round1 u) (probability self)));
      l' ← (if go : bool then apply_loop self cvt_array l else mret l);
      mret (if negb in_list && (length l' =? 1)%nat
            then default PyNone (head l')
            else PyList l')
  end.

End Call.

End ImageTransformWrapper.

(** * Properties *)

(** ** The error monad *)

Lemma bind_Ok {A B} (f : A -> result B) (a : A) : (Ok a ≫= f) = f a.
Proof. reflexivity. Qed.

Lemma bind_Raise {A B} (f : A -> result B) (e : exn) :
  (Raise e ≫= f) = Raise e.
Proof. reflexivity. Qed.

Lemma bind_returns {A B} (f : A -> result B) (m : result A) (b : B) :
  (m ≫= f) = Ok b -> exists a, m = Ok a /\ f a = Ok b.
Proof. destruct m as [a|e]; simpl; [eauto | discriminate]. Qed.

Lemma mapM_total {A B} (f : A -> result B) (l : list A) :
  (forall x, In x l -> returns (f x)) ->
  exists l', mapM f l = Ok l' /\ length l' = length l.
Proof.
  induction l as [|x l IH]; intros Hf.
  - exists []. split; reflexivity.
  - destruct (Hf x) as [y Hy]; [now left|].
    destruct IH as [l' [Hl' Hlen]]; [intros z Hz; apply Hf; now right|].
    exists (y :: l'). split; [|simpl; congruence].
    simpl. rewrite Hy. simpl. rewrite Hl'. reflexivity.
Qed.

Lemma mapM_length {A B} (f : A -> result B) (l : list A) (l' : list B) :
  mapM f l = Ok l' -> length l' = length l.
Proof.
  revert l'. induction l as [|x l IH]; intros l' H; simpl in H.
  - injection H as <-. reflexivity.
  - apply bind_returns in H as [y [_ H]].
    apply bind_returns in H as [k [Hk H]].
    injection H as <-. simpl. f_equal. now apply IH.
Qed.

(** ** Slices and the safe bordered crop *)

Ltac bool_cases :=
  repeat match goal with
    | |- context [?a <? ?b] => destruct (Z.ltb_spec a b)
    | |- context [?a <=? ?b] => destruct (Z.leb_spec a b)
    end; simpl.

Lemma cons2_eq {A} (a a' b b' : A) (r : list A) :
  a = a' -> b = b' -> a :: b :: r = a' :: b' :: r.
Proof. now intros -> ->. Qed.

Lemma slice2_shape (a : ndarray) (r0 r1 c0 c1 : Z) (h w : nat)
    (rest : list nat) :
  shape a = h :: w :: rest ->
  0 <= r0 <= r1 -> r1 <= Z.of_nat h ->
  0 <= c0 <= c1 -> c1 <= Z.of_nat w ->
  exists out, slice2 a r0 r1 c0 c1 = Ok out /\
              shape out = Z.to_nat (r1 - r0) :: Z.to_nat (c1 - c0) :: rest.
Proof.
  intros Hs Hr Hr1 Hc Hc1. unfold slice2. rewrite Hs.
  eexists. split; [reflexivity|]. simpl. unfold slice_bound.
  bool_cases; try lia; (apply cons2_eq; lia).
Qed.

Lemma copyMakeBorder_shape (a : ndarray) (top bottom left right : Z)
    (bt : border_type) (value : list Z -> Q) (h w : nat) (rest : list nat) :
  shape a = h :: w :: rest -> (length rest <= 1)%nat ->
  0 <= top -> 0 <= bottom -> 0 <= left -> 0 <= right ->
  exists out, copyMakeBorder a top bottom left right bt value = Ok out /\
              shape out = Z.to_nat (Z.of_nat h + top + bottom)
                            :: Z.to_nat (Z.of_nat w + left + right)
                            :: cv_channels rest.
Proof.
  intros Hs Hrest Ht Hb Hl Hr. unfold copyMakeBorder. rewrite Hs.
  destruct (1 <? Z.of_nat (length rest)) eqn:E1; [apply Z.ltb_lt in E1; lia|].
  destruct (top <? 0) eqn:E2; [apply Z.ltb_lt in E2; lia|].
  destruct (bottom <? 0) eqn:E3; [apply Z.ltb_lt in E3; lia|].
  destruct (left <? 0) eqn:E4; [apply Z.ltb_lt in E4; lia|].
  destruct (right <? 0) eqn:E5; [apply Z.ltb_lt in E5; lia|].
  simpl orb. cbv iota zeta.
  destruct rest as [|[|[|c]] [|c' rest]]; simpl in Hrest; try lia;
    eexists; split; reflexivity.
Qed.

(** The crop has exactly the size [br - tl], whether or not the requested
    rectangle leaves the image; its channel axes are those of the image,
    a single channel being dropped where the image is padded. *)
Lemma safe_crop_shape (a : ndarray) (tl br : Z * Z) (bt : border_type)
    (value : list Z -> Q) (h w : nat) (rest : list nat) :
  shape a = h :: w :: rest -> (length rest <= 1)%nat ->
  fst tl <= fst br -> snd tl <= snd br ->
  exists out, safe_crop (PyArray a) tl br bt value = Ok out /\
              shape out = Z.to_nat (snd br - snd tl)
                            :: Z.to_nat (fst br - fst tl)
                            :: crop_channels h w rest tl br.
Proof.
  intros Hs Hrest Hx Hy. destruct tl as [x0 y0], br as [x1 y1]. simpl in *.
  unfold safe_crop, shape_at, crop_channels, needs_border.
  rewrite Hs. simpl.
  destruct ((x0 <? 0) || (y0 <? 0) || (Z.of_nat w <? x1)
            || (Z.of_nat h <? y1)) eqn:Epad.
  - destruct (copyMakeBorder_shape a (Z.max (- y0) 0)
                (Z.max (y1 - Z.of_nat h) 0) (Z.max (- x0) 0)
                (Z.max (x1 - Z.of_nat w) 0) bt value h w rest)
      as [p [Hp Hps]]; try assumption; try lia.
    rewrite Hp. simpl.
    destruct (Z.ltb_spec x0 0), (Z.ltb_spec y0 0);
      match goal with
      | |- context [slice2 p ?r0 ?r1 ?c0 ?c1] =>
          destruct (slice2_shape p r0 r1 c0 c1 _ _ (cv_channels rest) Hps)
            as [out [Ho Hos]]; try lia
      end;
      rewrite Ho; eexists; (split; [reflexivity|]);
      rewrite Hos; (apply cons2_eq; lia).
  - apply orb_false_iff in Epad as [Epad E4].
    apply orb_false_iff in Epad as [Epad E3].
    apply orb_false_iff in Epad as [E1 E2].
    apply Z.ltb_ge in E1, E2, E3, E4.
    edestruct (slice2_shape a y0 y1 x0 x1) as [out [Ho Hos]];
      [exact Hs | | | | | rewrite Ho; eexists; split; [reflexivity | exact Hos]];
      lia.
Qed.

Lemma safe_crop_returns (a : ndarray) (tl br : Z * Z) (bt : border_type)
    (value : list Z -> Q) (h w : nat) (rest : list nat) :
  shape a = h :: w :: rest -> (length rest <= 1)%nat ->
  returns (safe_crop (PyArray a) tl br bt value).
Proof.
  intros Hs Hrest. unfold safe_crop, shape_at. rewrite Hs. simpl.
  assert (Hsl : forall p r0 r1 c0 c1 h' w' rest',
             shape p = h' :: w' :: rest' -> returns (slice2 p r0 r1 c0 c1)).
  { intros p r0 r1 c0 c1 h' w' rest' Hp. unfold slice2. rewrite Hp.
    eexists; reflexivity. }
  destruct ((fst tl <? 0) || (snd tl <? 0) || (Z.of_nat w <? fst br)
            || (Z.of_nat h <? snd br)).
  - destruct (copyMakeBorder_shape a (Z.max (- snd tl) 0)
                (Z.max (snd br - Z.of_nat h) 0) (Z.max (- fst tl) 0)
                (Z.max (fst br - Z.of_nat w) 0) bt value h w rest)
      as [p [Hp Hps]]; try assumption; try lia.
    rewrite Hp. simpl.
    destruct (fst tl <? 0), (snd tl <? 0); eapply Hsl; exact Hps.
  - eapply Hsl; exact Hs.
Qed.

(** ** CenterCrop *)

(** C3. With an absolute integer size (w, h), [CenterCrop.__call__] on a
    2-d or 3-d image returns an array whose spatial shape is exactly
    (h, w), also when the image is smaller than the crop and
    [safe_crop] pads it.  The channel axes are those of the image, except
    that the single channel axis of an (H, W, 1) image is dropped where
    the image is padded. *)
Theorem CenterCrop_absolute_shape (self : CenterCrop.t) (a : ndarray)
    (w h : Z) (rows cols : nat) (chans : list nat) :
  CenterCrop.size self = (PyInt w, PyInt h) ->
  CenterCrop.relative self = false ->
  0 < w -> 0 < h ->
  shape a = rows :: cols :: chans -> (length chans <= 1)%nat ->
  let tl := (Z.of_nat cols / 2 - w / 2, Z.of_nat rows / 2 - h / 2) in
  exists out, CenterCrop.__call__ self (PyArray a) = Ok (PyArray out) /\
              take 2 (shape out) = [Z.to_nat h; Z.to_nat w] /\
              shape out = Z.to_nat h :: Z.to_nat w
                            :: crop_channels rows cols chans tl
                                 (fst tl + w, snd tl + h).
Proof.
  intros Hsize Hrel Hw Hh Hs Hch tl. unfold CenterCrop.__call__, ndim.
  rewrite Hs, Hrel, Hsize. simpl length.
  destruct ((Z.of_nat (S (S (length chans))) <? 2)
            || (3 <? Z.of_nat (S (S (length chans))))) eqn:E.
  { apply orb_true_iff in E as [E|E]; apply Z.ltb_lt in E; lia. }
  unfold shape_at. rewrite Hs. simpl.
  destruct (safe_crop_shape a tl (fst tl + w, snd tl + h)
              (CenterCrop.bordertype self) (CenterCrop.borderval self)
              rows cols chans Hs Hch) as [out [Ho Hos]]; simpl; try lia.
  exists out. fold tl. simpl in Ho. rewrite Ho. simpl.
  assert (Hshape : shape out
                   = Z.to_nat h :: Z.to_nat w
                       :: crop_channels rows cols chans tl
                            (fst tl + w, snd tl + h)).
  { rewrite Hos. simpl. apply cons2_eq; lia. }
  split; [reflexivity|]. split; [now rewrite Hshape|exact Hshape].
Qed.

Lemma CenterCrop_absolute_shape_witness :
  let self := CenterCrop.mk (PyInt 4, PyInt 4) false BORDER_REPLICATE
                            zero_border in
  let a := mk_ndarray [2; 3; 3]%nat (fun _ => 1%Q) in
  exists out, CenterCrop.__call__ self (PyArray a) = Ok (PyArray out) /\
              take 2 (shape out) = [4; 4]%nat /\
              shape out = [4; 4; 3]%nat.
Proof.
  intros self a.
  apply (CenterCrop_absolute_shape self a 4 4 2 3 [3%nat]);
    first [reflexivity | lia | simpl; lia].
Defined.

(** What [__init__] establishes for an absolute integer size. *)
Lemma CenterCrop_init_absolute (import_class : string -> result border_type)
    (w h : Z) (bt : named border_type) (bv : list Z -> Q)
    (self : CenterCrop.t) :
  CenterCrop.__init__ import_class (PyTuple [PyInt w; PyInt h]) bt bv
    = Ok self ->
  CenterCrop.size self = (PyInt w, PyInt h) /\
  CenterCrop.relative self = false /\ 0 < w /\ 0 < h.
Proof.
  unfold CenterCrop.__init__. simpl.
  destruct (Z.leb_spec w 0); simpl; [discriminate|].
  destruct (Z.leb_spec h 0); simpl; [discriminate|].
  destruct (resolve import_class bt); simpl; [|discriminate].
  intros [= <-]. simpl. repeat split; assumption.
Qed.

(** ** Compose *)

Lemma invert_loop_snoc (ts : list transform) (op : transform)
    (sample : pyval) :
  Compose.invert_loop (ts ++ [op]) sample
  = Compose.invert_loop ts sample ≫= invert_or_raise op.
Proof.
  revert sample. induction ts as [|op' ts IH]; intros sample; simpl.
  - unfold invert_or_raise. destruct (t_invert op) as [inv|]; [|reflexivity].
    destruct (inv sample); reflexivity.
  - destruct (t_invert op') as [inv|]; [|reflexivity].
    destruct (inv sample) as [s|e]; simpl; [apply IH | reflexivity].
Qed.

Lemma bind_raises {A B} (f : A -> result B) (m : result A) :
  raises m -> raises (m ≫= f).
Proof. intros [e ->]. exists e. reflexivity. Qed.

(** C7. [Compose.invert] runs the operations' [invert] from the last
    constructed to the first, and it raises as soon as the chain holds
    an operation without [invert], whatever the others support. *)
Theorem Compose_invert_reverse_order (ts : list transform)
    (sample : pyval) :
  Compose.invert (Compose.__init__ ts) sample
  = foldr (fun op acc => acc ≫= invert_or_raise op) (Ok sample) ts
  /\ (Exists (fun op => t_invert op = None) ts ->
      raises (Compose.invert (Compose.__init__ ts) sample)).
Proof.
  assert (Heq : Compose.invert (Compose.__init__ ts) sample
                = foldr (fun op acc => acc ≫= invert_or_raise op)
                        (Ok sample) ts).
  { unfold Compose.invert, Compose.__init__. simpl.
    induction ts as [|op ts IH]; [reflexivity|].
    simpl. rewrite invert_loop_snoc, IH. reflexivity. }
  split; [exact Heq|]. rewrite Heq. clear Heq.
  induction 1 as [op ts Hnone | op ts _ IH]; simpl.
  - destruct (foldr _ _ ts) as [s|e]; simpl.
    + unfold invert_or_raise. rewrite Hnone. eexists; reflexivity.
    + eexists; reflexivity.
  - apply bind_raises, IH.
Qed.

Lemma Compose_invert_reverse_order_witness :
  let ok := mk_transform Ok (Some Ok) in
  let no := mk_transform Ok None in
  raises (Compose.invert (Compose.__init__ [ok; no; ok]) PyNone).
Proof.
  intros ok no.
  apply (proj2 (Compose_invert_reverse_order [ok; no; ok] PyNone)).
  apply Exists_cons_tl, Exists_cons_hd. reflexivity.
Defined.

(** ** Duplicator *)

Lemma Duplicator_call_loop (self : Duplicator.t) (x : pyval) (n : nat)
    (acc : list pyval) :
  Duplicator.call_loop self x n acc = acc ++ replicate n x.
Proof.
  revert acc. induction n as [|n IH]; intros acc; simpl.
  - now rewrite app_nil_r.
  - rewrite IH. unfold copy_deepcopy, copy_copy.
    destruct (Duplicator.deepcopy self); now rewrite <- app_assoc.
Qed.

(** C8. For a count k > 0, [Duplicator] returns a list of exactly k
    copies of the sample; [invert] of a list of exactly k elements is the
    first element, hence the sample itself for the list just produced,
    and [invert] raises on a value that is not a list and on a list of
    any other length. *)
Theorem Duplicator_call_invert (k : Z) (deep : bool) (x : pyval) :
  0 < k ->
  exists self,
    Duplicator.__init__ k deep = Ok self /\
    (exists l, Duplicator.__call__ self x = PyList l /\
               Z.of_nat (length l) = k /\ Forall (eq x) l /\
               Duplicator.invert self (PyList l) = Ok x) /\
    (forall y l, Z.of_nat (length (y :: l)) = k ->
                 Duplicator.invert self (PyList (y :: l)) = Ok y) /\
    (forall v, is_list v = false -> raises (Duplicator.invert self v)) /\
    (forall l, Z.of_nat (length l) <> k ->
               raises (Duplicator.invert self (PyList l))).
Proof.
  intros Hk. exists (Duplicator.mk k deep).
  assert (Hfirst : forall y l, Z.of_nat (length (y :: l)) = k ->
            Duplicator.invert (Duplicator.mk k deep) (PyList (y :: l)) = Ok y).
  { intros y l Hl. unfold Duplicator.invert. cbn [Duplicator.count].
    rewrite (proj2 (Z.eqb_eq _ _) Hl). cbn [negb].
    unfold py_getitem. cbn [Z.ltb Z.compare].
    destruct ((0 <? 0) || (Z.of_nat (length (y :: l)) <=? 0)) eqn:E.
    - apply orb_true_iff in E as [E|E]; [discriminate|].
      apply Z.leb_le in E. simpl in E. lia.
    - reflexivity. }
  repeat split.
  - unfold Duplicator.__init__. destruct (Z.leb_spec k 0); [lia|reflexivity].
  - unfold Duplicator.__call__. rewrite Duplicator_call_loop.
    cbn [Duplicator.count app].
    exists (replicate (Z.to_nat k) x). repeat split.
    + rewrite length_replicate. lia.
    + apply Forall_forall. intros y Hy.
      apply elem_of_replicate in Hy as [-> _]. reflexivity.
    + destruct (Z.to_nat k) as [|n] eqn:En; [lia|]. simpl.
      apply Hfirst. simpl. rewrite length_replicate. lia.
  - exact Hfirst.
  - intros v Hv. destruct v; try discriminate; eexists; reflexivity.
  - intros l Hl. unfold Duplicator.invert. cbn [Duplicator.count].
    rewrite (proj2 (Z.eqb_neq _ _) Hl). eexists; reflexivity.
Qed.

Lemma Duplicator_call_invert_witness :
  exists self,
    Duplicator.__init__ 3 false = Ok self /\
    Duplicator.__call__ self (PyInt 7) = PyList [PyInt 7; PyInt 7; PyInt 7] /\
    Duplicator.invert self (PyList [PyInt 7; PyInt 7; PyInt 7])
      = Ok (PyInt 7) /\
    raises (Duplicator.invert self (PyList [PyInt 7; PyInt 7])).
Proof.
  destruct (Duplicator_call_invert 3 false (PyInt 7) ltac:(lia))
    as [self [Hinit [_ [Hfirst [_ Hlen]]]]].
  exists self. split; [exact Hinit|].
  injection Hinit as <-.
  split; [reflexivity|]. split.
  - apply Hfirst. reflexivity.
  - apply Hlen. simpl. lia.
Defined.

(** ** Tile: construction *)

Lemma Qlt_bool_iff (a b : Q) : Qlt_bool a b = true <-> (a < b)%Q.
Proof.
  unfold Qlt_bool. rewrite negb_true_iff. split.
  - intros H. apply Qnot_le_lt. intros Hle.
    apply Qle_bool_iff in Hle. congruence.
  - intros H. destruct (Qle_bool b a) eqn:E; [|reflexivity].
    apply Qle_bool_iff in E. exfalso. exact (Qlt_not_le _ _ H E).
Qed.

Lemma Qlt_bool_false (a b : Q) : (b <= a)%Q -> Qlt_bool a b = false.
Proof.
  intros H. unfold Qlt_bool. apply negb_false_iff. now apply Qle_bool_iff.
Qed.

Lemma Qle_bool_false (a b : Q) : (b < a)%Q -> Qle_bool a b = false.
Proof.
  intros H. destruct (Qle_bool a b) eqn:E; [|reflexivity].
  apply Qle_bool_iff in E. exfalso. exact (Qlt_not_le _ _ H E).
Qed.

(** C10. [Tile.__init__] raises when [min_mask_iou] is not a float or is
    negative, and otherwise accepts it, however large: with the tile size
    and the overlap accepted, every float [min_mask_iou >= 0] (values
    above 1 included) yields the operation, with that value stored. *)
Theorem Tile_init_min_mask_iou
    (import_class : string -> result border_type)
    (tile_size tile_overlap min_mask_iou : pyval) (offset_overlap : bool)
    (bordertype : named border_type) (borderval : list Z -> Q) :
  (is_float min_mask_iou = false ->
   raises (Tile.__init__ import_class tile_size tile_overlap min_mask_iou
                         offset_overlap bordertype borderval)) /\
  (forall q, min_mask_iou = PyFloat q -> (q < 0)%Q ->
   raises (Tile.__init__ import_class tile_size tile_overlap min_mask_iou
                         offset_overlap bordertype borderval)) /\
  (forall q size ov bt,
     min_mask_iou = PyFloat q -> (0 <= q)%Q ->
     parse_size tile_size "tile size" = Ok size ->
     tile_overlap = PyFloat ov -> (0 <= ov)%Q -> (ov < 1)%Q ->
     resolve import_class bordertype = Ok bt ->
     Tile.__init__ import_class tile_size tile_overlap min_mask_iou
                   offset_overlap bordertype borderval
     = Ok (Tile.mk size ov q offset_overlap bt borderval)).
Proof.
  repeat split.
  - intros Hty. unfold Tile.__init__.
    destruct (parse_size tile_size "tile size"); simpl;
      [|eexists; reflexivity].
    destruct tile_overlap; simpl; try (eexists; reflexivity).
    destruct (Qlt_bool q 0 || Qle_bool 1 q); simpl;
      [eexists; reflexivity|].
    destruct min_mask_iou; try discriminate; simpl; eexists; reflexivity.
  - intros q -> Hq. unfold Tile.__init__.
    destruct (parse_size tile_size "tile size"); simpl;
      [|eexists; reflexivity].
    destruct tile_overlap; simpl; try (eexists; reflexivity).
    destruct (Qlt_bool q0 0 || Qle_bool 1 q0); simpl;
      [eexists; reflexivity|].
    rewrite (proj2 (Qlt_bool_iff q 0) Hq). simpl. eexists; reflexivity.
  - intros q size ov bt -> Hq Hsize -> Hov0 Hov1 Hbt. unfold Tile.__init__.
    rewrite Hsize. simpl.
    rewrite (Qlt_bool_false ov 0 Hov0), (Qle_bool_false 1 ov Hov1). simpl.
    rewrite (Qlt_bool_false q 0 Hq).
    rewrite (Qlt_bool_false 1 ov (Qlt_le_weak _ _ Hov1)). simpl.
    rewrite Hbt. reflexivity.
Qed.

Lemma Tile_init_min_mask_iou_witness :
  Tile.__init__ (fun _ => Raise ValueError) (PyInt 4) (PyFloat (1 # 4))
                (PyFloat (5 # 2)) false (Given BORDER_CONSTANT) zero_border
  = Ok (Tile.mk (AbsSize 4 4) (1 # 4) (5 # 2) false BORDER_CONSTANT
                zero_border).
Proof.
  apply (proj2 (proj2 (Tile_init_min_mask_iou (fun _ => Raise ValueError)
                         (PyInt 4) (PyFloat (1 # 4)) (PyFloat (5 # 2)) false
                         (Given BORDER_CONSTANT) zero_border)));
    first [reflexivity | discriminate].
Defined.

(** ** Tile: counting *)

(** C2, as the code runs.  On an image array of rank at most three
    [count_tiles] and [__call__] agree: either both raise the same
    exception, raised while the tiles are placed, or [__call__] returns a
    list of tiles and [count_tiles] returns exactly its length.  On a PIL
    image they do not: the image is converted where the tiles are placed
    but not where they are cut, so as soon as there is a tile to cut
    [count_tiles] returns the count and [__call__] raises in
    [safe_crop]. *)
Theorem Tile_count_tiles_vs_call (self : Tile.t) (a : ndarray)
    (mask : pyval) :
  (ndim a <= 3 ->
   Tile.count_tiles self (PyArray a) mask
   = (fun tiles => Z.of_nat (length tiles))
       <$> Tile.__call__ self (PyArray a) mask) /\
  (forall rects,
     Tile._get_tile_rects self (PyPIL a) mask = Ok rects -> rects <> [] ->
     Tile.count_tiles self (PyPIL a) mask = Ok (Z.of_nat (length rects)) /\
     0 < Z.of_nat (length rects) /\
     Tile.__call__ self (PyPIL a) mask
     = Raise (AssertionError "expected input image to be numpy array")).
Proof.
  split.
  - intros Hrank. unfold Tile.count_tiles, Tile.__call__.
    destruct (Tile._get_tile_rects self (PyArray a) mask) as [rects|e] eqn:Hr;
      [|reflexivity].
    rewrite !bind_Ok.
    assert (Hshape : exists h w rest,
               shape a = h :: w :: rest /\ (length rest <= 1)%nat).
    { unfold Tile._get_tile_rects in Hr. simpl in Hr. unfold shape_at in Hr.
      unfold ndim in Hrank.
      destruct (shape a) as [|h [|w rest]]; simpl in Hr; try discriminate.
      exists h, w, rest. split; [reflexivity|]. simpl in Hrank. lia. }
    destruct Hshape as [h [w [rest [Hs Hrest]]]].
    match goal with
    | |- context [mapM ?f rects] =>
        destruct (mapM_total f rects) as [tiles [Ht Hlen]]
    end.
    { intros [[[x y] w0] h0] _. eapply safe_crop_returns; eassumption. }
    rewrite Ht. simpl. now rewrite Hlen.
  - intros rects Hr Hne. unfold Tile.count_tiles, Tile.__call__.
    rewrite Hr, !bind_Ok.
    destruct rects as [|[[[x y] w0] h0] rects]; [contradiction|].
    split; [reflexivity|]. split; [simpl; lia|]. reflexivity.
Qed.

Lemma Tile_count_tiles_vs_call_witness :
  let self := Tile.mk (AbsSize 4 4) 0 1 false BORDER_CONSTANT zero_border in
  let a := mk_ndarray [8; 8]%nat (fun _ => 1%Q) in
  Tile.count_tiles self (PyPIL a) PyNone = Ok 4 /\
  Tile.__call__ self (PyPIL a) PyNone
  = Raise (AssertionError "expected input image to be numpy array").
Proof.
  intros self a.
  destruct (proj2 (Tile_count_tiles_vs_call self a PyNone)
              [(0, 0, 4, 4); (4, 0, 4, 4); (0, 4, 4, 4); (4, 4, 4, 4)])
    as [Hcount [_ Hcall]]; [reflexivity | discriminate |].
  split; [exact Hcount|exact Hcall].
Defined.

(** Whatever the inputs, a tile list returned by [__call__] has the
    length [count_tiles] returns. *)
Lemma Tile_call_length (self : Tile.t) (image mask : pyval)
    (tiles : list ndarray) :
  Tile.__call__ self image mask = Ok tiles ->
  Tile.count_tiles self image mask = Ok (Z.of_nat (length tiles)).
Proof.
  unfold Tile.__call__, Tile.count_tiles. intros H.
  apply bind_returns in H as [rects [-> H]]. simpl.
  now rewrite (mapM_length _ _ _ H).
Qed.


(** ** Tile: the placement grid *)

Lemma lattice_count_step (start size limit step : Z) :
  1 <= step -> start + size <= limit ->
  lattice_count start size limit step
  = S (lattice_count (start + step) size limit step).
Proof.
  intros Hstep Hfit. unfold lattice_count.
  destruct (Z.leb_spec (start + size) limit); [|lia].
  destruct (Z.leb_spec (start + step + size) limit).
  - f_equal.
    replace (limit - size - start)
      with ((limit - size - (start + step)) + 1 * step) by lia.
    rewrite Z.div_add by lia.
    assert (0 <= (limit - size - (start + step)) / step)
      by (apply Z.div_pos; lia).
    lia.
  - f_equal. rewrite Z.div_small by lia. reflexivity.
Qed.

Lemma lattice_count_stop (start size limit step : Z) :
  limit < start + size -> lattice_count start size limit step = O.
Proof.
  intros H. unfold lattice_count.
  destruct (Z.leb_spec (start + size) limit); [lia|reflexivity].
Qed.

Section Grid.

Variables (mask : pyval) (tile step overlap_offset : Z * Z).
Variables (width height : Z) (req_mask_area : Q).
Hypothesis step_w_pos : 1 <= fst step.
Hypothesis step_h_pos : 1 <= snd step.

(** The column loop ends because its guard fails: any fuel above the
    bound gives the same result. *)
Lemma col_loop_fuel (f1 f2 : nat) (row col : Z)
    (tile_rects : list Tile.rect) :
  (loop_fuel (col + fst tile) (width - fst overlap_offset) <= f1)%nat ->
  (loop_fuel (col + fst tile) (width - fst overlap_offset) <= f2)%nat ->
  Tile.col_loop mask tile step overlap_offset width req_mask_area
                f1 row col tile_rects
  = Tile.col_loop mask tile step overlap_offset width req_mask_area
                  f2 row col tile_rects.
Proof.
  unfold loop_fuel.
  revert f2 col tile_rects.
  induction f1 as [|f1 IH]; intros f2 col rects H1 H2.
  - destruct f2 as [|f2]; [reflexivity|]. simpl.
    destruct (Z.leb_spec (col + fst tile) (width - fst overlap_offset));
      [lia|reflexivity].
  - destruct f2 as [|f2]; simpl;
      destruct (Z.leb_spec (col + fst tile) (width - fst overlap_offset));
      try lia; try reflexivity.
    destruct (Tile.visit _ _ _ _ _ _) as [rects'|e]; [|reflexivity].
    simpl. apply IH; lia.
Qed.

Lemma row_loop_fuel (f1 f2 : nat) (col0 row : Z)
    (tile_rects : list Tile.rect) :
  (loop_fuel (row + snd tile) (height - snd overlap_offset) <= f1)%nat ->
  (loop_fuel (row + snd tile) (height - snd overlap_offset) <= f2)%nat ->
  Tile.row_loop mask tile step overlap_offset width height req_mask_area
                f1 col0 row tile_rects
  = Tile.row_loop mask tile step overlap_offset width height req_mask_area
                  f2 col0 row tile_rects.
Proof.
  unfold loop_fuel.
  revert f2 row tile_rects.
  induction f1 as [|f1 IH]; intros f2 row rects H1 H2.
  - destruct f2 as [|f2]; [reflexivity|]. simpl.
    destruct (Z.leb_spec (row + snd tile) (height - snd overlap_offset));
      [lia|reflexivity].
  - destruct f2 as [|f2]; simpl;
      destruct (Z.leb_spec (row + snd tile) (height - snd overlap_offset));
      try lia; try reflexivity.
    destruct (Tile.col_loop _ _ _ _ _ _ _ _ _ _) as [rects'|e];
      [|reflexivity].
    simpl. apply IH; lia.
Qed.

End Grid.

Section GridWithoutMask.

Variables (tile step overlap_offset : Z * Z).
Variables (width height : Z) (req_mask_area : Q).
Hypothesis step_w_pos : 1 <= fst step.
Hypothesis step_h_pos : 1 <= snd step.

Lemma col_loop_lattice (fuel : nat) (row col : Z)
    (tile_rects : list Tile.rect) :
  (loop_fuel (col + fst tile) (width - fst overlap_offset) <= fuel)%nat ->
  Tile.col_loop PyNone tile step overlap_offset width req_mask_area
                fuel row col tile_rects
  = Ok (tile_rects
        ++ map (fun x => (x, row, fst tile, snd tile))
             (lattice col (fst step)
                (lattice_count col (fst tile)
                   (width - fst overlap_offset) (fst step)))).
Proof.
  unfold loop_fuel. revert col tile_rects.
  induction fuel as [|fuel IH]; intros col rects Hfuel; simpl.
  - rewrite lattice_count_stop by lia. simpl. now rewrite app_nil_r.
  - destruct (Z.leb_spec (col + fst tile) (width - fst overlap_offset)).
    + rewrite lattice_count_step by lia. simpl.
      rewrite IH by lia. now rewrite <- app_assoc.
    + rewrite lattice_count_stop by lia. simpl. now rewrite app_nil_r.
Qed.

Lemma row_loop_lattice (fuel : nat) (col0 row : Z)
    (tile_rects : list Tile.rect) :
  (loop_fuel (row + snd tile) (height - snd overlap_offset) <= fuel)%nat ->
  Tile.row_loop PyNone tile step overlap_offset width height req_mask_area
                fuel col0 row tile_rects
  = Ok (tile_rects
        ++ grid_rects tile (col0, row) step
             (width - fst overlap_offset, height - snd overlap_offset)).
Proof.
  unfold loop_fuel, grid_rects. cbn [fst snd].
  revert row tile_rects.
  induction fuel as [|fuel IH]; intros row rects Hfuel; simpl.
  - rewrite (lattice_count_stop row) by lia. simpl. now rewrite app_nil_r.
  - destruct (Z.leb_spec (row + snd tile) (height - snd overlap_offset)).
    + rewrite col_loop_lattice by lia. simpl.
      rewrite (lattice_count_step row) by lia. simpl.
      rewrite IH by lia. now rewrite <- app_assoc.
    + rewrite (lattice_count_stop row) by lia. simpl.
      now rewrite app_nil_r.
Qed.

End GridWithoutMask.

Lemma rect_eq (x x' y y' w h : Z) :
  x = x' -> y = y' -> (x, y, w, h) = (x', y', w, h).
Proof. now intros -> ->. Qed.


Section GridWithMask.

Variables (m : ndarray) (tile step overlap_offset : Z * Z).
Variables (width height : Z) (req_mask_area : Q) (h w : nat).
Hypothesis mask_shape : shape m = [h; w].
Hypothesis step_w_pos : 1 <= fst step.
Hypothesis step_h_pos : 1 <= snd step.





End GridWithMask.






(** The overlap is rounded from the double product: a tile of 5 pixels
    with the overlap ratio written 0.7 overlaps by 4 pixels (5 * 0.7 is
    3.5 in double precision, and rounds to the even 4), the step is 1
    and a 5 x 10 image gives six tiles. *)
Example Tile_overlap_rounding_tie :
  let ratio := (3152519739159347 # 4503599627370496)%Q in
  let self := Tile.mk (AbsSize 5 5) ratio 1 false BORDER_CONSTANT
                      zero_border in
  Qred (round_double (7 # 10)) = ratio /\
  pixel_overlap 5 ratio = 4 /\
  Tile._get_tile_rects self
    (PyArray (mk_ndarray [5; 10]%nat (fun _ => 0%Q))) PyNone
  = Ok [(0, 0, 5, 5); (1, 0, 5, 5); (2, 0, 5, 5); (3, 0, 5, 5);
        (4, 0, 5, 5); (5, 0, 5, 5)].
Proof. repeat split; vm_compute; reflexivity. Qed.

(** ** Resize *)

Lemma py_range_cons (lo hi : Z) :
  lo < hi -> py_range lo hi = lo :: py_range (lo + 1) hi.
Proof.
  intros H. unfold py_range.
  replace (Z.to_nat (hi - lo)) with (S (Z.to_nat (hi - (lo + 1)))) by lia.
  cbn [seq map]. f_equal; [lia|].
  rewrite <- seq_shift, map_map. apply map_ext. intros k. lia.
Qed.

(** C6, as the code runs: on a 3-d image with more than four channels
    [Resize.__call__] raises [TypeError] at the first channel, where it
    subscripts the builtin [slice]; nothing is resized and the object is
    left as it was. *)
Theorem Resize_many_channels_raises (self : Resize.t) (a : ndarray)
    (h w c : nat) :
  shape a = [h; w; c] -> (4 < c)%nat ->
  Resize.__call__ self (PyArray a)
  = (Raise (TypeError "object is not subscriptable"), self).
Proof.
  intros Hs Hc. unfold Resize.__call__, ndim, split_channels.
  simpl asarray_if_pil. cbv iota beta. rewrite Hs. simpl length.
  simpl lookup. simpl default.
  change ((Z.of_nat 3 <? 2) || (3 <? Z.of_nat 3)) with false.
  change (Z.of_nat 3 <? 3) with false. cbv iota. simpl orb.
  destruct (Z.leb_spec (Z.of_nat c) 4); [lia|].
  rewrite length_map.
  rewrite (py_range_cons 0 (Z.of_nat (length (py_range 0 (Z.of_nat c)))))
    by (unfold py_range; rewrite length_map, length_seq; lia).
  reflexivity.
Qed.

Lemma Resize_many_channels_raises_witness :
  let self := Resize.mk 1 false (2, 2) PyNone 0 0 in
  Resize.__call__ self (PyArray (mk_ndarray [4; 4; 5]%nat (fun _ => 1%Q)))
  = (Raise (TypeError "object is not subscriptable"), self).
Proof.
  intros self.
  apply (Resize_many_channels_raises self
           (mk_ndarray [4; 4; 5]%nat (fun _ => 1%Q)) 4%nat 4%nat 5%nat eq_refl).
  lia.
Defined.

(** ** RandomResizedCrop *)

Lemma attempts_no_fit (self : RandomResizedCrop.t) (w h : Z) (n : nat)
    (tg : RandomResizedCrop.target) (g : rng) :
  no_fit self w h n g ->
  exists tg' g',
    RandomResizedCrop.attempts self w h n tg g = (Ok tg', g') /\
    RandomResizedCrop.target_row tg' = RandomResizedCrop.target_row tg /\
    RandomResizedCrop.target_col tg' = RandomResizedCrop.target_col tg.
Proof.
  revert tg g. induction n as [|n IH]; intros tg g Hno.
  - exists tg, g. repeat split.
  - destruct Hno as [tw [th [g' [Hs [Hfit Hno]]]]].
    destruct (IH (RandomResizedCrop.mk_target (PyInt tw) (PyInt th)
                    (RandomResizedCrop.target_row tg)
                    (RandomResizedCrop.target_col tg)) g' Hno)
      as [tg' [g'' [Ha [Hrow Hcol]]]].
    exists tg', g''. split; [|split; assumption].
    simpl. unfold mbind, rand_bind. rewrite Hs. cbv iota beta.
    rewrite Hfit. exact Ha.
Qed.

(** Once the sampling loop is over with the corner still unassigned,
    [__call__] fails on [target_col + target_width]: the guard of the
    centered-crop fallback tests the image size, which is never [None]. *)
Lemma unassigned_corner_raises (self : RandomResizedCrop.t) (a : ndarray)
    (h w : nat) (rest : list nat) (g g' : rng)
    (tg : RandomResizedCrop.target) :
  shape a = h :: w :: rest ->
  Qlt_bool (RandomResizedCrop.probability self) 1 = false ->
  RandomResizedCrop.attempts self (Z.of_nat w) (Z.of_nat h)
    (Z.to_nat (RandomResizedCrop.random_attempts self))
    (RandomResizedCrop.mk_target PyNone PyNone PyNone PyNone) g
  = (Ok tg, g') ->
  RandomResizedCrop.target_col tg = PyNone ->
  fst (RandomResizedCrop.__call__ self (PyArray a) g)
  = Raise (TypeError "unsupported operand type(s) for +").
Proof.
  intros Hs Hp Ha Hcol.
  unfold RandomResizedCrop.__call__. simpl asarray_if_pil.
  rewrite Hp. unfold py_shape, shape_at. rewrite Hs. simpl lookup.
  unfold mbind, rand_bind, mret, rand_ret, lift. cbv iota beta.
  rewrite Ha. cbv iota beta. simpl is_none. simpl orb. cbv iota.
  rewrite Hcol. reflexivity.
Qed.

(** C1, as the code runs: when the operation is applied and none of the
    [random_attempts] sampled regions fits inside the image, the centered
    crop is not taken; [__call__] raises [TypeError] on the corner
    coordinates, which were never assigned. *)
Theorem RandomResizedCrop_no_fit_raises (self : RandomResizedCrop.t)
    (a : ndarray) (h w : nat) (rest : list nat) (g : rng) :
  shape a = h :: w :: rest ->
  Qlt_bool (RandomResizedCrop.probability self) 1 = false ->
  no_fit self (Z.of_nat w) (Z.of_nat h)
         (Z.to_nat (RandomResizedCrop.random_attempts self)) g ->
  fst (RandomResizedCrop.__call__ self (PyArray a) g)
  = Raise (TypeError "unsupported operand type(s) for +").
Proof.
  intros Hs Hp Hno.
  destruct (attempts_no_fit self (Z.of_nat w) (Z.of_nat h) _
              (RandomResizedCrop.mk_target PyNone PyNone PyNone PyNone)
              g Hno) as [tg [g' [Ha [_ Hcol]]]].
  eapply unassigned_corner_raises; eassumption.
Qed.

#[local] Instance round_sqrt_comp : Proper (Qeq ==> eq) round_sqrt.
Proof.
  intros x y H. unfold round_sqrt.
  assert (Hf : Qfloor (4 * x) = Qfloor (4 * y)) by now rewrite H.
  assert (He : forall z, Qeq_bool (4 * x) z = Qeq_bool (4 * y) z)
    by (intros z; now rewrite H).
  now rewrite Hf, He.
Qed.

#[local] Instance math_sqrt_round_comp : Proper (Qeq ==> eq) math_sqrt_round.
Proof.
  intros x y H. unfold math_sqrt_round.
  assert (Hl : Qle_bool 0 x = Qle_bool 0 y) by now rewrite H.
  now rewrite Hl, (round_sqrt_comp x y H).
Qed.

(** A configuration whose sampled region is 8 x 8 whatever is drawn. *)
Lemma sample_region_fixed (w h : Z) (g : rng) :
  let self := RandomResizedCrop.mk (AbsSize 2 2)
                ((PyInt 8, PyInt 8), (PyInt 8, PyInt 8))
                (Some (1, 1)%Q) 1 10 1 in
  exists g', RandomResizedCrop.sample_region self w h g = (Ok (8, 8), g').
Proof.
  intros self.
  unfold RandomResizedCrop.sample_region, self.
  cbn [RandomResizedCrop.input_size RandomResizedCrop.ratio is_number is_int
       is_float orb as_number].
  unfold np_uniform, np_random, lift, mbind, rand_bind, mret, rand_ret.
  cbv iota beta.
  set (u1 := (tape g (pos g) - inject_Z (Qfloor (tape g (pos g))))%Q).
  cbn [tape pos].
  set (u2 := (tape g (S (pos g)) - inject_Z (Qfloor (tape g (S (pos g)))))%Q).
  set (X := (inject_Z 8 + (inject_Z 8 - inject_Z 8) * u1)%Q).
  set (A := (1 + (1 - 1) * u2)%Q).
  assert (HA : (A == 1)%Q) by (unfold A; ring).
  assert (HX : (X == 8)%Q) by (unfold X; ring).
  assert (H1 : math_sqrt_round (X * X * A) = Ok 8).
  { rewrite HA, HX. reflexivity. }
  assert (H2 : math_sqrt_round (X * X / A) = Ok 8).
  { rewrite HA, HX. reflexivity. }
  assert (H3 : Qeq_bool A 0 = false) by (rewrite HA; reflexivity).
  rewrite H1, H3, H2. cbv iota beta.
  eexists. destruct (Qlt_bool _ _); reflexivity.
Qed.

(** For that configuration and a 4 x 4 image no draw can make a region
    fit, so [__call__] raises whatever the random source holds. *)
Lemma RandomResizedCrop_raises_for_all_draws (g : rng) :
  let self := RandomResizedCrop.mk (AbsSize 2 2)
                ((PyInt 8, PyInt 8), (PyInt 8, PyInt 8))
                (Some (1, 1)%Q) 1 10 1 in
  let a := mk_ndarray [4; 4; 3]%nat (fun _ => 1%Q) in
  fst (RandomResizedCrop.__call__ self (PyArray a) g)
  = Raise (TypeError "unsupported operand type(s) for +").
Proof.
  intros self a.
  assert (Hno : forall n g0, no_fit self 4 4 n g0).
  { induction n as [|n IH]; intros g0; [exact I|].
    destruct (sample_region_fixed 4 4 g0) as [g' Hg'].
    exists 8, 8, g'. repeat split; [exact Hg' | apply IH]. }
  destruct (attempts_no_fit self 4 4 10
              (RandomResizedCrop.mk_target PyNone PyNone PyNone PyNone)
              g (Hno _ g)) as [tg [g' [Ha [_ Hcol]]]].
  apply (unassigned_corner_raises self a 4 4 [3%nat] g g' tg);
    [reflexivity | reflexivity | exact Ha | exact Hcol].
Qed.

Example RandomResizedCrop_init_example :
  RandomResizedCrop.__init__ (fun _ => Raise ValueError) (PyInt 2)
    (PyTuple [PyInt 8; PyInt 8]) (PyFloat 1) 1 10 (Given 1)
  = Ok (RandomResizedCrop.mk (AbsSize 2 2)
          ((PyInt 8, PyInt 8), (PyInt 8, PyInt 8)) (Some (1, 1)%Q) 1 10 1).
Proof. reflexivity. Qed.

Lemma RandomResizedCrop_no_fit_raises_witness :
  let self := RandomResizedCrop.mk (AbsSize 2 2)
                ((PyInt 8, PyInt 8), (PyInt 8, PyInt 8))
                (Some (1, 1)%Q) 1 10 1 in
  let a := mk_ndarray [4; 4; 3]%nat (fun _ => 1%Q) in
  fst (RandomResizedCrop.__call__ self (PyArray a) (mk_rng (fun _ => 0%Q) 0))
  = Raise (TypeError "unsupported operand type(s) for +").
Proof.
  intros self a.
  apply (RandomResizedCrop_no_fit_raises self a 4 4 [3%nat]
           (mk_rng (fun _ => 0%Q) 0)); [reflexivity | reflexivity |].
  do 10 (eexists; eexists; eexists;
        split; [vm_compute; reflexivity | split; [reflexivity|]]).
  exact I.
Defined.

(** ** Transpose *)

Lemma scatter_length {A} (ks : list nat) (vs acc : list A) :
  length (scatter ks vs acc) = length acc.
Proof.
  revert vs acc. induction ks as [|k ks IH]; intros [|v vs] acc; simpl;
    try reflexivity.
  now rewrite IH, length_insert.
Qed.

Lemma scatter_lookup_other {A} (ks : list nat) (vs acc : list A) (k : nat) :
  k ∉ ks -> scatter ks vs acc !! k = acc !! k.
Proof.
  revert vs acc. induction ks as [|k0 ks IH]; intros [|v vs] acc Hk; simpl;
    try reflexivity.
  apply not_elem_of_cons in Hk as [Hne Hk].
  rewrite IH by assumption. now apply list_lookup_insert_ne.
Qed.

(** Without repeated positions, the value written at [ks[i]] is [vs[i]]. *)
Lemma scatter_lookup {A} (ks : list nat) (vs acc : list A) (i k : nat)
    (v : A) :
  NoDup ks -> ks !! i = Some k -> vs !! i = Some v ->
  (k < length acc)%nat ->
  scatter ks vs acc !! k = Some v.
Proof.
  revert vs acc i.
  induction ks as [|k0 ks IH]; intros vs acc i Hnd Hk Hv Hlen;
    [discriminate|].
  destruct vs as [|v0 vs]; [discriminate|].
  apply NoDup_cons in Hnd as [Hnotin Hnd]. simpl.
  destruct i as [|i]; simpl in Hk, Hv.
  - injection Hk as ->. injection Hv as ->.
    rewrite scatter_lookup_other by assumption.
    now apply list_lookup_insert_eq.
  - apply (IH vs _ i); try assumption. now rewrite length_insert.
Qed.

Lemma np_setitem_nat {A} (l : list A) (k : nat) (v : A) :
  (k < length l)%nat -> np_setitem l (Z.of_nat k) v = Ok (<[k := v]> l).
Proof.
  intros Hk. unfold np_setitem.
  assert (E : (Z.of_nat k <? 0) = false) by (apply Z.ltb_ge; lia).
  rewrite E. cbv iota. rewrite E.
  rewrite (proj2 (Z.leb_gt (Z.of_nat (length l)) (Z.of_nat k))) by lia.
  cbn [orb]. now rewrite Nat2Z.id.
Qed.

Lemma init_loop_scatter (ks : list nat) (i : Z) (inv : list (option Z)) :
  Forall (fun k => (k < length inv)%nat) ks ->
  Transpose.init_loop i (map Z.of_nat ks) inv
  = Ok (scatter ks (map (fun j : nat => Some (i + Z.of_nat j))
                        (seq 0 (length ks))) inv).
Proof.
  revert i inv. induction ks as [|k ks IH]; intros i inv Hks;
    [reflexivity|].
  apply Forall_cons in Hks as [Hk Hks]. simpl.
  rewrite np_setitem_nat by assumption. simpl.
  rewrite IH by (now rewrite length_insert).
  rewrite Z.add_0_r. f_equal. f_equal.
  rewrite <- seq_shift, map_map. apply map_ext. intros j. f_equal. lia.
Qed.

Lemma normalize_axis_nat (n k : nat) :
  (k < n)%nat -> normalize_axis n (Some (Z.of_nat k)) = Ok k.
Proof.
  intros Hk. unfold normalize_axis.
  assert (E : (Z.of_nat k <? 0) = false) by (apply Z.ltb_ge; lia).
  rewrite E. cbv iota. rewrite E.
  rewrite (proj2 (Z.leb_gt (Z.of_nat n) (Z.of_nat k))) by lia.
  cbn [orb]. now rewrite Nat2Z.id.
Qed.

Lemma mapM_cons {A B} (f : A -> result B) (x : A) (l : list A) :
  mapM f (x :: l) = (y ← f x; k ← mapM f l; mret (y :: k)).
Proof. reflexivity. Qed.

Lemma mapM_normalize_axis (n : nat) (q : list nat) :
  Forall (fun k => (k < n)%nat) q ->
  mapM (normalize_axis n) (map (fun k : nat => Some (Z.of_nat k)) q) = Ok q.
Proof.
  induction 1 as [|k q Hk _ IH]; [reflexivity|].
  cbn [map]. rewrite mapM_cons, normalize_axis_nat, IH by assumption.
  reflexivity.
Qed.

Section InversePermutation.

Variables (n : nat) (p : list nat).
Hypothesis p_perm : Permutation p (seq 0 n).

Lemma perm_length : length p = n.
Proof. now rewrite p_perm, length_seq. Qed.

Lemma perm_NoDup : NoDup p.
Proof. rewrite p_perm. apply NoDup_seq. Qed.

Lemma perm_bound : Forall (fun k => (k < n)%nat) p.
Proof.
  apply Forall_forall. intros k Hk. rewrite p_perm in Hk.
  apply elem_of_seq in Hk. lia.
Qed.

Lemma perm_onto (k : nat) : (k < n)%nat -> exists i, p !! i = Some k.
Proof.
  intros Hk. apply list_elem_of_lookup. rewrite p_perm.
  apply elem_of_seq. lia.
Qed.

(** [inverse_permutation n p] has [i] where [p] has [k] at [i]. *)
Lemma inverse_at (i k : nat) :
  p !! i = Some k -> inverse_permutation n p !! k = Some i.
Proof.
  intros Hi. unfold inverse_permutation.
  assert (Hlt : (i < n)%nat)
    by (rewrite <- perm_length; eapply lookup_lt_Some; eassumption).
  apply (scatter_lookup p _ _ i); try assumption.
  - apply perm_NoDup.
  - now apply lookup_seq_lt.
  - rewrite length_replicate.
    eapply (proj1 (Forall_forall _ _) perm_bound).
    eapply list_elem_of_lookup_2; eassumption.
Qed.

Lemma inverse_length : length (inverse_permutation n p) = n.
Proof.
  unfold inverse_permutation. now rewrite scatter_length, length_replicate.
Qed.

Lemma inverse_lookup (k : nat) :
  (k < n)%nat ->
  exists i, inverse_permutation n p !! k = Some i /\ p !! i = Some k.
Proof.
  intros Hk. destruct (perm_onto k Hk) as [i Hi].
  exists i. split; [now apply inverse_at | assumption].
Qed.

Lemma inverse_back (k i : nat) :
  inverse_permutation n p !! k = Some i -> p !! i = Some k.
Proof.
  intros Hq.
  assert (Hk : (k < n)%nat)
    by (rewrite <- inverse_length; eapply lookup_lt_Some; eassumption).
  destruct (inverse_lookup k Hk) as [i' [Hq' Hp]]. congruence.
Qed.

Lemma inverse_bound : Forall (fun i => (i < n)%nat) (inverse_permutation n p).
Proof.
  apply Forall_lookup. intros k i Hq. apply inverse_back in Hq.
  rewrite <- perm_length. eapply lookup_lt_Some; eassumption.
Qed.

Lemma inverse_NoDup : NoDup (inverse_permutation n p).
Proof.
  apply NoDup_alt. intros k1 k2 i H1 H2.
  apply inverse_back in H1, H2. congruence.
Qed.

(** The loop of [__init__] stores the inverse permutation. *)
Lemma init_loop_inverse :
  Transpose.init_loop 0 (map Z.of_nat p) (replicate n None)
  = Ok (map (fun k : nat => Some (Z.of_nat k)) (inverse_permutation n p)).
Proof.
  rewrite init_loop_scatter
    by (rewrite length_replicate; apply perm_bound).
  f_equal. apply list_eq. intros k. rewrite list_lookup_fmap.
  destruct (decide (k < n)%nat) as [Hk|Hk].
  - destruct (inverse_lookup k Hk) as [i [Hq Hp]]. rewrite Hq. simpl.
    apply (scatter_lookup p _ _ i); try assumption.
    + apply perm_NoDup.
    + rewrite list_lookup_fmap, perm_length, lookup_seq_lt; [reflexivity|].
      rewrite <- perm_length. eapply lookup_lt_Some; eassumption.
    + now rewrite length_replicate.
  - rewrite !lookup_ge_None_2; [reflexivity | |].
    + rewrite inverse_length. lia.
    + rewrite scatter_length, length_replicate. lia.
Qed.

(** Gathering along [p] and then along its inverse gives the list back. *)
Lemma gather_inverse {A} (d : A) (s : list A) :
  length s = n ->
  map (fun i => default d (map (fun k => default d (s !! k)) p !! i))
      (inverse_permutation n p)
  = s.
Proof.
  intros Hs. apply list_eq. intros k. rewrite list_lookup_fmap.
  destruct (decide (k < n)%nat) as [Hk|Hk].
  - destruct (inverse_lookup k Hk) as [i [Hq Hp]]. rewrite Hq. simpl.
    rewrite list_lookup_fmap, Hp. simpl.
    destruct (lookup_lt_is_Some_2 s k) as [v Hv]; [lia|].
    now rewrite Hv.
  - rewrite !lookup_ge_None_2; [reflexivity | lia |].
    rewrite inverse_length. lia.
Qed.

(** Scattering along the inverse and then along [p] gives the index back. *)
Lemma scatter_inverse {A} (idx r1 r2 : list A) :
  length idx = n -> length r1 = n -> length r2 = n ->
  scatter p (scatter (inverse_permutation n p) idx r1) r2 = idx.
Proof.
  intros Hidx Hr1 Hr2. apply list_eq. intros k.
  destruct (decide (k < n)%nat) as [Hk|Hk].
  - destruct (inverse_lookup k Hk) as [i [Hq Hp]].
    destruct (lookup_lt_is_Some_2 idx k) as [v Hv]; [lia|].
    rewrite Hv. apply (scatter_lookup p _ _ i); try assumption.
    + apply perm_NoDup.
    + apply (scatter_lookup (inverse_permutation n p) _ _ k); try assumption.
      * apply inverse_NoDup.
      * rewrite Hr1, <- perm_length. eapply lookup_lt_Some; eassumption.
    + lia.
  - rewrite !lookup_ge_None_2; [reflexivity | lia |].
    rewrite scatter_length. lia.
Qed.

End InversePermutation.

(** C9. For axes a permutation of the axes of the array,
    [Transpose.invert] after [Transpose.__call__] gives the array back,
    shape and elements; the stored [axes_inv] sends each axis [axes[i]]
    to [i], so that the two permutations compose to the identity. *)
Theorem Transpose_invert_call (p : list nat) (x : ndarray) :
  Permutation p (seq 0 (length (shape x))) ->
  exists self y z,
    Transpose.__init__ (map Z.of_nat p) = Ok self /\
    Transpose.__call__ self x = Ok y /\
    Transpose.invert self y = Ok z /\
    array_eq z x /\
    (forall i k, p !! i = Some k ->
                 Transpose.axes_inv self !! k = Some (Some (Z.of_nat i))).
Proof.
  intros Hp. set (n := length (shape x)) in *.
  set (q := inverse_permutation n p).
  pose proof (perm_length n p Hp) as Hlen.
  pose proof (perm_bound n p Hp) as Hbound.
  pose proof (inverse_length n p) as Hqlen. fold q in Hqlen.
  pose proof (inverse_bound n p Hp) as Hqbound. fold q in Hqbound.
  pose proof (inverse_NoDup n p Hp) as Hqnodup. fold q in Hqnodup.
  exists (Transpose.mk (map Z.of_nat p)
                       (map (fun k : nat => Some (Z.of_nat k)) q)).
  set (y := {| shape := map (fun k => default 0%nat (shape x !! k)) p;
               item := fun idx =>
                 item x (scatter p idx (replicate n 0)) |}).
  set (z := {| shape := map (fun k => default 0%nat (shape y !! k)) q;
               item := fun idx =>
                 item y (scatter q idx (replicate n 0)) |}).
  exists y, z.
  assert (Hy : length (shape y) = n) by (simpl; now rewrite length_map).
  split; [|split; [|split; [|split]]].
  - unfold Transpose.__init__. rewrite length_map, Hlen.
    destruct (existsb _ _) eqn:E.
    + apply existsb_exists in E as [ax [Hin E]].
      apply in_map_iff in Hin as [k [<- Hin]].
      apply Z.leb_le in E.
      apply list_elem_of_In in Hin.
      pose proof (proj1 (Forall_forall _ _) Hbound k Hin) as Hlt.
      simpl in Hlt. lia.
    + rewrite (init_loop_inverse n p Hp). reflexivity.
  - unfold Transpose.__call__, np_transpose. cbn [Transpose.axes].
    rewrite !length_map. fold n. rewrite Hlen, Nat.eqb_refl. cbn [negb].
    rewrite map_map.
    rewrite (mapM_normalize_axis n p Hbound). rewrite bind_Ok.
    rewrite bool_decide_eq_true_2 by (apply (perm_NoDup n p Hp)).
    reflexivity.
  - unfold Transpose.invert, np_transpose. cbn [Transpose.axes_inv].
    rewrite length_map, Hy, Hqlen, Nat.eqb_refl.
    cbn [negb].
    rewrite (mapM_normalize_axis n q Hqbound), bind_Ok.
    rewrite bool_decide_eq_true_2 by exact Hqnodup.
    reflexivity.
  - split.
    + simpl. apply (gather_inverse n p Hp). reflexivity.
    + intros idx Hidx. simpl in Hidx. rewrite length_map in Hidx.
      rewrite Hqlen in Hidx.
      simpl. f_equal. apply (scatter_inverse n p Hp); try assumption;
        now rewrite length_replicate.
  - intros i k Hi. cbn [Transpose.axes_inv].
    rewrite list_lookup_fmap. unfold q.
    rewrite (inverse_at n p Hp i k Hi). reflexivity.
Qed.

Lemma Transpose_invert_call_witness :
  let x := mk_ndarray [2; 3; 4]%nat
             (fun idx => match idx with
                         | [i; j; k] => inject_Z (100 * i + 10 * j + k)
                         | _ => 0%Q
                         end) in
  exists self y z,
    Transpose.__init__ [1; 0; 2] = Ok self /\
    Transpose.__call__ self x = Ok y /\
    Transpose.invert self y = Ok z /\
    array_eq z x.
Proof.
  intros x.
  destruct (Transpose_invert_call [1; 0; 2]%nat x) as
    [self [y [z [H1 [H2 [H3 [H4 _]]]]]]].
  - simpl. apply perm_swap.
  - exists self, y, z. repeat split; assumption || apply H4.
Defined.

(** * Further properties *)

(** ** safe_crop *)

Lemma slice2_item (a out : ndarray) (r0 r1 c0 c1 : Z) (h w : nat)
    (rest : list nat) :
  shape a = h :: w :: rest ->
  0 <= r0 <= Z.of_nat h -> 0 <= c0 <= Z.of_nat w ->
  slice2 a r0 r1 c0 c1 = Ok out ->
  forall r c ch, item out (r :: c :: ch) = item a (r0 + r :: c0 + c :: ch).
Proof.
  intros Hs Hr Hc H r c ch. unfold slice2 in H. rewrite Hs in H.
  injection H as <-. simpl. unfold slice_bound.
  destruct (Z.ltb_spec r0 0); [lia|]. destruct (Z.ltb_spec c0 0); [lia|].
  rewrite (Z.min_l r0), (Z.min_l c0) by lia. reflexivity.
Qed.

Lemma copyMakeBorder_item (a out : ndarray) (top bottom left right : Z)
    (bt : border_type) (value : list Z -> Q) (h w : nat) (rest : list nat) :
  shape a = h :: w :: rest ->
  copyMakeBorder a top bottom left right bt value = Ok out ->
  forall r c ch,
    item out (r :: c :: (if single_channel rest then [] else ch))
    = extended_pixel a bt value (r - top) (c - left)
        (if single_channel rest then [0] else ch).
Proof.
  unfold copyMakeBorder, extended_pixel, single_channel.
  intros Hs H r c ch. rewrite Hs in H |- *.
  match type of H with
  | (if ?cond then _ else _) = _ => destruct cond; [discriminate|]
  end.
  cbv zeta in H.
  destruct rest as [|[|[|n]] [|n' rest]]; injection H as <-;
    case_bool_decide; try discriminate; try congruence; reflexivity.
Qed.

Lemma cv_channels_single (rest : list nat) :
  cv_channels rest = if single_channel rest then [] else rest.
Proof.
  unfold single_channel. case_bool_decide as E; [now rewrite E|].
  destruct rest as [|[|[|n]] [|n' rest]]; try reflexivity. contradiction.
Qed.

(** The pixels of the crop are those of the image continued by the
    border rule, read from the requested top-left corner. *)
Lemma safe_crop_item (a out : ndarray) (tl br : Z * Z) (bt : border_type)
    (value : list Z -> Q) (h w : nat) (rest : list nat) :
  shape a = h :: w :: rest ->
  fst tl <= fst br -> snd tl <= snd br ->
  safe_crop (PyArray a) tl br bt value = Ok out ->
  forall r c ch,
    0 <= r < snd br - snd tl -> 0 <= c < fst br - fst tl ->
    item out (r :: c :: (if crop_drops_channel h w rest tl br
                         then [] else ch))
    = extended_pixel a bt value (snd tl + r) (fst tl + c)
        (if crop_drops_channel h w rest tl br then [0] else ch).
Proof.
  intros Hs Hx Hy H r c ch Hr Hc.
  destruct tl as [x0 y0], br as [x1 y1]. simpl in *.
  unfold safe_crop, shape_at in H. rewrite Hs in H. simpl in H.
  unfold crop_drops_channel, needs_border. cbn [fst snd].
  destruct ((x0 <? 0) || (y0 <? 0) || (Z.of_nat w <? x1)
            || (Z.of_nat h <? y1)) eqn:Epad.
  - apply bind_returns in H as [p [Hp H]].
    assert (Hps : exists rest',
              shape p
              = Z.to_nat (Z.of_nat h + Z.max (- y0) 0
                          + Z.max (y1 - Z.of_nat h) 0)
                :: Z.to_nat (Z.of_nat w + Z.max (- x0) 0
                             + Z.max (x1 - Z.of_nat w) 0) :: rest').
    { unfold copyMakeBorder in Hp. rewrite Hs in Hp.
      match type of Hp with
      | (if ?cond then _ else _) = _ => destruct cond; [discriminate|]
      end.
      cbv zeta in Hp.
      destruct rest as [|[|[|n]] [|n' rest]]; injection Hp as <-;
        eexists; reflexivity. }
    destruct Hps as [rest' Hps].
    pose proof (copyMakeBorder_item _ _ _ _ _ _ _ _ h w rest Hs Hp) as Hitem.
    simpl andb.
    destruct (Z.ltb_spec x0 0), (Z.ltb_spec y0 0);
      match type of H with
      | slice2 p ?r0 ?r1 ?c0 ?c1 = _ =>
          rewrite (slice2_item p out r0 r1 c0 c1 _ _ rest' Hps)
            by (try exact H; lia)
      end;
      rewrite Hitem; f_equal; lia.
  - apply orb_false_iff in Epad as [Epad E4].
    apply orb_false_iff in Epad as [Epad E3].
    apply orb_false_iff in Epad as [E1 E2].
    apply Z.ltb_ge in E1, E2, E3, E4.
    simpl andb. cbv iota.
    rewrite (slice2_item a out y0 y1 x0 x1 h w rest Hs) by (try exact H; lia).
    unfold extended_pixel. rewrite Hs.
    destruct (Z.leb_spec 0 (y0 + r)); [|lia].
    destruct (Z.ltb_spec (y0 + r) (Z.of_nat h)); [|lia].
    destruct (Z.leb_spec 0 (x0 + c)); [|lia].
    destruct (Z.ltb_spec (x0 + c) (Z.of_nat w)); [|lia].
    reflexivity.
Qed.

(** X1. For every 2-d or 3-d array and every rectangle with
    [tl <= br], inside the image or not, [safe_crop] returns a crop of
    exactly [br - tl] rows and columns, and each of its pixels is the
    pixel of the image, continued by the border rule, at the same offset
    from [tl].  The channel axes are those of the image, except that a
    crop that leaves an (H, W, 1) image comes back 2-d, holding
    channel 0. *)
Theorem safe_crop_window (a : ndarray) (tl br : Z * Z) (bt : border_type)
    (value : list Z -> Q) (h w : nat) (rest : list nat) :
  shape a = h :: w :: rest -> (length rest <= 1)%nat ->
  fst tl <= fst br -> snd tl <= snd br ->
  let dropped := crop_drops_channel h w rest tl br in
  exists out,
    safe_crop (PyArray a) tl br bt value = Ok out /\
    shape out = Z.to_nat (snd br - snd tl) :: Z.to_nat (fst br - fst tl)
                  :: (if dropped then [] else rest) /\
    forall r c ch,
      0 <= r < snd br - snd tl -> 0 <= c < fst br - fst tl ->
      item out (r :: c :: (if dropped then [] else ch))
      = extended_pixel a bt value (snd tl + r) (fst tl + c)
          (if dropped then [0] else ch).
Proof.
  intros Hs Hrest Hx Hy dropped.
  destruct (safe_crop_shape a tl br bt value h w rest Hs Hrest Hx Hy)
    as [out [Ho Hos]].
  exists out. split; [exact Ho|]. split.
  - rewrite Hos. unfold crop_channels, dropped, crop_drops_channel.
    rewrite cv_channels_single.
    destruct (needs_border h w tl br), (single_channel rest); reflexivity.
  - eapply safe_crop_item; eassumption.
Qed.

Lemma safe_crop_window_witness :
  let a := mk_ndarray [2; 2; 1]%nat
             (fun idx => match idx with
                         | [r; c; 0] => inject_Z (10 * r + c + 1)
                         | _ => 0%Q
                         end) in
  exists out,
    safe_crop (PyArray a) (-1, 1) (2, 3) BORDER_CONSTANT zero_border = Ok out /\
    shape out = [2; 3]%nat /\
    item out [0; 0] = 0%Q /\ item out [0; 1] = 11%Q /\ item out [1; 1] = 0%Q.
Proof.
  intros a.
  destruct (safe_crop_window a (-1, 1) (2, 3) BORDER_CONSTANT zero_border
              2 2 [1%nat] eq_refl) as [out [Ho [Hs Hi]]];
    [simpl; lia | simpl; lia | simpl; lia |].
  assert (Hd : crop_drops_channel 2 2 [1%nat] (-1, 1) (2, 3) = true)
    by reflexivity.
  rewrite Hd in Hs, Hi.
  exists out. split; [exact Ho|]. split; [exact Hs|].
  repeat split.
  - rewrite (Hi 0 0 []) by (simpl; lia). reflexivity.
  - rewrite (Hi 0 1 []) by (simpl; lia). reflexivity.
  - rewrite (Hi 1 1 []) by (simpl; lia). reflexivity.
Defined.

(** ** CenterCrop *)

Lemma py_round_comp (x y : Q) : (x == y)%Q -> py_round x = py_round y.
Proof.
  intros H. unfold py_round.
  assert (Hf : Qfloor x = Qfloor y) by now rewrite H.
  assert (Hc : forall z, Qcompare (x - inject_Z z) (1 # 2)
                         = Qcompare (y - inject_Z z) (1 # 2))
    by (intros z; now rewrite H).
  now rewrite Hf, Hc.
Qed.

Lemma py_round_inject_Z (z : Z) : py_round (inject_Z z) = z.
Proof.
  unfold py_round. rewrite Qfloor_Z.
  assert (Hc : Qcompare (inject_Z z - inject_Z z) (1 # 2) = Lt).
  { assert (E : (inject_Z z - inject_Z z == 0)%Q) by ring.
    rewrite E. reflexivity. }
  now rewrite Hc.
Qed.

(** Cropping an image at its own extent gives the image back. *)
Lemma safe_crop_full (a : ndarray) (bt : border_type) (value : list Z -> Q)
    (h w : nat) (rest : list nat) :
  shape a = h :: w :: rest ->
  exists out,
    safe_crop (PyArray a) (0, 0) (Z.of_nat w, Z.of_nat h) bt value = Ok out /\
    array_eq out a.
Proof.
  intros Hs. unfold safe_crop, shape_at. rewrite Hs. simpl.
  rewrite !Z.ltb_irrefl. simpl.
  unfold slice2. rewrite Hs. eexists. split; [reflexivity|].
  unfold array_eq, slice_bound. simpl.
  rewrite (Z.min_l 0 (Z.of_nat h)), (Z.min_l 0 (Z.of_nat w)) by lia.
  destruct (Z.ltb_spec (Z.of_nat h) 0); [lia|].
  destruct (Z.ltb_spec (Z.of_nat w) 0); [lia|].
  rewrite !Z.min_id, !Z.sub_0_r, !Nat2Z.id. split; [now rewrite Hs|].
  intros [|r [|c ch]] Hlen; try discriminate. reflexivity.
Qed.

Lemma CenterCrop_call_absolute (self : CenterCrop.t) (a : ndarray)
    (w h : Z) (rows cols : nat) (chans : list nat) :
  CenterCrop.size self = (PyInt w, PyInt h) ->
  CenterCrop.relative self = false ->
  shape a = rows :: cols :: chans -> (length chans <= 1)%nat ->
  CenterCrop.__call__ self (PyArray a)
  = PyArray <$> safe_crop (PyArray a)
      (Z.of_nat cols / 2 - w / 2, Z.of_nat rows / 2 - h / 2)
      (Z.of_nat cols / 2 - w / 2 + w, Z.of_nat rows / 2 - h / 2 + h)
      (CenterCrop.bordertype self) (CenterCrop.borderval self).
Proof.
  intros Hsize Hrel Hs Hch. unfold CenterCrop.__call__, ndim.
  rewrite Hs, Hrel, Hsize. simpl length.
  destruct ((Z.of_nat (S (S (length chans))) <? 2)
            || (3 <? Z.of_nat (S (S (length chans))))) eqn:E.
  { apply orb_true_iff in E as [E|E]; apply Z.ltb_lt in E; lia. }
  unfold shape_at. rewrite Hs. simpl lookup. cbv iota.
  rewrite !bind_Ok. cbn [fst snd as_index]. rewrite !bind_Ok. cbn [fst snd].
  match goal with
  | |- context [safe_crop ?i ?t ?b ?bt ?bv] =>
      destruct (safe_crop i t b bt bv); reflexivity
  end.
Qed.

(** X2. With an absolute size equal to the size of the image, or with
    the relative size (1.0, 1.0), [CenterCrop] returns the image
    unchanged: same shape and same pixels, no padding. *)
Theorem CenterCrop_full_size_identity (self : CenterCrop.t) (a : ndarray)
    (rows cols : nat) (chans : list nat) :
  shape a = rows :: cols :: chans -> (length chans <= 1)%nat ->
  (CenterCrop.relative self = false /\
   CenterCrop.size self = (PyInt (Z.of_nat cols), PyInt (Z.of_nat rows)))
  \/ (CenterCrop.relative self = true /\
      exists qw qh, CenterCrop.size self = (PyFloat qw, PyFloat qh) /\
                    (qw == 1)%Q /\ (qh == 1)%Q) ->
  exists out, CenterCrop.__call__ self (PyArray a) = Ok (PyArray out) /\
              array_eq out a.
Proof.
  intros Hs Hch Hmode.
  destruct (safe_crop_full a (CenterCrop.bordertype self)
              (CenterCrop.borderval self) rows cols chans Hs)
    as [out [Ho Heq]].
  exists out. split; [|exact Heq].
  destruct Hmode as [[Hrel Hsize] | [Hrel [qw [qh [Hsize [Hw Hh]]]]]].
  - rewrite (CenterCrop_call_absolute self a _ _ rows cols chans Hsize Hrel
               Hs Hch).
    rewrite !Z.sub_diag, !Z.add_0_l, Ho. reflexivity.
  - unfold CenterCrop.__call__, ndim. rewrite Hs, Hrel, Hsize. simpl length.
    destruct ((Z.of_nat (S (S (length chans))) <? 2)
              || (3 <? Z.of_nat (S (S (length chans))))) eqn:E.
    { apply orb_true_iff in E as [E|E]; apply Z.ltb_lt in E; lia. }
    unfold shape_at. rewrite Hs. simpl lookup. cbv iota.
    rewrite !bind_Ok. cbn [fst snd as_number]. rewrite !bind_Ok.
    cbn [fst snd].
    assert (Hrh : py_round (qh * inject_Z (Z.of_nat rows)) = Z.of_nat rows).
    { rewrite <- (py_round_inject_Z (Z.of_nat rows)) at 2.
      apply py_round_comp. rewrite Hh. ring. }
    assert (Hrw : py_round (qw * inject_Z (Z.of_nat cols)) = Z.of_nat cols).
    { rewrite <- (py_round_inject_Z (Z.of_nat cols)) at 2.
      apply py_round_comp. rewrite Hw. ring. }
    rewrite Hrh, Hrw, !Z.sub_diag, !Z.add_0_l, Ho. reflexivity.
Qed.

Lemma CenterCrop_full_size_identity_witness :
  let self := CenterCrop.mk (PyFloat 1, PyFloat 1) true BORDER_CONSTANT
                            zero_border in
  let a := mk_ndarray [3; 5; 3]%nat (fun _ => 1%Q) in
  exists out, CenterCrop.__call__ self (PyArray a) = Ok (PyArray out) /\
              array_eq out a.
Proof.
  intros self a.
  apply (CenterCrop_full_size_identity self a 3 5 [3%nat] eq_refl).
  - simpl. lia.
  - right. split; [reflexivity|].
    exists 1%Q, 1%Q. repeat split; reflexivity.
Defined.

(** X3. An absolute [CenterCrop] is idempotent: applied to its own
    output it returns that output unchanged. *)
Theorem CenterCrop_idempotent (self : CenterCrop.t) (a : ndarray)
    (w h : Z) (rows cols : nat) (chans : list nat) :
  CenterCrop.size self = (PyInt w, PyInt h) ->
  CenterCrop.relative self = false ->
  0 < w -> 0 < h ->
  shape a = rows :: cols :: chans -> (length chans <= 1)%nat ->
  exists out1 out2,
    CenterCrop.__call__ self (PyArray a) = Ok (PyArray out1) /\
    CenterCrop.__call__ self (PyArray out1) = Ok (PyArray out2) /\
    array_eq out2 out1.
Proof.
  intros Hsize Hrel Hw Hh Hs Hch.
  rewrite (CenterCrop_call_absolute self a w h rows cols chans Hsize Hrel
             Hs Hch).
  destruct (safe_crop_shape a
              (Z.of_nat cols / 2 - w / 2, Z.of_nat rows / 2 - h / 2)
              (Z.of_nat cols / 2 - w / 2 + w, Z.of_nat rows / 2 - h / 2 + h)
              (CenterCrop.bordertype self) (CenterCrop.borderval self)
              rows cols chans Hs Hch) as [out1 [Ho1 Hs1]];
    [simpl; lia | simpl; lia |].
  simpl in Hs1.
  replace (Z.of_nat rows / 2 - h / 2 + h - (Z.of_nat rows / 2 - h / 2))
    with h in Hs1 by lia.
  replace (Z.of_nat cols / 2 - w / 2 + w - (Z.of_nat cols / 2 - w / 2))
    with w in Hs1 by lia.
  match type of Hs1 with
  | shape out1 = _ :: _ :: ?c => set (chans1 := c) in Hs1
  end.
  assert (Hch1 : (length chans1 <= 1)%nat).
  { unfold chans1, crop_channels, cv_channels.
    destruct (needs_border _ _ _ _); [|exact Hch].
    destruct chans as [|[|[|n]] [|n' chans]]; simpl in *; lia. }
  destruct (safe_crop_full out1 (CenterCrop.bordertype self)
              (CenterCrop.borderval self) _ _ _ Hs1) as [out2 [Ho2 Heq]].
  exists out1, out2. rewrite Ho1. split; [reflexivity|]. split; [|exact Heq].
  rewrite (CenterCrop_call_absolute self out1 w h _ _ chans1 Hsize Hrel
             Hs1 Hch1).
  rewrite !Z2Nat.id in * by lia.
  rewrite !Z.sub_diag, !Z.add_0_l, Ho2. reflexivity.
Qed.

Lemma CenterCrop_idempotent_witness :
  let self := CenterCrop.mk (PyInt 4, PyInt 2) false BORDER_REFLECT
                            zero_border in
  let a := mk_ndarray [3; 3]%nat (fun _ => 1%Q) in
  exists out1 out2,
    CenterCrop.__call__ self (PyArray a) = Ok (PyArray out1) /\
    CenterCrop.__call__ self (PyArray out1) = Ok (PyArray out2) /\
    array_eq out2 out1.
Proof.
  intros self a.
  apply (CenterCrop_idempotent self a 4 2 3 3 []);
    first [reflexivity | lia | simpl; lia].
Defined.

(** X4. A size that pairs an int width with a float height passes the
    checks of [CenterCrop.__init__] (which reads the mode off the width
    alone), and the operation it builds raises on every sample. *)
Theorem CenterCrop_mixed_size_never_returns
    (import_class : string -> result border_type) (w : Z) (q : Q)
    (bt : border_type) (bv : list Z -> Q) :
  0 < w -> (0 < q)%Q ->
  exists self,
    CenterCrop.__init__ import_class (PyTuple [PyInt w; PyFloat q])
                        (Given bt) bv = Ok self /\
    forall sample, raises (CenterCrop.__call__ self sample).
Proof.
  intros Hw Hq. exists (CenterCrop.mk (PyInt w, PyFloat q) false bt bv).
  split.
  - unfold CenterCrop.__init__. simpl.
    destruct (Z.leb_spec w 0); [lia|]. simpl.
    rewrite (Qle_bool_false q 0 Hq). reflexivity.
  - intros sample. unfold CenterCrop.__call__.
    destruct sample; try (eexists; reflexivity).
    destruct (_ || _); [eexists; reflexivity|].
    simpl. destruct (shape_at a 0); [|eexists; reflexivity].
    simpl. destruct (shape_at a 1); eexists; reflexivity.
Qed.

Lemma CenterCrop_mixed_size_never_returns_witness :
  exists self,
    CenterCrop.__init__ (fun _ => Raise ValueError)
      (PyTuple [PyInt 4; PyFloat (5 # 2)]) (Given BORDER_CONSTANT)
      zero_border = Ok self /\
    raises (CenterCrop.__call__ self
              (PyArray (mk_ndarray [8; 8]%nat (fun _ => 1%Q)))).
Proof.
  destruct (CenterCrop_mixed_size_never_returns (fun _ => Raise ValueError)
              4 (5 # 2) BORDER_CONSTANT zero_border) as [self [Hi Hc]];
    [lia | reflexivity |].
  exists self. split; [exact Hi | apply Hc].
Defined.

(** ** Compose *)

(** X5. The forward pass of a pipeline built from two lists of
    operations is the forward pass of the first followed by that of the
    second, and an exception of the first part ends the pass. *)
Theorem Compose_call_app (ts1 ts2 : list transform) (img : pyval) :
  Compose.__call__ (Compose.__init__ (ts1 ++ ts2)) img
  = Compose.__call__ (Compose.__init__ ts1) img
    ≫= Compose.__call__ (Compose.__init__ ts2).
Proof.
  unfold Compose.__call__, Compose.__init__. simpl.
  revert img. induction ts1 as [|op ts1 IH]; intros img; simpl.
  - reflexivity.
  - destruct (t_call op img) as [img'|e]; simpl; [apply IH | reflexivity].
Qed.

(** X6. When the [invert] of every operation of a pipeline undoes its
    forward call, [Compose.invert] undoes [Compose.__call__]. *)
Theorem Compose_invert_call (ts : list transform) (x y : pyval) :
  Forall (fun op => exists inv,
            t_invert op = Some inv /\
            forall s s', t_call op s = Ok s' -> inv s' = Ok s) ts ->
  Compose.__call__ (Compose.__init__ ts) x = Ok y ->
  Compose.invert (Compose.__init__ ts) y = Ok x.
Proof.
  unfold Compose.__call__, Compose.invert, Compose.__init__. simpl.
  intros Hall. revert x.
  induction Hall as [|op ts [inv [Hinv Hundo]] _ IH]; intros x Hcall;
    simpl in *.
  - now injection Hcall as <-.
  - apply bind_returns in Hcall as [x' [Hop Hcall]].
    rewrite invert_loop_snoc, (IH x' Hcall). simpl.
    unfold invert_or_raise. rewrite Hinv. now apply Hundo.
Qed.

Lemma Compose_invert_call_witness :
  let twice := mk_transform
                 (fun s => Ok (Duplicator.__call__ (Duplicator.mk 2 false) s))
                 (Some (Duplicator.invert (Duplicator.mk 2 false))) in
  Compose.invert (Compose.__init__ [twice; twice])
                 (PyList [PyList [PyInt 7; PyInt 7];
                          PyList [PyInt 7; PyInt 7]])
  = Ok (PyInt 7).
Proof.
  intros twice.
  apply (Compose_invert_call [twice; twice] (PyInt 7)); [|reflexivity].
  assert (H : exists inv, t_invert twice = Some inv /\
                forall s s', t_call twice s = Ok s' -> inv s' = Ok s).
  { eexists. split; [reflexivity|]. intros s s' [= <-]. reflexivity. }
  repeat constructor; exact H.
Defined.

(** ** Transpose: what the constructor lets through *)

(** X7. Axes that stay below the rank but repeat one pass the checks of
    [Transpose.__init__]; the object is built and its [__call__] raises
    [ValueError] on every array of that rank. *)
Theorem Transpose_repeated_axes (p : list nat) (x : ndarray) :
  length p = length (shape x) ->
  Forall (fun k => (k < length (shape x))%nat) p ->
  ~ NoDup p ->
  exists self,
    Transpose.__init__ (map Z.of_nat p) = Ok self /\
    Transpose.__call__ self x = Raise ValueError.
Proof.
  intros Hlen Hbound Hdup.
  destruct (Transpose.__init__ (map Z.of_nat p)) as [self|e] eqn:Hinit.
  - exists self. split; [reflexivity|].
    unfold Transpose.__init__ in Hinit.
    destruct (existsb _ _); [discriminate|].
    apply bind_returns in Hinit as [inv [_ Hinit]]. injection Hinit as <-.
    unfold Transpose.__call__, np_transpose. cbn [Transpose.axes].
    rewrite !length_map, Hlen, Nat.eqb_refl. cbn [negb].
    rewrite map_map, (mapM_normalize_axis _ p Hbound), bind_Ok.
    now rewrite bool_decide_eq_false_2.
  - exfalso. unfold Transpose.__init__ in Hinit.
    rewrite length_map, Hlen in Hinit.
    destruct (existsb _ _) eqn:E.
    + apply existsb_exists in E as [ax [Hin E]].
      apply in_map_iff in Hin as [k [<- Hin]]. apply Z.leb_le in E.
      apply list_elem_of_In in Hin.
      pose proof (proj1 (Forall_forall _ _) Hbound k Hin) as Hlt.
      simpl in Hlt. lia.
    + rewrite init_loop_scatter in Hinit; [discriminate|].
      now rewrite length_replicate.
Qed.

Lemma Transpose_repeated_axes_witness :
  exists self,
    Transpose.__init__ [0; 0; 1] = Ok self /\
    Transpose.__call__ self (mk_ndarray [2; 3; 4]%nat (fun _ => 0%Q))
    = Raise ValueError.
Proof.
  apply (Transpose_repeated_axes [0; 0; 1]%nat
           (mk_ndarray [2; 3; 4]%nat (fun _ => 0%Q))).
  - reflexivity.
  - repeat constructor.
  - intros H. apply NoDup_cons in H as [H _]. apply H. left.
Defined.

(** ** Transpose: negative axes *)

Lemma np_setitem_normalized {A} (l : list A) (ax : Z) (v : A) :
  - Z.of_nat (length l) <= ax < Z.of_nat (length l) ->
  np_setitem l ax v
  = Ok (<[Z.to_nat (if ax <? 0 then ax + Z.of_nat (length l) else ax) := v]> l).
Proof.
  intros Hax. unfold np_setitem.
  destruct (Z.ltb_spec ax 0).
  - rewrite (proj2 (Z.ltb_ge (ax + Z.of_nat (length l)) 0)) by lia.
    now rewrite (proj2 (Z.leb_gt (Z.of_nat (length l))
                          (ax + Z.of_nat (length l)))) by lia.
  - rewrite (proj2 (Z.ltb_ge ax 0)) by lia.
    now rewrite (proj2 (Z.leb_gt (Z.of_nat (length l)) ax)) by lia.
Qed.

Lemma init_loop_normalized (n : nat) (axes : list Z) (i : Z)
    (inv : list (option Z)) :
  length inv = n ->
  Forall (fun ax => - Z.of_nat n <= ax < Z.of_nat n) axes ->
  Transpose.init_loop i axes inv
  = Ok (scatter (normalized_axes n axes)
                (map (fun j : nat => Some (i + Z.of_nat j))
                     (seq 0 (length axes))) inv).
Proof.
  intros Hlen Hax. revert i inv Hlen.
  induction Hax as [|ax axes Hr _ IH]; intros i inv Hlen; [reflexivity|].
  cbn [Transpose.init_loop].
  rewrite np_setitem_normalized by (rewrite Hlen; exact Hr).
  rewrite bind_Ok, IH by (now rewrite length_insert).
  cbn [normalized_axes map length seq scatter]. rewrite Hlen, Z.add_0_r.
  f_equal. f_equal.
  rewrite <- seq_shift, map_map. apply map_ext. intros j. f_equal. lia.
Qed.

Lemma mapM_normalize_axis_normalized (n : nat) (axes : list Z) :
  Forall (fun ax => - Z.of_nat n <= ax < Z.of_nat n) axes ->
  mapM (normalize_axis n) (map Some axes) = Ok (normalized_axes n axes).
Proof.
  induction 1 as [|ax axes Hr _ IH]; [reflexivity|].
  cbn [map normalized_axes]. rewrite mapM_cons.
  fold (normalized_axes n axes). rewrite IH.
  unfold normalize_axis.
  destruct (Z.ltb_spec ax 0).
  - rewrite (proj2 (Z.ltb_ge (ax + Z.of_nat n) 0)) by lia.
    now rewrite (proj2 (Z.leb_gt (Z.of_nat n) (ax + Z.of_nat n))) by lia.
  - rewrite (proj2 (Z.ltb_ge ax 0)) by lia.
    now rewrite (proj2 (Z.leb_gt (Z.of_nat n) ax)) by lia.
Qed.

(** X8. The round trip of [Transpose] also holds for axes written with
    negative numbers: when every axis lies in [[-n, n)] and the axes,
    counted from the end where negative, are a permutation of the axes of
    the array, [__init__] succeeds and [invert] after [__call__] gives the
    array back. *)
Theorem Transpose_negative_axes (axes : list Z) (x : ndarray) :
  Forall (fun ax => - Z.of_nat (length (shape x)) <= ax
                    < Z.of_nat (length (shape x))) axes ->
  Permutation (normalized_axes (length (shape x)) axes)
              (seq 0 (length (shape x))) ->
  exists self y z,
    Transpose.__init__ axes = Ok self /\
    Transpose.__call__ self x = Ok y /\
    Transpose.invert self y = Ok z /\
    array_eq z x.
Proof.
  intros Hax Hp. set (n := length (shape x)) in *.
  set (p := normalized_axes n axes) in *.
  set (q := inverse_permutation n p).
  pose proof (perm_length n p Hp) as Hlen.
  pose proof (perm_bound n p Hp) as Hbound.
  pose proof (inverse_length n p) as Hqlen. fold q in Hqlen.
  pose proof (inverse_bound n p Hp) as Hqbound. fold q in Hqbound.
  pose proof (inverse_NoDup n p Hp) as Hqnodup. fold q in Hqnodup.
  assert (Halen : length axes = n)
    by (rewrite <- Hlen; unfold p, normalized_axes; now rewrite length_map).
  assert (Hinv : Transpose.init_loop 0 axes (replicate n None)
                 = Ok (map (fun k : nat => Some (Z.of_nat k)) q)).
  { rewrite (init_loop_normalized n) by (try exact Hax; apply length_replicate).
    fold p. unfold q.
    rewrite <- (init_loop_inverse n p Hp).
    rewrite init_loop_scatter by (rewrite length_replicate; exact Hbound).
    now rewrite Halen, Hlen. }
  exists (Transpose.mk axes (map (fun k : nat => Some (Z.of_nat k)) q)).
  set (y := {| shape := map (fun k => default 0%nat (shape x !! k)) p;
               item := fun idx =>
                 item x (scatter p idx (replicate n 0)) |}).
  set (z := {| shape := map (fun k => default 0%nat (shape y !! k)) q;
               item := fun idx =>
                 item y (scatter q idx (replicate n 0)) |}).
  exists y, z.
  assert (Hy : length (shape y) = n) by (simpl; now rewrite length_map).
  split; [|split; [|split]].
  - unfold Transpose.__init__. rewrite Halen.
    destruct (existsb _ _) eqn:E.
    + apply existsb_exists in E as [ax [Hin E]]. apply Z.leb_le in E.
      apply list_elem_of_In in Hin.
      pose proof (proj1 (Forall_forall _ _) Hax ax Hin) as Hr.
      simpl in Hr. lia.
    + rewrite Hinv. reflexivity.
  - unfold Transpose.__call__, np_transpose. cbn [Transpose.axes].
    rewrite length_map. fold n. rewrite Halen, Nat.eqb_refl. cbn [negb].
    rewrite (mapM_normalize_axis_normalized n axes Hax), bind_Ok. fold p.
    rewrite bool_decide_eq_true_2 by (apply (perm_NoDup n p Hp)).
    reflexivity.
  - unfold Transpose.invert, np_transpose. cbn [Transpose.axes_inv].
    rewrite length_map, Hy, Hqlen, Nat.eqb_refl. cbn [negb].
    rewrite (mapM_normalize_axis n q Hqbound), bind_Ok.
    rewrite bool_decide_eq_true_2 by exact Hqnodup.
    reflexivity.
  - split.
    + simpl. apply (gather_inverse n p Hp). reflexivity.
    + intros idx Hidx. simpl in Hidx. rewrite length_map in Hidx.
      rewrite Hqlen in Hidx. simpl. f_equal.
      apply (scatter_inverse n p Hp); try assumption;
        now rewrite length_replicate.
Qed.

Lemma Transpose_negative_axes_witness :
  let x := mk_ndarray [2; 3; 4]%nat
             (fun idx => match idx with
                         | [i; j; k] => inject_Z (100 * i + 10 * j + k)
                         | _ => 0%Q
                         end) in
  exists self y z,
    Transpose.__init__ [-1; 0; 1] = Ok self /\
    Transpose.__call__ self x = Ok y /\
    Transpose.invert self y = Ok z /\
    array_eq z x.
Proof.
  intros x. apply (Transpose_negative_axes [-1; 0; 1] x).
  - repeat constructor; simpl; lia.
  - change ([2%nat; 0%nat; 1%nat] ≡ₚ [0%nat; 1%nat; 2%nat]).
    apply (Permutation_app_comm [2%nat] [0%nat; 1%nat]).
Defined.

(** ** Tile: where the tiles lie *)

Section TileInvariant.

Variables (mask : pyval) (tile step overlap_offset : Z * Z).
Variables (width height : Z) (req_mask_area : Q).
Hypothesis step_w_pos : 1 <= fst step.
Hypothesis step_h_pos : 1 <= snd step.

Lemma visit_spec (col row : Z) (tile_rects tile_rects' : list Tile.rect) :
  Tile.visit mask tile req_mask_area col row tile_rects = Ok tile_rects' ->
  tile_rects' = tile_rects \/
  (tile_rects' = tile_rects ++ [(col, row, fst tile, snd tile)] /\
   (mask = PyNone
    \/ Tile.covered mask tile req_mask_area col row = Ok true)).
Proof.
  unfold Tile.visit. intros H.
  assert (Hc : (Tile.covered mask tile req_mask_area col row
                ≫= fun hit : bool =>
                  Ok (if hit
                      then tile_rects ++ [(col, row, fst tile, snd tile)]
                      else tile_rects)) = Ok tile_rects' ->
            tile_rects' = tile_rects \/
            (tile_rects' = tile_rects ++ [(col, row, fst tile, snd tile)] /\
             (mask = PyNone
              \/ Tile.covered mask tile req_mask_area col row = Ok true))).
  { destruct (Tile.covered mask tile req_mask_area col row) as [[|]|e];
      intros Hm; simpl in Hm; try discriminate; injection Hm as <-; auto. }
  destruct mask; try (apply Hc in H; exact H).
  injection H as <-. right. auto.
Qed.

Lemma col_loop_placed (fuel : nat) (row col : Z)
    (tile_rects tile_rects' : list Tile.rect) :
  row + snd tile <= height - snd overlap_offset ->
  Tile.col_loop mask tile step overlap_offset width req_mask_area
                fuel row col tile_rects = Ok tile_rects' ->
  exists added,
    tile_rects' = tile_rects ++ added /\
    Forall (placed mask tile overlap_offset width height req_mask_area
                   col row) added.
Proof.
  intros Hrow. revert col tile_rects.
  induction fuel as [|fuel IH]; intros col rects H; simpl in H.
  - injection H as <-. exists []. split; [now rewrite app_nil_r|constructor].
  - destruct (Z.leb_spec (col + fst tile) (width - fst overlap_offset)).
    + apply bind_returns in H as [rects1 [Hv H]].
      apply IH in H as [added [-> Hall]].
      assert (Hshift : Forall (placed mask tile overlap_offset width
                                      height req_mask_area col row) added).
      { eapply Forall_impl; [exact Hall|].
        intros r [x [y [-> [? [? [? [? ?]]]]]]].
        exists x, y. repeat split; try assumption; lia. }
      apply visit_spec in Hv as [-> | [-> Hcov]].
      * exists added. split; [reflexivity | exact Hshift].
      * exists ((col, row, fst tile, snd tile) :: added).
        split; [now rewrite <- app_assoc|].
        constructor; [|exact Hshift].
        exists col, row. repeat split; try assumption; lia.
    + injection H as <-. exists [].
      split; [now rewrite app_nil_r|constructor].
Qed.

Lemma row_loop_placed (fuel : nat) (col0 row : Z)
    (tile_rects tile_rects' : list Tile.rect) :
  Tile.row_loop mask tile step overlap_offset width height req_mask_area
                fuel col0 row tile_rects = Ok tile_rects' ->
  exists added,
    tile_rects' = tile_rects ++ added /\
    Forall (placed mask tile overlap_offset width height req_mask_area
                   col0 row) added.
Proof.
  revert row tile_rects.
  induction fuel as [|fuel IH]; intros row rects H; simpl in H.
  - injection H as <-. exists []. split; [now rewrite app_nil_r|constructor].
  - destruct (Z.leb_spec (row + snd tile) (height - snd overlap_offset)).
    + apply bind_returns in H as [rects1 [Hc H]].
      apply col_loop_placed in Hc as [added1 [-> H1]]; [|assumption].
      apply IH in H as [added2 [-> H2]].
      exists (added1 ++ added2). split; [now rewrite <- app_assoc|].
      apply Forall_app. split; [exact H1|].
      eapply Forall_impl; [exact H2|].
      intros r [x [y [-> [? [? [? [? ?]]]]]]].
      exists x, y. repeat split; try assumption; lia.
    + injection H as <-. exists [].
      split; [now rewrite app_nil_r|constructor].
Qed.

(** The anchor found by the search is not left of, nor above, the
    overlap offset. *)
Lemma search_anchor (coords : list (Z * Z)) (coord : Z * Z) :
  Tile.search mask tile step overlap_offset req_mask_area coords
  = Ok (Some coord) ->
  fst overlap_offset <= fst coord /\ snd overlap_offset <= snd coord.
Proof.
  induction coords as [|[row col] coords IH]; simpl; [discriminate|].
  intros H. apply bind_returns in H as [[|] [_ H]]; [|now apply IH].
  injection H as <-. simpl.
  pose proof (Z.mod_pos_bound (col - fst overlap_offset) (fst step)).
  pose proof (Z.mod_pos_bound (row - snd overlap_offset) (snd step)).
  lia.
Qed.

End TileInvariant.

(** Unfolding of [_get_tile_rects] on an array: the anchor, then the grid. *)
Lemma get_tile_rects_anchor (self : Tile.t) (a : ndarray) (mask : pyval)
    (h w : nat) (rest : list nat) (rects : list Tile.rect) :
  shape a = h :: w :: rest ->
  Tile._get_tile_rects self (PyArray a) mask = Ok rects ->
  let tile := Tile.resolved_tile_size self (Z.of_nat w) (Z.of_nat h) in
  let overlap := Tile.overlap_of self tile in
  let step := Tile.step_size_of tile overlap in
  let offset := Tile.overlap_offset_of self overlap in
  let req := mul_int_float (fst tile * snd tile) (Tile.min_mask_iou self) in
  rects = [] \/
  exists coord,
    fst offset <= fst coord /\ snd offset <= snd coord /\
    Tile.grid (asarray_if_pil mask) tile step offset (Z.of_nat w)
              (Z.of_nat h) req coord = Ok rects.
Proof.
  intros Hs H tile overlap step offset req.
  unfold Tile._get_tile_rects in H. simpl asarray_if_pil in H.
  cbn [py_shape] in H. unfold shape_at in H. rewrite Hs in H.
  simpl lookup in H. cbv iota in H. rewrite !bind_Ok in H.
  cbv iota beta in H.
  fold tile in H. fold overlap in H. fold step in H. fold offset in H.
  fold req in H.
  apply bind_returns in H as [[coord|] [Hanchor H]].
  - right. exists coord. split; [|split; [|exact H]].
    + destruct (asarray_if_pil mask) eqn:Em;
        try (apply bind_returns in Hanchor as [mh [_ Hanchor]];
             apply bind_returns in Hanchor as [[|] [_ Hanchor]];
             [discriminate|]);
        try discriminate.
      * injection Hanchor as <-. lia.
      * destruct (negb (ndim a0 =? 2)); [discriminate|].
        apply search_anchor in Hanchor; [tauto | |];
          unfold step, Tile.step_size_of; simpl; lia.
    + destruct (asarray_if_pil mask) eqn:Em;
        try (apply bind_returns in Hanchor as [mh [_ Hanchor]];
             apply bind_returns in Hanchor as [[|] [_ Hanchor]];
             [discriminate|]);
        try discriminate.
      * injection Hanchor as <-. lia.
      * destruct (negb (ndim a0 =? 2)); [discriminate|].
        apply search_anchor in Hanchor; [tauto | |];
          unfold step, Tile.step_size_of; simpl; lia.
  - left. now injection H as <-.
Qed.

(** The placement invariant: size and bounds of every rect. *)
Lemma Tile_rects_within_bounds_aux (self : Tile.t) (a : ndarray)
    (mask : pyval) (h w : nat) (rest : list nat) (rects : list Tile.rect) :
  shape a = h :: w :: rest ->
  Tile._get_tile_rects self (PyArray a) mask = Ok rects ->
  let tile := Tile.resolved_tile_size self (Z.of_nat w) (Z.of_nat h) in
  let offset := Tile.overlap_offset_of self (Tile.overlap_of self tile) in
  Forall (fun r : Tile.rect =>
            let '(x, y, tw, th) := r in
            tw = fst tile /\ th = snd tile /\
            fst offset <= x /\ x + tw <= Z.of_nat w - fst offset /\
            snd offset <= y /\ y + th <= Z.of_nat h - snd offset) rects.
Proof.
  intros Hs H tile offset.
  destruct (get_tile_rects_anchor self a mask h w rest rects Hs H)
    as [-> | [coord [Hx [Hy Hgrid]]]]; [constructor|].
  unfold Tile.grid in Hgrid.
  apply row_loop_placed in Hgrid as [added [-> Hall]];
    try (unfold Tile.step_size_of; simpl; lia).
  simpl. eapply Forall_impl; [exact Hall|].
  intros r [x [y [-> [? [? [? [? ?]]]]]]].
  fold tile in Hx, Hy. fold offset in Hx, Hy.
  repeat split; try assumption; lia.
Qed.

(** X9. Every rect [Tile] places has the resolved tile size and lies
    between the overlap offset and the image size minus that offset, on
    both axes, with or without a mask; with [offset_overlap] off the
    offset is zero, so every tile lies inside the image. *)
Theorem Tile_rects_within_bounds (self : Tile.t) (a : ndarray)
    (mask : pyval) (h w : nat) (rest : list nat) (rects : list Tile.rect) :
  shape a = h :: w :: rest ->
  Tile._get_tile_rects self (PyArray a) mask = Ok rects ->
  let tile := Tile.resolved_tile_size self (Z.of_nat w) (Z.of_nat h) in
  let offset := Tile.overlap_offset_of self (Tile.overlap_of self tile) in
  (Tile.offset_overlap self = false -> offset = (0, 0)) /\
  Forall (fun r : Tile.rect =>
            let '(x, y, tw, th) := r in
            tw = fst tile /\ th = snd tile /\
            fst offset <= x /\ x + tw <= Z.of_nat w - fst offset /\
            snd offset <= y /\ y + th <= Z.of_nat h - snd offset) rects.
Proof.
  intros Hs H tile offset. split.
  { intros Hoff. unfold offset, Tile.overlap_offset_of. now rewrite Hoff. }
  exact (Tile_rects_within_bounds_aux self a mask h w rest rects Hs H).
Qed.

Lemma Tile_rects_within_bounds_witness :
  let self := Tile.mk (AbsSize 3 3) 0 1 false BORDER_CONSTANT zero_border in
  let a := mk_ndarray [5; 7]%nat (fun _ => 1%Q) in
  Forall (fun r : Tile.rect =>
            let '(x, y, tw, th) := r in
            tw = 3 /\ th = 3 /\ 0 <= x /\ x + tw <= 7 - 0 /\
            0 <= y /\ y + th <= 5 - 0)
         [(0, 0, 3, 3); (3, 0, 3, 3)].
Proof.
  intros self a.
  apply (proj2 (Tile_rects_within_bounds self a PyNone 5 7 [] _ eq_refl
                  eq_refl)).
Defined.

(** X10. With a mask, every rect [Tile] returns passes the coverage
    test: the crop of the mask at the rect has at least
    [tile_w * tile_h * min_mask_iou] nonzero pixels, the product being
    the double the code compares with. *)
Theorem Tile_rects_meet_coverage (self : Tile.t) (a : ndarray)
    (mask : pyval) (h w : nat) (rest : list nat) (rects : list Tile.rect) :
  shape a = h :: w :: rest ->
  mask <> PyNone ->
  Tile._get_tile_rects self (PyArray a) mask = Ok rects ->
  let tile := Tile.resolved_tile_size self (Z.of_nat w) (Z.of_nat h) in
  Forall (fun r : Tile.rect =>
            let '(x, y, tw, th) := r in
            exists crop,
              safe_crop (asarray_if_pil mask) (x, y) (x + tw, y + th)
                        BORDER_CONSTANT zero_border = Ok crop /\
              (mul_int_float (fst tile * snd tile) (Tile.min_mask_iou self)
               <= inject_Z (count_nonzero crop))%Q) rects.
Proof.
  intros Hs Hmask H tile.
  destruct (get_tile_rects_anchor self a mask h w rest rects Hs H)
    as [-> | [coord [_ [_ Hgrid]]]]; [constructor|].
  unfold Tile.grid in Hgrid.
  apply row_loop_placed in Hgrid as [added [-> Hall]];
    try (unfold Tile.step_size_of; simpl; lia).
  simpl. eapply Forall_impl; [exact Hall|].
  intros r [x [y [-> [_ [_ [_ [_ [Hnone | Hcov]]]]]]]].
  - destruct mask; try discriminate. contradiction.
  - unfold Tile.covered in Hcov.
    apply bind_returns in Hcov as [crop [Hcrop Hcov]].
    exists crop. split; [exact Hcrop|].
    injection Hcov as Hcov. now apply Qle_bool_iff.
Qed.

Lemma Tile_rects_meet_coverage_witness :
  let iou := (3602879701896397 # 36028797018963968)%Q in
  let self := Tile.mk (AbsSize 5 2) 0 iou false BORDER_CONSTANT
                      zero_border in
  let m := mk_ndarray [2; 5]%nat
             (fun idx => match idx with
                         | [0; 0] => 1%Q
                         | _ => 0%Q
                         end) in
  Forall (fun r : Tile.rect =>
            let '(x, y, tw, th) := r in
            exists crop,
              safe_crop (PyArray m) (x, y) (x + tw, y + th)
                        BORDER_CONSTANT zero_border = Ok crop /\
              (mul_int_float (5 * 2) iou <= inject_Z (count_nonzero crop))%Q)
         [(0, 0, 5, 2)].
Proof.
  intros iou self m.
  apply (Tile_rects_meet_coverage self m (PyArray m) 2 5 [] _ eq_refl);
    [discriminate | reflexivity].
Defined.

Lemma mapM_Forall2 {A B} (f : A -> result B) (l : list A) (l' : list B) :
  mapM f l = Ok l' -> Forall2 (fun x y => f x = Ok y) l l'.
Proof.
  revert l'. induction l as [|x l IH]; intros l' H.
  - injection H as <-. constructor.
  - rewrite mapM_cons in H. apply bind_returns in H as [y [Hy H]].
    apply bind_returns in H as [k [Hk H]]. injection H as <-.
    constructor; [exact Hy | now apply IH].
Qed.

(** X11. Every tile [Tile.__call__] returns has exactly the resolved
    tile height and width, also where the tile reaches beyond the image
    and is padded.  Its channel axes are those of the image, except that
    a padded tile of an (H, W, 1) image comes back 2-d; with
    [offset_overlap] off no tile is padded and every tile has the
    channels of the image. *)
Theorem Tile_call_tile_shapes (self : Tile.t) (a : ndarray) (mask : pyval)
    (h w : nat) (rest : list nat) (tiles : list ndarray) :
  shape a = h :: w :: rest -> (length rest <= 1)%nat ->
  let tile := Tile.resolved_tile_size self (Z.of_nat w) (Z.of_nat h) in
  0 <= fst tile -> 0 <= snd tile ->
  Tile.__call__ self (PyArray a) mask = Ok tiles ->
  Forall (fun t =>
            take 2 (shape t) = [Z.to_nat (snd tile); Z.to_nat (fst tile)] /\
            (shape t = Z.to_nat (snd tile) :: Z.to_nat (fst tile) :: rest
             \/ (rest = [1%nat] /\
                 shape t = [Z.to_nat (snd tile); Z.to_nat (fst tile)])))
         tiles /\
  (Tile.offset_overlap self = false ->
   Forall (fun t => shape t = Z.to_nat (snd tile) :: Z.to_nat (fst tile)
                                :: rest) tiles).
Proof.
  intros Hs Hrest tile Htw Hth H. unfold Tile.__call__ in H.
  apply bind_returns in H as [rects [Hrects H]].
  apply mapM_Forall2 in H.
  pose proof (Tile_rects_within_bounds_aux self a mask h w rest rects Hs
                Hrects) as Hall.
  cbv zeta in Hall. fold tile in Hall.
  assert (Hshape :
    Forall2 (fun (r : Tile.rect) t =>
               let '(x, y, tw, th) := r in
               shape t = Z.to_nat (snd tile) :: Z.to_nat (fst tile)
                           :: crop_channels h w rest (x, y)
                                (x + fst tile, y + snd tile))
            rects tiles).
  { clear Hrects.
    induction H as [|r t rects tiles Hcrop _ IH]; [constructor|].
    apply Forall_cons in Hall as [Hr Hall].
    constructor; [|exact (IH Hall)].
    destruct r as [[[x y] tw] th]. destruct Hr as [-> [-> _]].
    destruct (safe_crop_shape a (x, y) (x + fst tile, y + snd tile)
                (Tile.bordertype self) (Tile.borderval self) h w rest Hs
                Hrest) as [out [Ho Hos]]; [simpl; lia | simpl; lia |].
    rewrite Ho in Hcrop. injection Hcrop as <-. rewrite Hos. simpl.
    apply cons2_eq; f_equal; lia. }
  split.
  - clear H Hall Hrects.
    induction Hshape as [|r t rects tiles Hr _ IH]; [constructor|].
    constructor; [|exact IH].
    destruct r as [[[x y] tw] th]. rewrite Hr.
    split; [reflexivity|].
    unfold crop_channels, cv_channels.
    destruct (needs_border h w (x, y) (x + fst tile, y + snd tile));
      [|now left].
    destruct rest as [|[|[|n]] [|n' rest]]; auto.
  - intros Hoff. clear H Hrects.
    induction Hshape as [|r t rects tiles Hr _ IH]; [constructor|].
    apply Forall_cons in Hall as [Hb Hall].
    constructor; [|exact (IH Hall)].
    destruct r as [[[x y] tw] th]. rewrite Hr.
    destruct Hb as [-> [-> Hb]].
    unfold Tile.overlap_offset_of in Hb. rewrite Hoff in Hb.
    cbn [fst snd] in Hb.
    unfold crop_channels, needs_border. cbn [fst snd].
    destruct (Z.ltb_spec x 0); [lia|]. destruct (Z.ltb_spec y 0); [lia|].
    destruct (Z.ltb_spec (Z.of_nat w) (x + fst tile)); [lia|].
    destruct (Z.ltb_spec (Z.of_nat h) (y + snd tile)); [lia|].
    reflexivity.
Qed.

Lemma Tile_call_tile_shapes_witness :
  let self := Tile.mk (AbsSize 4 4) (1 # 2) 1 true BORDER_REPLICATE
                      zero_border in
  let a := mk_ndarray [4; 4; 1]%nat (fun _ => 1%Q) in
  exists tiles,
    Tile.__call__ self (PyArray a) PyNone = Ok tiles /\
    length tiles = 4%nat /\
    Forall (fun t => take 2 (shape t) = [4; 4]%nat) tiles.
Proof.
  intros self a.
  destruct (Tile.__call__ self (PyArray a) PyNone) as [tiles|e] eqn:E;
    [|vm_compute in E; discriminate].
  exists tiles. split; [reflexivity|]. split.
  - pose proof (f_equal (fmap length) E) as El.
    change (fmap length (Ok tiles)) with (Ok (length tiles)) in El.
    vm_compute in El. injection El as El. symmetry. exact El.
  - destruct (Tile_call_tile_shapes self a PyNone 4 4 [1%nat] tiles eq_refl)
      as [Hall _]; [simpl; lia | simpl; lia | simpl; lia | exact E |].
    eapply Forall_impl; [exact Hall|]. intros t [Ht _]. exact Ht.
Defined.

(** ** Tile: how many tiles *)

Lemma lattice_length (start step : Z) (n : nat) :
  length (lattice start step n) = n.
Proof.
  revert start. induction n as [|n IH]; intros start; simpl;
    [|rewrite IH]; reflexivity.
Qed.

Lemma flat_map_length_const {A B} (f : A -> list B) (l : list A) (n : nat) :
  (forall x, length (f x) = n) -> length (flat_map f l) = (length l * n)%nat.
Proof.
  intros Hf. induction l as [|x l IH]; simpl; [reflexivity|].
  now rewrite length_app, Hf, IH.
Qed.

Lemma grid_rects_length (tile start step limit : Z * Z) :
  length (grid_rects tile start step limit)
  = (lattice_count (snd start) (snd tile) (snd limit) (snd step)
     * lattice_count (fst start) (fst tile) (fst limit) (fst step))%nat.
Proof.
  unfold grid_rects.
  rewrite (flat_map_length_const _ _
             (lattice_count (fst start) (fst tile) (fst limit) (fst step))).
  - now rewrite lattice_length.
  - intros y. now rewrite length_map, lattice_length.
Qed.

Lemma get_tile_rects_no_mask (self : Tile.t) (a : ndarray) (h w : nat)
    (rest : list nat) :
  shape a = h :: w :: rest ->
  let tile := Tile.resolved_tile_size self (Z.of_nat w) (Z.of_nat h) in
  let overlap := Tile.overlap_of self tile in
  let offset := Tile.overlap_offset_of self overlap in
  Tile._get_tile_rects self (PyArray a) PyNone
  = Ok (grid_rects tile offset (Tile.step_size_of tile overlap)
          (Z.of_nat w - fst offset, Z.of_nat h - snd offset)).
Proof.
  intros Hs tile overlap offset.
  unfold Tile._get_tile_rects. simpl asarray_if_pil.
  unfold py_shape, shape_at. rewrite Hs. simpl lookup. cbv iota.
  rewrite !bind_Ok. cbv iota beta.
  fold tile. fold overlap. fold offset.
  unfold Tile.grid.
  rewrite row_loop_lattice
    by (unfold Tile.step_size_of; simpl; lia).
  simpl. now destruct offset.
Qed.






(** ** Rounding to double precision *)





Lemma mul_int_float_zero (z : Z) (q : Q) :
  (q == 0)%Q -> mul_int_float z q = 0%Q.
Proof.
  intros Hq. unfold mul_int_float, round_double at 1.
  assert (E : Qeq_bool (round_double (inject_Z z) * q) 0 = true).
  { apply Qeq_bool_iff. rewrite Hq. apply Qmult_0_r. }
  now rewrite E.
Qed.

(** ** Tile: masks *)





Section MaskNeverCovered.

Variables (m : ndarray) (tile step overlap_offset : Z * Z).
Variables (req_mask_area : Q) (h w : nat).
Hypothesis mask_shape : shape m = [h; w].
Hypothesis mask_zero : forall idx, (item m idx == 0)%Q.
Hypothesis area_pos : (0 < req_mask_area)%Q.



End MaskNeverCovered.



Lemma py_range_nil (lo hi : Z) : hi <= lo -> py_range lo hi = [].
Proof.
  intros H. unfold py_range.
  replace (Z.to_nat (hi - lo)) with O by lia. reflexivity.
Qed.

Lemma list_prod_nil_r {A B} (l : list A) : list_prod l (@nil B) = [].
Proof. induction l as [|x l IH]; [reflexivity|exact IH]. Qed.

Lemma grid_rects_nil (tile start step limit : Z * Z) :
  fst limit < fst start + fst tile \/ snd limit < snd start + snd tile ->
  grid_rects tile start step limit = [].
Proof.
  intros H.
  assert (Hlen : length (grid_rects tile start step limit) = O).
  { rewrite grid_rects_length. apply Nat.eq_mul_0.
    destruct H; [right|left]; now apply lattice_count_stop. }
  destruct (grid_rects tile start step limit); [reflexivity|discriminate].
Qed.

Section MaskAlwaysCovered.

Variables (m : ndarray) (tile step overlap_offset : Z * Z).
Variables (width height : Z) (req_mask_area : Q) (h w : nat).
Hypothesis mask_shape : shape m = [h; w].
Hypothesis area_zero : (req_mask_area <= 0)%Q.

Lemma covered_any_mask (col row : Z) :
  Tile.covered (PyArray m) tile req_mask_area col row = Ok true.
Proof.
  unfold Tile.covered.
  destruct (safe_crop_returns m (col, row) (col + fst tile, row + snd tile)
              BORDER_CONSTANT zero_border h w [] mask_shape)
    as [crop Hc]; [simpl; lia|].
  rewrite Hc, bind_Ok. f_equal. apply Qle_bool_iff.
  eapply Qle_trans; [exact area_zero|].
  unfold count_nonzero, Qle. simpl. lia.
Qed.

Lemma col_loop_any_mask (fuel : nat) (row col : Z)
    (tile_rects : list Tile.rect) :
  Tile.col_loop (PyArray m) tile step overlap_offset width req_mask_area
                fuel row col tile_rects
  = Tile.col_loop PyNone tile step overlap_offset width req_mask_area
                  fuel row col tile_rects.
Proof.
  revert col tile_rects.
  induction fuel as [|fuel IH]; intros col rects; [reflexivity|].
  simpl. destruct (col + fst tile <=? width - fst overlap_offset);
    [|reflexivity].
  unfold Tile.visit. rewrite covered_any_mask, !bind_Ok. apply IH.
Qed.

Lemma row_loop_any_mask (fuel : nat) (col0 row : Z)
    (tile_rects : list Tile.rect) :
  Tile.row_loop (PyArray m) tile step overlap_offset width height
                req_mask_area fuel col0 row tile_rects
  = Tile.row_loop PyNone tile step overlap_offset width height
                  req_mask_area fuel col0 row tile_rects.
Proof.
  revert row tile_rects.
  induction fuel as [|fuel IH]; intros row rects; [reflexivity|].
  simpl. destruct (row + snd tile <=? height - snd overlap_offset);
    [|reflexivity].
  rewrite col_loop_any_mask.
  destruct (Tile.col_loop PyNone _ _ _ _ _ _ _ _ _) as [rects'|e];
    [|reflexivity].
  rewrite !bind_Ok. apply IH.
Qed.

End MaskAlwaysCovered.

(** X15. With a minimum mask coverage of zero, a 2-d mask of the size of
    the image changes nothing: the rects are those computed without a
    mask, whatever the mask holds. *)
Theorem Tile_zero_iou_ignores_mask (self : Tile.t) (a m : ndarray)
    (h w : nat) (rest : list nat) :
  shape a = h :: w :: rest -> shape m = [h; w] ->
  (Tile.min_mask_iou self == 0)%Q ->
  Tile._get_tile_rects self (PyArray a) (PyArray m)
  = Tile._get_tile_rects self (PyArray a) PyNone.
Proof.
  intros Hs Hm Hiou.
  pose proof (get_tile_rects_no_mask self a h w rest Hs) as Hnone.
  cbv zeta in Hnone.
  set (tile := Tile.resolved_tile_size self (Z.of_nat w) (Z.of_nat h)) in *.
  set (overlap := Tile.overlap_of self tile) in *.
  set (offset := Tile.overlap_offset_of self overlap) in *.
  set (step := Tile.step_size_of tile overlap) in *.
  set (req := mul_int_float (fst tile * snd tile) (Tile.min_mask_iou self)).
  assert (Hreq : (req <= 0)%Q).
  { unfold req. rewrite (mul_int_float_zero _ _ Hiou). apply Qle_refl. }
  assert (Hmask :
    Tile._get_tile_rects self (PyArray a) (PyArray m)
    = (Tile.search (PyArray m) tile step offset req
         (list_prod
            (py_range (snd offset) (Z.of_nat h - snd offset - snd tile + 1))
            (py_range (fst offset) (Z.of_nat w - fst offset - fst tile + 1))))
      ≫= (fun oc =>
            match oc with
            | None => Ok []
            | Some coord =>
                Tile.grid (PyArray m) tile step offset (Z.of_nat w)
                          (Z.of_nat h) req coord
            end)).
  { unfold Tile._get_tile_rects. simpl asarray_if_pil.
    unfold py_shape, shape_at. rewrite Hs, Hm. simpl lookup. cbv iota.
    rewrite !bind_Ok. cbv iota beta.
    rewrite !Z.eqb_refl. simpl negb. cbv iota. rewrite !bind_Ok.
    cbv iota. unfold ndim. rewrite Hm. simpl negb. cbv iota.
    reflexivity. }
  rewrite Hmask.
  destruct (Z.le_gt_cases (Z.of_nat h - snd offset - snd tile + 1)
                          (snd offset)) as [Hrow|Hrow].
  { rewrite (py_range_nil (snd offset)) by exact Hrow. simpl.
    rewrite Hnone, grid_rects_nil; [reflexivity|]. right. simpl. lia. }
  destruct (Z.le_gt_cases (Z.of_nat w - fst offset - fst tile + 1)
                          (fst offset)) as [Hcol|Hcol].
  { rewrite (py_range_nil (fst offset)) by exact Hcol.
    rewrite list_prod_nil_r. simpl.
    rewrite Hnone, grid_rects_nil; [reflexivity|]. left. simpl. lia. }
  rewrite (py_range_cons (snd offset)), (py_range_cons (fst offset)) by lia.
  simpl list_prod. cbn [Tile.search].
  rewrite (covered_any_mask m tile req h w Hm Hreq), !bind_Ok.
  rewrite !Z.sub_diag, !Zmod_0_l, !Z.add_0_r.
  unfold Tile.grid.
  rewrite (row_loop_any_mask m tile step offset (Z.of_nat w) (Z.of_nat h)
             req h w Hm Hreq).
  rewrite row_loop_lattice
    by (unfold step, Tile.step_size_of; simpl; lia).
  rewrite Hnone. simpl. now destruct offset.
Qed.

Lemma Tile_zero_iou_ignores_mask_witness :
  Tile._get_tile_rects
    (Tile.mk (AbsSize 2 2) 0 0 false BORDER_CONSTANT zero_border)
    (PyArray (mk_ndarray [2; 4; 3]%nat (fun _ => 1%Q)))
    (PyArray (mk_ndarray [2; 4]%nat (fun _ => 0%Q)))
  = Ok [(0, 0, 2, 2); (2, 0, 2, 2)].
Proof.
  rewrite (Tile_zero_iou_ignores_mask
             (Tile.mk (AbsSize 2 2) 0 0 false BORDER_CONSTANT zero_border)
             (mk_ndarray [2; 4; 3]%nat (fun _ => 1%Q))
             (mk_ndarray [2; 4]%nat (fun _ => 0%Q)) 2 4 [3%nat]
             eq_refl eq_refl);
    reflexivity.
Defined.

(** ** Resize: what a call returns *)

Lemma cv_resize_shape (src out : ndarray) (dsize : Z * Z) (fx fy : Q) :
  fst dsize <> 0 -> snd dsize <> 0 ->
  cv_resize src dsize fx fy = Ok out ->
  exists rest,
    shape out = Z.to_nat (snd dsize) :: Z.to_nat (fst dsize) :: rest /\
    0 < fst dsize /\ 0 < snd dsize /\
    match shape src with
    | _ :: _ :: [1%nat] => rest = []
    | _ :: _ :: rest0 => rest = rest0
    | _ => False
    end.
Proof.
  intros Hw Hh H. unfold cv_resize in H.
  destruct (shape src) as [|h [|w rest0]]; try discriminate.
  destruct dsize as [dw dh]. simpl in Hw, Hh. simpl fst in H. simpl snd in H.
  destruct (Z.eqb_spec dw 0); [contradiction|].
  destruct (Z.eqb_spec dh 0); [contradiction|].
  simpl orb in H. cbv iota beta in H.
  destruct (Z.leb_spec dw 0); [rewrite !orb_true_r in H; discriminate|].
  destruct (Z.leb_spec dh 0); [rewrite !orb_true_r in H; discriminate|].
  match type of H with
  | (if ?cond then _ else _) = _ => destruct cond; [discriminate|]
  end.
  destruct rest0 as [|[|[|c]] [|c' rest1]]; injection H as <-;
    eexists; simpl; (split; [reflexivity|]); repeat split; lia.
Qed.

(** X16. Without a buffer, for a target size [(dw, dh)] with both sides
    positive and a non-empty 2-d image or 3-d image of one to four
    channels, the call returns a 3-d array of [dh] rows and [dw] columns
    with the channels of the input (one for a 2-d input), and leaves the
    object as it was. *)
Theorem Resize_unbuffered_shape (self : Resize.t) (a : ndarray) (h w : nat)
    (rest : list nat) :
  shape a = h :: w :: rest -> (0 < h)%nat -> (0 < w)%nat ->
  (rest = [] \/ exists c, rest = [c] /\ (1 <= c <= 4)%nat) ->
  Resize.buffer self = false ->
  0 < fst (Resize.dsize self) -> 0 < snd (Resize.dsize self) ->
  exists r,
    Resize.__call__ self (PyArray a) = (Ok (PyArray r), self) /\
    shape r = [Z.to_nat (snd (Resize.dsize self));
               Z.to_nat (fst (Resize.dsize self));
               match rest with c :: _ => c | [] => 1%nat end].
Proof.
  intros Hs Hh Hw Hrest Hbuf Hdw Hdh.
  unfold Resize.__call__. simpl asarray_if_pil. cbv iota beta.
  rewrite Hbuf.
  assert (Hgate : (ndim a <? 2) || (3 <? ndim a) = false
                  /\ (ndim a <? 3)
                     || (Z.of_nat (default 0%nat (shape a !! 2%nat)) <=? 4)
                     = true).
  { unfold ndim. rewrite Hs.
    destruct Hrest as [-> | [c [-> Hc]]]; simpl; [split; reflexivity|].
    split; [reflexivity|]. destruct (Z.leb_spec (Z.of_nat c) 4); [reflexivity|lia]. }
  destruct Hgate as [-> ->]. cbv iota.
  destruct (cv_resize a (Resize.dsize self) (Resize.fx self) (Resize.fy self))
    as [r|e] eqn:Er.
  - destruct (cv_resize_shape a r (Resize.dsize self) _ _ ltac:(lia) ltac:(lia) Er)
      as [rest' [Hr [_ [_ Hrest']]]].
    rewrite Hs in Hrest'. rewrite bind_Ok.
    destruct Hrest as [-> | [c [-> Hc]]].
    + subst rest'. unfold ndim. rewrite Hr. simpl Z.eqb. cbv iota.
      unfold expand_dims2. rewrite Hr. rewrite bind_Ok.
      eexists. split; reflexivity.
    + destruct c as [|[|c]]; [lia| |]; subst rest'.
      * unfold ndim. rewrite Hr. simpl Z.eqb. cbv iota.
        unfold expand_dims2. rewrite Hr. rewrite bind_Ok.
        eexists. split; reflexivity.
      * unfold ndim. rewrite Hr. simpl Z.eqb. cbv iota. rewrite bind_Ok.
        exists r. split; [reflexivity|exact Hr].
  - exfalso. unfold cv_resize in Er. rewrite Hs in Er.
    destruct (Resize.dsize self) as [dw dh]. simpl in Hdw, Hdh.
    simpl fst in Er. simpl snd in Er.
    destruct (Z.eqb_spec dw 0); [lia|]. destruct (Z.eqb_spec dh 0); [lia|].
    simpl orb in Er. cbv iota beta in Er.
    destruct (Z.leb_spec dw 0); [lia|]. destruct (Z.leb_spec dh 0); [lia|].
    destruct (Z.eqb_spec (Z.of_nat h) 0); [lia|].
    destruct (Z.eqb_spec (Z.of_nat w) 0); [lia|].
    destruct Hrest as [-> | [c [-> Hc]]]; simpl in Er.
    + discriminate.
    + destruct c as [|[|c]]; discriminate.
Qed.

Lemma Resize_unbuffered_shape_witness :
  exists r,
    Resize.__call__ (Resize.mk 1 false (5, 2) PyNone 0 0)
      (PyArray (mk_ndarray [4; 6]%nat (fun _ => 1%Q)))
    = (Ok (PyArray r), Resize.mk 1 false (5, 2) PyNone 0 0) /\
    shape r = [2; 5; 1]%nat.
Proof.
  apply (Resize_unbuffered_shape (Resize.mk 1 false (5, 2) PyNone 0 0)
           (mk_ndarray [4; 6]%nat (fun _ => 1%Q)) 4 6 [] eq_refl);
    [lia | lia | left; reflexivity | reflexivity | simpl; lia | simpl; lia].
Defined.

(** X17. An object constructed with [buffer=True] never returns from a
    call: [__init__] sets the buffer [dst] to [None], the call passes it
    to [cv2.resize], which then allocates its result instead of filling
    [dst], and [dst] is read back still [None].  Whatever the sample, the
    call raises and leaves the object as constructed, so every later call
    raises as well. *)
Theorem Resize_buffered_never_returns
    (import_class : string -> result Z) (dsize : Z * Z) (fx fy : Q)
    (interp : named Z) (self : Resize.t) (sample : pyval) :
  Resize.__init__ import_class dsize fx fy interp true = Ok self ->
  raises (fst (Resize.__call__ self sample)) /\
  snd (Resize.__call__ self sample) = self.
Proof.
  intros Hinit.
  assert (Hself : Resize.buffer self = true /\ Resize.dst self = PyNone).
  { unfold Resize.__init__ in Hinit.
    apply bind_returns in Hinit as [it [_ Hinit]].
    repeat match type of Hinit with
           | (if ?cond then _ else _) = _ => destruct cond; [discriminate|]
           end.
    injection Hinit as <-. split; reflexivity. }
  clear Hinit. destruct Hself as [Hbuf Hdst].
  destruct self as [it buf ds d sx sy]. simpl in Hbuf, Hdst. subst buf d.
  unfold Resize.__call__.
  destruct (asarray_if_pil sample) as [| | | | | | |a|];
    try (split; [eexists; reflexivity|reflexivity]).
  cbn [Resize.buffer Resize.dst Resize.dsize Resize.fx Resize.fy].
  destruct ((ndim a <? 2) || (3 <? ndim a)) eqn:Edim;
    [split; [eexists; reflexivity|reflexivity]|].
  destruct ((ndim a <? 3)
            || (Z.of_nat (default 0%nat (shape a !! 2%nat)) <=? 4)) eqn:Ech.
  - destruct (cv_resize a ds sx sy) as [r|e];
      split; try (eexists; reflexivity); reflexivity.
  - apply orb_false_iff in Edim as [_ Ehi].
    apply orb_false_iff in Ech as [Elo Ec].
    unfold ndim in Ehi, Elo.
    destruct (shape a) as [|h [|w [|c [|c' rest]]]] eqn:Es;
      simpl length in Ehi, Elo; try (apply Z.ltb_ge in Ehi; lia);
      try (apply Z.ltb_ge in Elo; lia).
    simpl in Ec. apply Z.leb_gt in Ec.
    unfold split_channels. rewrite Es. rewrite length_map.
    rewrite (py_range_cons 0 (Z.of_nat (length (py_range 0 (Z.of_nat c)))))
      by (unfold py_range; rewrite length_map, length_seq; lia).
    split; [eexists; reflexivity|reflexivity].
Qed.

Lemma Resize_buffered_never_returns_witness :
  raises (fst (Resize.__call__ (Resize.mk 1 true (2, 2) PyNone 0 0)
                 (PyArray (mk_ndarray [4; 4; 3]%nat (fun _ => 1%Q))))) /\
  snd (Resize.__call__ (Resize.mk 1 true (2, 2) PyNone 0 0)
         (PyArray (mk_ndarray [4; 4; 3]%nat (fun _ => 1%Q))))
  = Resize.mk 1 true (2, 2) PyNone 0 0.
Proof.
  apply (Resize_buffered_never_returns (fun _ => Raise AttributeError)
           (2, 2) 0 0 (Given 1)).
  reflexivity.
Defined.

(** ** RandomResizedCrop: construction *)

(** X18. The pair-of-pairs format of [input_size]
    ([[min_width, min_height], [max_width, max_height]], as two tuples or
    two lists) never constructs an object: when the earlier checks pass,
    [input_size] is stored as a flat 4-tuple of numbers and the
    validation loop that follows iterates over its first number.  The
    constructor raises whatever the other arguments are. *)
Theorem RandomResizedCrop_pairs_format_raises
    (import_class : string -> result Z)
    (output_size input_size lo hi ratio : pyval) (a b c d : pyval)
    (probability : Q) (random_attempts : Z) (flags : named Z) :
  (input_size = PyTuple [lo; hi] \/ input_size = PyList [lo; hi]) ->
  (lo = PyTuple [a; b] /\ hi = PyTuple [c; d]) \/
  (lo = PyList [a; b] /\ hi = PyList [c; d]) ->
  raises (RandomResizedCrop.__init__ import_class output_size input_size
            ratio probability random_attempts flags).
Proof.
  intros Hin Hpairs. unfold RandomResizedCrop.__init__.
  destruct (parse_size output_size "output size") as [os|e];
    [|eexists; reflexivity].
  rewrite bind_Ok.
  destruct (negb (forallb valid_size_value (RandomResizedCrop.size_values os)));
    [eexists; reflexivity|].
  assert (Hbody :
    forall P : (pyval * pyval * (pyval * pyval) * option (Q * Q))
               -> result RandomResizedCrop.t,
      raises
        ((if forallb is_int [lo; hi] || forallb is_float [lo; hi]
          then
            rt ← match ratio with
                 | PyTuple r | PyList r =>
                     match r with
                     | [PyFloat a; PyFloat b] =>
                         Ok (if Qlt_bool b a then (b, a) else (a, b))
                     | [_; _] => Raise (AssertionError
                           "expected ratio pair elements to be float values")
                     | _ => Raise (AssertionError
                           "invalid ratio tuple/list length (expected two elements)")
                     end
                 | PyFloat r => Ok (r, r)
                 | _ => Raise (AssertionError
                       "invalid aspect ratio, expected 2-element tuple/list or single float")
                 end;
            mn ← py_min lo hi;
            mx ← py_max lo hi;
            Ok (((mn, mn), (mx, mx)), Some rt)
          else if forallb (RandomResizedCrop.is_pair_of RandomResizedCrop.is_tuple)
                          [lo; hi]
                  || forallb (RandomResizedCrop.is_pair_of is_list) [lo; hi]
          then
            if match ratio with
               | PyTuple r | PyList r => negb (length r =? 0)%nat
               | _ => false
               end
            then Raise (AssertionError
                   "cannot specify input sizes in two-element tuples/lists and also provide aspect ratios")
            else if negb (forallb is_number
                            (RandomResizedCrop.elements lo
                             ++ RandomResizedCrop.elements hi))
            then Raise (AssertionError
                   "input sizes should all be same type, either int or float")
            else Raise (TypeError "object is not iterable")
          else Raise (AssertionError
                 "expected input size to be two-elem list/tuple of int/float or two-element list/tuple of int/float"))
         ≫= P)).
  { intros P.
    assert (E1 : forallb is_int [lo; hi] || forallb is_float [lo; hi] = false)
      by (destruct Hpairs as [[-> ->]|[-> ->]]; reflexivity).
    rewrite E1.
    repeat match goal with
           | |- raises ((if ?cond then _ else _) ≫= _) => destruct cond
           end;
      eexists; reflexivity. }
  destruct Hin as [-> | ->]; apply Hbody.
Qed.

Lemma RandomResizedCrop_pairs_format_raises_witness :
  raises (RandomResizedCrop.__init__ (fun _ => Raise ValueError) (PyInt 2)
            (PyTuple [PyTuple [PyInt 2; PyInt 2]; PyTuple [PyInt 4; PyInt 4]])
            PyNone 1 10 (Given 1)).
Proof.
  apply (RandomResizedCrop_pairs_format_raises (fun _ => Raise ValueError)
           (PyInt 2)
           (PyTuple [PyTuple [PyInt 2; PyInt 2]; PyTuple [PyInt 4; PyInt 4]])
           (PyTuple [PyInt 2; PyInt 2]) (PyTuple [PyInt 4; PyInt 4]) PyNone
           (PyInt 2) (PyInt 2) (PyInt 4) (PyInt 4) 1 10 (Given 1));
    [left; reflexivity | left; split; reflexivity].
Defined.

Lemma Qlt_bool_ge (a b : Q) : Qlt_bool a b = false -> (b <= a)%Q.
Proof.
  unfold Qlt_bool. intros H. apply negb_false_iff in H.
  now apply Qle_bool_iff.
Qed.

Lemma py_min_max_ordered (lo hi mn mx : pyval) :
  py_min lo hi = Ok mn -> py_max lo hi = Ok mx ->
  exists qa qb, as_number mn = Ok qa /\ as_number mx = Ok qb /\ (qa <= qb)%Q.
Proof.
  unfold py_min, py_max. intros Hmn Hmx.
  destruct (as_number lo) as [x|] eqn:Ex; [|discriminate].
  destruct (as_number hi) as [y|] eqn:Ey; [|discriminate].
  rewrite !bind_Ok in Hmn, Hmx. injection Hmn as <-. injection Hmx as <-.
  destruct (Qlt_bool y x) eqn:E1, (Qlt_bool x y) eqn:E2.
  - apply Qlt_bool_iff in E1, E2. exfalso.
    exact (Qlt_irrefl _ (Qlt_trans _ _ _ E1 E2)).
  - exists y, x. repeat split; try assumption.
    apply Qlt_le_weak. now apply Qlt_bool_iff.
  - exists x, y. repeat split; try assumption.
    apply Qlt_le_weak. now apply Qlt_bool_iff.
  - exists x, x. repeat split; try assumption. apply Qle_refl.
Qed.

Lemma init_pair_invariants (import_class : string -> result Z)
    (output_size lo hi ratio : pyval) (probability : Q)
    (random_attempts : Z) (flags : named Z) (self : RandomResizedCrop.t) :
  RandomResizedCrop.__init__ import_class output_size (PyTuple [lo; hi])
    ratio probability random_attempts flags = Ok self ->
  (exists r_min r_max,
     RandomResizedCrop.ratio self = Some (r_min, r_max) /\
     (r_min <= r_max)%Q) /\
  (exists mn mx qa qb,
     RandomResizedCrop.input_size self = ((mn, mn), (mx, mx)) /\
     valid_size_value mn = true /\ valid_size_value mx = true /\
     as_number mn = Ok qa /\ as_number mx = Ok qb /\ (qa <= qb)%Q) /\
  forallb valid_size_value
    (RandomResizedCrop.size_values (RandomResizedCrop.output_size self))
  = true /\
  (0 <= RandomResizedCrop.probability self <= 1)%Q /\
  0 < RandomResizedCrop.random_attempts self.
Proof.
  intros H. unfold RandomResizedCrop.__init__ in H.
  apply bind_returns in H as [os [_ H]].
  destruct (forallb valid_size_value (RandomResizedCrop.size_values os))
    eqn:Eos; [|discriminate].
  simpl negb in H. cbv iota in H.
  apply bind_returns in H as [[isz rt] [Hinner H]].
  destruct (forallb is_int [lo; hi] || forallb is_float [lo; hi]);
    [|repeat match type of Hinner with
             | (if ?cond then _ else _) = _ => destruct cond
             end; discriminate].
  apply bind_returns in Hinner as [rt0 [Hrt Hinner]].
  apply bind_returns in Hinner as [mn [Hmn Hinner]].
  apply bind_returns in Hinner as [mx [Hmx Hinner]].
  injection Hinner as <- <-. cbn [fst snd] in H.
  destruct (valid_size_value mn) eqn:Evmn; [|discriminate].
  destruct (valid_size_value mx) eqn:Evmx; [|discriminate].
  simpl negb in H. cbv iota in H.
  destruct (Qlt_bool probability 0) eqn:Ep0; [discriminate|].
  destruct (Qlt_bool 1 probability) eqn:Ep1; [discriminate|].
  simpl orb in H. cbv iota in H.
  destruct (Z.leb_spec random_attempts 0); [discriminate|].
  apply bind_returns in H as [fl [_ H]]. injection H as <-.
  cbn [RandomResizedCrop.ratio RandomResizedCrop.input_size
       RandomResizedCrop.output_size RandomResizedCrop.probability
       RandomResizedCrop.random_attempts].
  split; [|split; [|split; [exact Eos|split; [|assumption]]]].
  - destruct rt0 as [r_min r_max]. exists r_min, r_max.
    split; [reflexivity|].
    destruct ratio as [| |q| |l|l| | |]; try discriminate.
    + injection Hrt as <- <-. apply Qle_refl.
    + destruct l as [|[| |qa| | | | | |] [|[| |qb| | | | | |] [|]]];
        try discriminate.
      destruct (Qlt_bool qb qa) eqn:E; injection Hrt as <- <-.
      * apply Qlt_le_weak. now apply Qlt_bool_iff.
      * now apply Qlt_bool_ge.
    + destruct l as [|[| |qa| | | | | |] [|[| |qb| | | | | |] [|]]];
        try discriminate.
      destruct (Qlt_bool qb qa) eqn:E; injection Hrt as <- <-.
      * apply Qlt_le_weak. now apply Qlt_bool_iff.
      * now apply Qlt_bool_ge.
  - destruct (py_min_max_ordered lo hi mn mx Hmn Hmx)
      as [qa [qb [Ha [Hb Hab]]]].
    exists mn, mx, qa, qb. repeat split; assumption.
  - split; [now apply Qlt_bool_ge | now apply Qlt_bool_ge].
Qed.

(** X19. What every constructed [RandomResizedCrop] satisfies: the
    aspect-ratio range is set and ordered, the input size is the same
    scalar on both axes with the minimum no larger than the maximum, all
    sizes are valid size values, the probability lies in [0, 1] and the
    number of attempts is positive.  In particular no constructed object
    has [ratio = None], the mode in which width and height are sampled
    separately. *)
Theorem RandomResizedCrop_init_invariants
    (import_class : string -> result Z)
    (output_size input_size ratio : pyval) (probability : Q)
    (random_attempts : Z) (flags : named Z) (self : RandomResizedCrop.t) :
  RandomResizedCrop.__init__ import_class output_size input_size ratio
    probability random_attempts flags = Ok self ->
  (exists r_min r_max,
     RandomResizedCrop.ratio self = Some (r_min, r_max) /\
     (r_min <= r_max)%Q) /\
  (exists mn mx qa qb,
     RandomResizedCrop.input_size self = ((mn, mn), (mx, mx)) /\
     valid_size_value mn = true /\ valid_size_value mx = true /\
     as_number mn = Ok qa /\ as_number mx = Ok qb /\ (qa <= qb)%Q) /\
  forallb valid_size_value
    (RandomResizedCrop.size_values (RandomResizedCrop.output_size self))
  = true /\
  (0 <= RandomResizedCrop.probability self <= 1)%Q /\
  0 < RandomResizedCrop.random_attempts self.
Proof.
  intros H.
  assert (Hpair : exists lo hi,
            RandomResizedCrop.__init__ import_class output_size
              (PyTuple [lo; hi]) ratio probability random_attempts flags
            = Ok self).
  { unfold RandomResizedCrop.__init__ in H |- *.
    destruct (parse_size output_size "output size") as [os|e];
      [|discriminate].
    rewrite bind_Ok in H.
    destruct (negb (forallb valid_size_value
                      (RandomResizedCrop.size_values os))) eqn:Eos;
      [discriminate|].
    destruct input_size as [| | | |l|l| | |]; try discriminate;
      destruct l as [|lo [|hi [|]]]; try discriminate;
      exists lo, hi; rewrite bind_Ok, Eos; exact H. }
  destruct Hpair as [lo [hi Hpair]].
  exact (init_pair_invariants _ _ _ _ _ _ _ _ _ Hpair).
Qed.

Lemma RandomResizedCrop_init_invariants_witness :
  exists r_min r_max,
    RandomResizedCrop.ratio
      (RandomResizedCrop.mk (AbsSize 2 2)
         ((PyInt 8, PyInt 8), (PyInt 8, PyInt 8)) (Some (1, 1)%Q) 1 10 1)
    = Some (r_min, r_max) /\ (r_min <= r_max)%Q.
Proof.
  apply (RandomResizedCrop_init_invariants (fun _ => Raise ValueError)
           (PyInt 2) (PyTuple [PyInt 8; PyInt 8]) (PyFloat 1) 1 10 (Given 1)).
  reflexivity.
Defined.

(** ** RandomResizedCrop: what a call returns *)

Lemma rand_bind_returns {A B} (m : rand A) (f : A -> rand B) (g : rng)
    (b : B) :
  fst ((m ≫= f) g) = Ok b ->
  exists a g', m g = (Ok a, g') /\ fst (f a g') = Ok b.
Proof.
  unfold mbind, rand_bind. destruct (m g) as [[a|e] g'] eqn:E.
  - intros H. exists a, g'. split; [reflexivity|exact H].
  - discriminate.
Qed.

Lemma rand_bind_pair {A B} (m : rand A) (f : A -> rand B) (g g'' : rng)
    (b : B) :
  (m ≫= f) g = (Ok b, g'') ->
  exists a g', m g = (Ok a, g') /\ f a g' = (Ok b, g'').
Proof.
  unfold mbind, rand_bind. destruct (m g) as [[a|e] g'] eqn:E.
  - intros H. exists a, g'. split; [reflexivity|exact H].
  - discriminate.
Qed.

Lemma cv_resize_unscaled (src out : ndarray) (dsize : Z * Z) :
  cv_resize src dsize 0 0 = Ok out ->
  0 < fst dsize /\ 0 < snd dsize /\
  take 2 (shape out) = [Z.to_nat (snd dsize); Z.to_nat (fst dsize)].
Proof.
  intros H.
  destruct (Z.eq_dec (fst dsize) 0) as [Ew|Ew];
    [|destruct (Z.eq_dec (snd dsize) 0) as [Eh|Eh]].
  - exfalso. unfold cv_resize in H.
    destruct (shape src) as [|h [|w rest]]; try discriminate.
    rewrite Ew in H. simpl orb in H. cbv iota in H.
    rewrite (py_round_comp (0 * inject_Z (Z.of_nat w)) (inject_Z 0)) in H
      by ring.
    rewrite py_round_inject_Z in H. cbv beta iota in H.
    change (0 <=? 0) with true in H. rewrite orb_true_r in H.
    simpl orb in H. discriminate.
  - exfalso. unfold cv_resize in H.
    destruct (shape src) as [|h [|w rest]]; try discriminate.
    rewrite Eh, orb_true_r in H. cbv iota in H.
    rewrite (py_round_comp (0 * inject_Z (Z.of_nat w)) (inject_Z 0)) in H
      by ring.
    rewrite py_round_inject_Z in H. cbv beta iota in H.
    change (0 <=? 0) with true in H. rewrite orb_true_r in H.
    simpl orb in H. discriminate.
  - destruct (cv_resize_shape src out dsize 0 0 Ew Eh H)
      as [rest [Hs [Hw [Hh _]]]].
    rewrite Hs. repeat split; assumption.
Qed.

(** X20. Whenever a call on an array returns, the result is either the
    sample itself, which takes a probability below one, or an array whose
    height and width are the output size: the size given to the
    constructor when it is absolute, that fraction of the image size
    when it is relative, the product taken in double precision and then
    rounded.  In both cases that size is positive. *)
Theorem RandomResizedCrop_output_shape (self : RandomResizedCrop.t)
    (a : ndarray) (h w : nat) (rest : list nat) (g : rng) (v : pyval) :
  shape a = h :: w :: rest ->
  fst (RandomResizedCrop.__call__ self (PyArray a) g) = Ok v ->
  let out :=
    match RandomResizedCrop.output_size self with
    | AbsSize ow oh => (ow, oh)
    | RelSize ow oh => (py_round (mul_int_float (Z.of_nat w) ow),
                        py_round (mul_int_float (Z.of_nat h) oh))
    end in
  (Qlt_bool (RandomResizedCrop.probability self) 1 = true /\ v = PyArray a)
  \/ exists r,
       v = PyArray r /\
       take 2 (shape r) = [Z.to_nat (snd out); Z.to_nat (fst out)] /\
       0 < fst out /\ 0 < snd out.
Proof.
  intros Hs H out. unfold RandomResizedCrop.__call__ in H.
  simpl asarray_if_pil in H. cbv zeta in H.
  apply rand_bind_returns in H as [skip [g1 [Hskip H]]].
  destruct skip.
  - left. split; [|now injection H as <-].
    destruct (Qlt_bool (RandomResizedCrop.probability self) 1);
      [reflexivity|discriminate].
  - right. clear Hskip.
    unfold py_shape, shape_at in H. rewrite Hs in H. simpl lookup in H.
    cbv iota in H.
    apply rand_bind_returns in H as [h0 [g2 [Hh H]]].
    injection Hh as <- <-.
    apply rand_bind_returns in H as [w0 [g3 [Hw H]]].
    injection Hw as <- <-.
    apply rand_bind_returns in H as [tg [g4 [_ H]]].
    unfold lift in H. cbn [fst] in H.
    repeat (apply bind_returns in H as [? [_ H]]).
    unfold out.
    destruct (RandomResizedCrop.output_size self) as [ow oh|ow oh];
      match type of H with
      | PyArray <$> cv_resize ?c ?d 0 0 = _ =>
          destruct (cv_resize c d 0 0) as [r|e] eqn:Er; [|discriminate]
      end;
      injection H as <-;
      apply cv_resize_unscaled in Er as [Hw [Hh Hshape]];
      exists r; repeat split; assumption.
Qed.

Lemma RandomResizedCrop_output_shape_witness :
  exists v,
    fst (RandomResizedCrop.__call__
           (RandomResizedCrop.mk
              (RelSize (3152519739159347 # 4503599627370496)
                       (3152519739159347 # 4503599627370496))
              ((PyInt 2, PyInt 2), (PyInt 2, PyInt 2)) (Some (1, 1)%Q) 1 10 1)
           (PyArray (mk_ndarray [5; 5; 3]%nat (fun _ => 1%Q)))
           (mk_rng (fun _ => 0%Q) 0))
    = Ok v /\
    exists r, v = PyArray r /\ take 2 (shape r) = [4; 4]%nat.
Proof.
  destruct (fst (RandomResizedCrop.__call__
                   (RandomResizedCrop.mk
                      (RelSize (3152519739159347 # 4503599627370496)
                               (3152519739159347 # 4503599627370496))
                      ((PyInt 2, PyInt 2), (PyInt 2, PyInt 2))
                      (Some (1, 1)%Q) 1 10 1)
                   (PyArray (mk_ndarray [5; 5; 3]%nat (fun _ => 1%Q)))
                   (mk_rng (fun _ => 0%Q) 0))) as [v|e] eqn:E;
    [|vm_compute in E; discriminate].
  exists v. split; [reflexivity|].
  destruct (RandomResizedCrop_output_shape
              (RandomResizedCrop.mk
                 (RelSize (3152519739159347 # 4503599627370496)
                          (3152519739159347 # 4503599627370496))
                 ((PyInt 2, PyInt 2), (PyInt 2, PyInt 2))
                 (Some (1, 1)%Q) 1 10 1)
              (mk_ndarray [5; 5; 3]%nat (fun _ => 1%Q)) 5 5 [3%nat]
              (mk_rng (fun _ => 0%Q) 0) v eq_refl E)
    as [[Hp _] | [r [Hv [Hshape _]]]]; [discriminate|].
  exists r. split; [exact Hv|exact Hshape].
Defined.

Lemma np_random_range (g g' : rng) (u : Q) :
  np_random g = (Ok u, g') -> (0 <= u)%Q /\ (u < 1)%Q.
Proof.
  unfold np_random. intros H. injection H as <- _.
  pose proof (Qfloor_le (tape g (pos g))) as Hlo.
  pose proof (Qlt_floor (tape g (pos g))) as Hhi.
  rewrite inject_Z_plus in Hhi. change (inject_Z 1) with 1%Q in Hhi.
  set (x := tape g (pos g)) in *. set (f := inject_Z (Qfloor x)) in *.
  split.
  - apply Qlt_minus_iff || apply Qle_minus_iff.
    apply Qle_minus_iff in Hlo.
    assert (E : (x - f + - 0 == x + - f)%Q) by ring.
    rewrite E. exact Hlo.
  - apply Qlt_minus_iff. apply Qlt_minus_iff in Hhi.
    assert (E : (1 + - (x - f) == f + 1 + - x)%Q) by ring.
    rewrite E. exact Hhi.
Qed.




(** ** get_label_color_mapping *)

Lemma bitget_spec (v ch : Z) : 0 <= ch -> bitget v ch = Z.testbit v ch.
Proof.
  intros Hch. unfold bitget. rewrite Z.shiftl_1_l.
  destruct (Z.testbit v ch) eqn:E.
  - apply negb_true_iff, Z.eqb_neq. intros H0.
    assert (Hb : Z.testbit (Z.land v (2 ^ ch)) ch = true)
      by (rewrite Z.land_spec, E, Z.pow2_bits_true; [reflexivity|lia]).
    rewrite H0, Z.bits_0 in Hb. discriminate.
  - apply negb_false_iff, Z.eqb_eq. apply Z.bits_inj'. intros n Hn.
    rewrite Z.land_spec, Z.bits_0, Z.pow2_bits_eqb by lia.
    destruct (Z.eqb_spec ch n) as [<-|]; [now rewrite E|].
    apply andb_false_r.
Qed.

Lemma testbit_lor_bit (acc : Z) (bit : bool) (s k : Z) :
  0 <= s -> 0 <= k ->
  Z.testbit (Z.lor acc (Z.shiftl (Z.b2z bit) s)) k
  = Z.testbit acc k || (bit && (k =? s)).
Proof.
  intros Hs Hk. rewrite Z.lor_spec, Z.shiftl_spec by lia. f_equal.
  destruct (Z.eqb_spec k s) as [->|Hne].
  - rewrite Z.sub_diag, Z.b2z_bit0. now rewrite andb_true_r.
  - rewrite andb_false_r.
    destruct (Z.lt_ge_cases k s); [apply Z.testbit_neg_r; lia|].
    destruct bit; [|apply Z.bits_0].
    change (Z.b2z true) with (2 ^ 0). rewrite Z.pow2_bits_eqb by lia.
    apply Z.eqb_neq. lia.
Qed.

(** The bits of one channel: bit [k] is bit [3 * (7 - k) + c] of the
    label, where [c] is the channel. *)
Lemma color_loop_bits (idx : Z) :
  let '(r, g, b) := color_loop (py_range 0 8) 0 0 0 idx in
  forall k, 0 <= k ->
    Z.testbit r k = (k <? 8) && Z.testbit idx (3 * (7 - k)) /\
    Z.testbit g k = (k <? 8) && Z.testbit idx (3 * (7 - k) + 1) /\
    Z.testbit b k = (k <? 8) && Z.testbit idx (3 * (7 - k) + 2).
Proof.
  change (py_range 0 8) with [0; 1; 2; 3; 4; 5; 6; 7].
  cbn [color_loop]. intros k Hk.
  rewrite !testbit_lor_bit, !bitget_spec, !Z.shiftr_spec, Z.bits_0 by lia.
  destruct (Z.ltb_spec k 8) as [Hlt|Hge].
  - assert (Hcase : k = 0 \/ k = 1 \/ k = 2 \/ k = 3 \/ k = 4 \/ k = 5
                    \/ k = 6 \/ k = 7) by lia.
    repeat (destruct Hcase as [->|Hcase]); try subst k;
      cbn [Z.eqb Z.sub Z.add Z.opp Z.pos_sub Pos.eqb Pos.add Pos.succ
           Pos.pred_double Z.succ_double Z.pred_double Z.double Z.mul Pos.mul
           orb andb];
      rewrite ?andb_false_r, ?andb_true_r, ?orb_false_r, ?orb_false_l;
      repeat split; reflexivity.
  - repeat match goal with
           | |- context [k =? ?c] =>
               destruct (Z.eqb_spec k c); [lia|]
           end.
    rewrite !andb_false_r. repeat split; reflexivity.
Qed.

Lemma bits_below_mod (x n : Z) :
  0 <= n -> (forall k, n <= k -> Z.testbit x k = false) -> x mod 2 ^ n = x.
Proof.
  intros Hn Hhigh. apply Z.bits_inj'. intros k Hk.
  destruct (Z.lt_ge_cases k n).
  - now apply Z.mod_pow2_bits_low.
  - rewrite Z.mod_pow2_bits_high by lia. symmetry. now apply Hhigh.
Qed.

Lemma color_loop_uint8 (idx : Z) :
  let '(r, g, b) := color_loop (py_range 0 8) 0 0 0 idx in
  r mod 256 = r /\ g mod 256 = g /\ b mod 256 = b.
Proof.
  pose proof (color_loop_bits idx) as Hbits.
  destruct (color_loop (py_range 0 8) 0 0 0 idx) as [[r g] b].
  change 256 with (2 ^ 8).
  repeat split; apply bits_below_mod; try lia; intros k Hk;
    destruct (Hbits k ltac:(lia)) as [Hr [Hg Hb]];
    destruct (Z.ltb_spec k 8); try lia; assumption.
Qed.

(** X22. The colour of a label is three 8-bit values, and bit [k] of the
    red, green and blue value is bit [3 * (7 - k)], [3 * (7 - k) + 1]
    and [3 * (7 - k) + 2] of the label: the bits of the label are dealt
    to the three channels in turn, from the highest bit of each channel
    downwards, and the cast to [uint8] loses nothing. *)
Theorem get_label_color_mapping_bits (idx : Z) :
  exists r g b,
    shape (get_label_color_mapping idx) = [3%nat] /\
    item (get_label_color_mapping idx) [0] = inject_Z r /\
    item (get_label_color_mapping idx) [1] = inject_Z g /\
    item (get_label_color_mapping idx) [2] = inject_Z b /\
    0 <= r < 256 /\ 0 <= g < 256 /\ 0 <= b < 256 /\
    forall k, 0 <= k < 8 ->
      Z.testbit r k = Z.testbit idx (3 * (7 - k)) /\
      Z.testbit g k = Z.testbit idx (3 * (7 - k) + 1) /\
      Z.testbit b k = Z.testbit idx (3 * (7 - k) + 2).
Proof.
  unfold get_label_color_mapping.
  pose proof (color_loop_bits idx) as Hbits.
  pose proof (color_loop_uint8 idx) as Hmod.
  destruct (color_loop (py_range 0 8) 0 0 0 idx) as [[r g] b].
  destruct Hmod as [Hr [Hg Hb]].
  exists r, g, b. simpl. rewrite Hr, Hg, Hb.
  repeat (split; [reflexivity|]).
  pose proof (Z.mod_pos_bound r 256 ltac:(lia)).
  pose proof (Z.mod_pos_bound g 256 ltac:(lia)).
  pose proof (Z.mod_pos_bound b 256 ltac:(lia)).
  repeat (split; [lia|]).
  intros k Hk. destruct (Hbits k ltac:(lia)) as [Hkr [Hkg Hkb]].
  destruct (Z.ltb_spec k 8); [|lia]. repeat split; assumption.
Qed.

(** X23. Two labels get the same colour exactly when they agree on their
    24 lowest bits: labels from 0 to [2^24 - 1] all have different
    colours, and the colours repeat with period [2^24]. *)
Theorem get_label_color_mapping_injective (i j : Z) :
  array_eq (get_label_color_mapping i) (get_label_color_mapping j)
  <-> i mod 2 ^ 24 = j mod 2 ^ 24.
Proof.
  unfold get_label_color_mapping.
  pose proof (color_loop_bits i) as Hbi.
  pose proof (color_loop_bits j) as Hbj.
  pose proof (color_loop_uint8 i) as Hmi.
  pose proof (color_loop_uint8 j) as Hmj.
  destruct (color_loop (py_range 0 8) 0 0 0 i) as [[ri gi] bi].
  destruct (color_loop (py_range 0 8) 0 0 0 j) as [[rj gj] bj].
  destruct Hmi as [Hri [Hgi Hbli]]. destruct Hmj as [Hrj [Hgj Hblj]].
  split.
  - intros [_ Hitem].
    pose proof (Hitem [0] eq_refl) as H0.
    pose proof (Hitem [1] eq_refl) as H1.
    pose proof (Hitem [2] eq_refl) as H2.
    simpl in H0, H1, H2. rewrite Hri, Hrj in H0. rewrite Hgi, Hgj in H1.
    rewrite Hbli, Hblj in H2.
    injection H0 as ->. injection H1 as ->. injection H2 as ->.
    apply Z.bits_inj'. intros n Hn.
    destruct (Z.lt_ge_cases n 24) as [Hlt|Hge];
      [|now rewrite !Z.mod_pow2_bits_high by lia].
    rewrite !Z.mod_pow2_bits_low by lia.
    pose proof (Z.div_mod n 3 ltac:(lia)) as Hdm.
    pose proof (Z.mod_pos_bound n 3 ltac:(lia)) as Hm.
    assert (Hq : 0 <= n / 3 < 8)
      by (split; [apply Z.div_pos; lia | apply Z.div_lt_upper_bound; lia]).
    set (q := n / 3) in *. set (c := n mod 3) in *. clearbody q c.
    destruct (Hbi (7 - q) ltac:(lia)) as [Hir [Hig Hib]].
    destruct (Hbj (7 - q) ltac:(lia)) as [Hjr [Hjg Hjb]].
    destruct (Z.ltb_spec (7 - q) 8); [|lia]. simpl andb in *.
    replace (3 * (7 - (7 - q))) with (3 * q) in * by lia.
    assert (Hc : c = 0 \/ c = 1 \/ c = 2) by lia.
    subst n. destruct Hc as [->|[->| ->]]; rewrite ?Z.add_0_r; congruence.
  - intros Hmod.
    assert (Hbit : forall n, 0 <= n < 24 -> Z.testbit i n = Z.testbit j n).
    { intros n Hn.
      rewrite <- (Z.mod_pow2_bits_low i 24 n), <- (Z.mod_pow2_bits_low j 24 n)
        by lia.
      now rewrite Hmod. }
    assert (Hr : ri = rj /\ gi = gj /\ bi = bj).
    { repeat split; apply Z.bits_inj'; intros k Hk;
        destruct (Hbi k Hk) as [Hir [Hig Hib]];
        destruct (Hbj k Hk) as [Hjr [Hjg Hjb]];
        rewrite ?Hir, ?Hjr, ?Hig, ?Hjg, ?Hib, ?Hjb;
        (destruct (Z.ltb_spec k 8); [|reflexivity]); simpl andb;
        apply Hbit; lia. }
    destruct Hr as [-> [-> ->]]. split; reflexivity.
Qed.

(** ** get_key and get_key_def *)

Lemma first_present_Some (ks : list string) (config : gmap string pyval)
    (v : pyval) :
  first_present ks config = Some v <->
  exists pre k post,
    ks = pre ++ k :: post /\ config !! k = Some v /\
    Forall (fun k' => config !! k' = None) pre.
Proof.
  induction ks as [|k0 ks IH]; simpl.
  - split; [discriminate|]. intros [pre [k [post [H _]]]].
    destruct pre; discriminate.
  - destruct (config !! k0) as [v0|] eqn:E0.
    + split.
      * intros H. injection H as <-. exists [], k0, ks.
        repeat split; [exact E0|constructor].
      * intros [pre [k [post [Hks [Hk Hpre]]]]].
        destruct pre as [|k1 pre]; simpl in Hks; injection Hks as -> ->.
        -- congruence.
        -- inversion Hpre; congruence.
    + rewrite IH. split.
      * intros [pre [k [post [-> [Hk Hpre]]]]].
        exists (k0 :: pre), k, post.
        repeat split; [exact Hk|constructor; assumption].
      * intros [pre [k [post [Hks [Hk Hpre]]]]].
        destruct pre as [|k1 pre]; simpl in Hks; injection Hks as -> ->.
        -- congruence.
        -- inversion Hpre; subst. exists pre, k, post. repeat split; assumption.
Qed.

(** X24. [get_key_def] returns what [get_key] returns whenever [get_key]
    returns; when [get_key] raises because no key is in the dictionary,
    [get_key_def] returns the default; and for a list of fewer than two
    keys both raise the same error whatever the dictionary holds, even
    when the listed key is present. *)
Theorem get_key_def_agrees (str_of_keys : list string -> string)
    (key : dict_key) (config : gmap string pyval) (default : pyval)
    (msg : option string) :
  get_key_def key config default msg
  = match get_key str_of_keys key config msg with
    | Ok v => Ok v
    | Raise e =>
        match key with
        | KeyList ([] | [_]) => Raise e
        | _ => Ok default
        end
    end.
Proof.
  destruct key as [k|ks]; simpl.
  - destruct (config !! k); reflexivity.
  - destruct ks as [|k1 [|k2 ks]]; try reflexivity.
    cbn [length Nat.leb].
    destruct (first_present (k1 :: k2 :: ks) config); reflexivity.
Qed.

(** X25. Given a list of at least two keys, [get_key] returns the value
    of the first listed key that is in the dictionary: it returns [v]
    exactly when some listed key maps to [v] and no key listed before it
    is in the dictionary. *)
Theorem get_key_first_listed (str_of_keys : list string -> string)
    (ks : list string) (config : gmap string pyval) (msg : option string)
    (v : pyval) :
  (2 <= length ks)%nat ->
  get_key str_of_keys (KeyList ks) config msg = Ok v <->
  exists pre k post,
    ks = pre ++ k :: post /\ config !! k = Some v /\
    Forall (fun k' => config !! k' = None) pre.
Proof.
  intros Hlen. rewrite <- first_present_Some. simpl.
  destruct (Nat.leb_spec (length ks) 1) as [Hle|_]; [lia|].
  destruct (first_present ks config); split; intros Hv;
    try discriminate; congruence.
Qed.

Lemma get_key_first_listed_witness :
  get_key (fun _ => "keys"%string) (KeyList ["a"; "b"; "c"]%string)
    (<["c"%string := PyInt 3]> (<["b"%string := PyInt 2]> ∅)) None
  = Ok (PyInt 2).
Proof.
  apply (get_key_first_listed (fun _ => "keys"%string)
           ["a"; "b"; "c"]%string
           (<["c"%string := PyInt 3]> (<["b"%string := PyInt 2]> ∅)) None
           (PyInt 2)); [simpl; lia|].
  exists ["a"%string], "b"%string, ["c"%string].
  split; [reflexivity|]. split; [reflexivity|].
  constructor; [reflexivity|constructor].
Defined.

(** ** clipstr *)

(** X26. With a fill of one character and a size that is not negative,
    [clipstr] returns a string of exactly [size] characters: the first
    [size] characters of the string, padded on the left when the string
    is shorter; clipping again changes nothing. *)
Theorem clipstr_length {A} (s : list A) (size : Z) (c : A) :
  0 <= size ->
  clipstr s size [c]
  = replicate (Z.to_nat size - length s) c ++ take (Z.to_nat size) s /\
  length (clipstr s size [c]) = Z.to_nat size /\
  clipstr (clipstr s size [c]) size [c] = clipstr s size [c].
Proof.
  intros Hsize.
  assert (Hrep : forall n, py_repeat [c] n = replicate (Z.to_nat n) c).
  { intros n. unfold py_repeat.
    induction (Z.to_nat n) as [|k IH]; simpl; [reflexivity|].
    now rewrite IH. }
  assert (Hshape : clipstr s size [c]
                   = replicate (Z.to_nat size - length s) c
                     ++ take (Z.to_nat size) s).
  { unfold clipstr, py_prefix, slice_bound.
    destruct (Z.ltb_spec size (Z.of_nat (length s))) as [Hlt|Hge].
    - destruct (Z.ltb_spec size 0); [lia|].
      rewrite Z.min_l by lia. rewrite length_take.
      destruct (Z.ltb_spec (Z.of_nat (Z.to_nat size `min` length s)) size);
        [lia|].
      replace (Z.to_nat size - length s)%nat with O by lia. reflexivity.
    - rewrite (take_ge s) by lia.
      destruct (Z.ltb_spec (Z.of_nat (length s)) size) as [Hlt|Hge'].
      + rewrite Hrep. do 2 f_equal. lia.
      + replace (Z.to_nat size - length s)%nat with O by lia. reflexivity. }
  assert (Hlen : length (clipstr s size [c]) = Z.to_nat size).
  { rewrite Hshape, length_app, length_replicate, length_take. lia. }
  split; [exact Hshape|]. split; [exact Hlen|].
  unfold clipstr at 1. rewrite Hlen.
  destruct (Z.ltb_spec size (Z.of_nat (Z.to_nat size))); [lia|].
  rewrite Hlen.
  destruct (Z.ltb_spec (Z.of_nat (Z.to_nat size)) size); [lia|].
  reflexivity.
Qed.

Lemma clipstr_length_witness :
  clipstr [1; 2] 4 [0] = [0; 0; 1; 2] /\
  length (clipstr [1; 2] 4 [0]) = 4%nat /\
  clipstr (clipstr [1; 2] 4 [0]) 4 [0] = clipstr [1; 2] 4 [0].
Proof.
  apply (clipstr_length [1; 2] 4 0). lia.
Defined.

(** X27. A negative size is not treated as zero: [clipstr] then removes
    that many characters from the end of the string and pads nothing,
    whatever the fill. *)
Theorem clipstr_negative_size {A} (s : list A) (size : Z) (fill : list A) :
  size < 0 ->
  clipstr s size fill = take (length s - Z.to_nat (- size)) s.
Proof.
  intros Hneg. unfold clipstr, py_prefix, slice_bound.
  destruct (Z.ltb_spec size (Z.of_nat (length s))); [|lia].
  destruct (Z.ltb_spec size 0); [|lia].
  rewrite length_take.
  match goal with
  | |- (if ?cond then _ else _) = _ =>
      destruct cond eqn:E; [apply Z.ltb_lt in E; lia|]
  end.
  f_equal. lia.
Qed.

Lemma clipstr_negative_size_witness :
  clipstr [1; 2; 3; 4; 5] (-2) [0] = [1; 2; 3].
Proof.
  apply (clipstr_negative_size [1; 2; 3; 4; 5] (-2) [0]). lia.
Defined.

(** ** ToNumpy *)

(** X28. A tensor in C x H x W layout comes back as an H x W x C array
    holding the same values, [out[h, w, c] = tensor[c, h, w]]; with
    [reorder_BGR] set the channel order is reversed as well,
    [out[h, w, c] = tensor[C - 1 - c, h, w]]. *)
Theorem ToNumpy_tensor_layout (self : ToNumpy.t) (data : ndarray)
    (C H W : nat) :
  shape data = [C; H; W] ->
  exists out,
    ToNumpy.__call__ self (ToNumpy.Tensor data) = Ok out /\
    shape out = [H; W; C] /\
    forall h w c,
      item out [h; w; c]
      = item data [if ToNumpy.reorder_BGR self then Z.of_nat C - 1 - c else c;
                   h; w].
Proof.
  intros Hs. unfold ToNumpy.__call__, np_transpose. rewrite Hs.
  cbn [length Nat.eqb negb mapM]. unfold normalize_axis.
  cbn -[Z.of_nat Z.sub flip_last_axis].
  destruct (ToNumpy.reorder_BGR self).
  - unfold flip_last_axis. cbn -[Z.of_nat Z.sub].
    eexists. split; [reflexivity|]. split; reflexivity.
  - eexists. split; [reflexivity|]. split; reflexivity.
Qed.

Lemma ToNumpy_tensor_layout_witness :
  exists out,
    ToNumpy.__call__ (ToNumpy.mk true)
      (ToNumpy.Tensor
         (mk_ndarray [3; 2; 2]%nat
            (fun idx => match idx with
                        | c :: _ => inject_Z c
                        | [] => 0%Q
                        end)))
    = Ok out /\
    shape out = [2; 2; 3]%nat /\
    item out [0; 0; 0] = 2%Q.
Proof.
  destruct (ToNumpy_tensor_layout (ToNumpy.mk true)
              (mk_ndarray [3; 2; 2]%nat
                 (fun idx => match idx with
                             | c :: _ => inject_Z c
                             | [] => 0%Q
                             end)) 3 2 2 eq_refl) as [out [Ho [Hs Hi]]].
  exists out. split; [exact Ho|]. split; [exact Hs|].
  rewrite Hi. reflexivity.
Defined.

(** ** ImageTransformWrapper *)

Lemma apply_loop_length (fromarray asarray : pyval -> result pyval)
    (self : ImageTransformWrapper.t) (cvt_array : bool)
    (l l' : list pyval) (g g' : rng) :
  ImageTransformWrapper.apply_loop fromarray asarray self cvt_array l g
  = (Ok l', g') ->
  length l' = length l.
Proof.
  revert l' g g'. induction l as [|s l IH]; intros l' g g' H.
  - injection H as <- _. reflexivity.
  - cbn [ImageTransformWrapper.apply_loop] in H.
    apply rand_bind_pair in H as [s1 [g1 [_ H]]].
    apply rand_bind_pair in H as [s2 [g2 [_ H]]].
    apply rand_bind_pair in H as [s3 [g3 [_ H]]].
    apply rand_bind_pair in H as [rest' [g4 [Hrest H]]].
    injection H as <- _. simpl. f_equal. exact (IH _ _ _ Hrest).
Qed.

(** X29. Called on a list, the wrapper returns a list of as many
    elements whenever it returns, whether the operation was applied or
    not and whatever the operation and the image conversions return. *)
Theorem ImageTransformWrapper_list_in_list_out
    (fromarray asarray : pyval -> result pyval)
    (self : ImageTransformWrapper.t) (l : list pyval) (g : rng) (v : pyval) :
  fst (ImageTransformWrapper.__call__ fromarray asarray self (PyList l) g)
  = Ok v ->
  exists l', v = PyList l' /\ length l' = length l.
Proof.
  intros H. unfold ImageTransformWrapper.__call__ in H.
  destruct l as [|x rest].
  - injection H as <-. exists []. split; reflexivity.
  - cbv iota beta in H.
    apply rand_bind_returns in H as [cvt [g1 [_ H]]].
    apply rand_bind_returns in H as [go [g2 [_ H]]].
    apply rand_bind_returns in H as [l' [g3 [Hl' H]]].
    simpl negb in H. simpl andb in H. injection H as <-.
    exists l'. split; [reflexivity|].
    destruct go.
    + exact (apply_loop_length _ _ _ _ _ _ _ _ Hl').
    + injection Hl' as <- _. reflexivity.
Qed.

Lemma ImageTransformWrapper_list_in_list_out_witness :
  exists v l',
    fst (ImageTransformWrapper.__call__ Ok Ok
           (ImageTransformWrapper.mk (fun v => mret v) (1 # 2) false)
           (PyList [PyArray (mk_ndarray [2; 2]%nat (fun _ => 1%Q));
                    PyArray (mk_ndarray [2; 2]%nat (fun _ => 0%Q))])
           (mk_rng (fun _ => 0%Q) 0))
    = Ok v /\ v = PyList l' /\ length l' = 2%nat.
Proof.
  destruct (fst (ImageTransformWrapper.__call__ Ok Ok
                   (ImageTransformWrapper.mk (fun v => mret v) (1 # 2) false)
                   (PyList [PyArray (mk_ndarray [2; 2]%nat (fun _ => 1%Q));
                            PyArray (mk_ndarray [2; 2]%nat (fun _ => 0%Q))])
                   (mk_rng (fun _ => 0%Q) 0))) as [v|e] eqn:E;
    [|vm_compute in E; discriminate].
  destruct (ImageTransformWrapper_list_in_list_out Ok Ok
              (ImageTransformWrapper.mk (fun v => mret v) (1 # 2) false)
              [PyArray (mk_ndarray [2; 2]%nat (fun _ => 1%Q));
               PyArray (mk_ndarray [2; 2]%nat (fun _ => 0%Q))]
              (mk_rng (fun _ => 0%Q) 0) v E) as [l' [Hv Hlen]].
  exists v, l'. split; [reflexivity|]. split; [exact Hv|exact Hlen].
Defined.

Lemma py_round_small (q : Q) : (0 <= q)%Q -> (q < 1 # 2)%Q -> py_round q = 0.
Proof.
  intros H0 H1. unfold py_round.
  assert (Hf : Qfloor q = 0).
  { pose proof (Qfloor_le q) as Hlo. pose proof (Qlt_floor q) as Hhi.
    assert (Hlt : Qfloor q < 1).
    { rewrite Zlt_Qlt. eapply Qle_lt_trans; [exact Hlo|].
      eapply Qlt_trans; [exact H1|reflexivity]. }
    assert (Hgt : 0 < Qfloor q + 1).
    { rewrite Zlt_Qlt. eapply Qle_lt_trans; [exact H0|exact Hhi]. }
    lia. }
  rewrite Hf.
  assert (Hc : Qcompare (q - inject_Z 0) (1 # 2) = Lt).
  { apply Qlt_alt.
    assert (E : (q - inject_Z 0 == q)%Q) by (unfold Qminus; simpl; ring).
    rewrite E. exact H1. }
  rewrite Hc. reflexivity.
Qed.

Lemma apply_loop_operation (fromarray asarray : pyval -> result pyval)
    (self self' : ImageTransformWrapper.t) (cvt_array : bool)
    (l : list pyval) (g : rng) :
  ImageTransformWrapper.operation self = ImageTransformWrapper.operation self' ->
  ImageTransformWrapper.apply_loop fromarray asarray self cvt_array l g
  = ImageTransformWrapper.apply_loop fromarray asarray self' cvt_array l g.
Proof.
  intros Hop. revert g. induction l as [|s l IH]; intros g; [reflexivity|].
  cbn [ImageTransformWrapper.apply_loop]. rewrite Hop.
  unfold mbind, rand_bind.
  destruct ((if cvt_array then lift (fromarray s) else mret s) g)
    as [[s1|e] g1]; [|reflexivity].
  destruct (ImageTransformWrapper.operation self' s1 g1) as [[s2|e] g2];
    [|reflexivity].
  destruct ((if cvt_array then lift (asarray s2) else mret s2) g2)
    as [[s3|e] g3]; [|reflexivity].
  now rewrite IH.
Qed.

(** X30. A probability of zero does not switch the operation off: the
    draw is rounded to one decimal before it is compared, so for any
    probability in [0, 1) a draw below 0.05 applies the operation to
    every sample, exactly as a wrapper of probability one would from the
    next draw on. *)
Theorem ImageTransformWrapper_low_draw_applies
    (fromarray asarray : pyval -> result pyval)
    (self : ImageTransformWrapper.t) (x : pyval) (rest : list pyval)
    (g : rng) :
  (0 <= ImageTransformWrapper.probability self)%Q ->
  (ImageTransformWrapper.probability self < 1)%Q ->
  (tape g (pos g) - inject_Z (Qfloor (tape g (pos g))) < 1 # 20)%Q ->
  (exists a, x = PyArray a \/ x = PyPIL a) ->
  ImageTransformWrapper.__call__ fromarray asarray self (PyList (x :: rest)) g
  = ImageTransformWrapper.__call__ fromarray asarray
      (ImageTransformWrapper.mk (ImageTransformWrapper.operation self) 1
         (ImageTransformWrapper.force_convert self))
      (PyList (x :: rest)) (mk_rng (tape g) (S (pos g))).
Proof.
  intros Hp0 Hp1 Hu [a Hx].
  set (u := (tape g (pos g) - inject_Z (Qfloor (tape g (pos g))))%Q) in *.
  assert (Hu0 : (0 <= u)%Q).
  { destruct (np_random_range g _ u eq_refl) as [H0 _]. exact H0. }
  assert (Hround : round1 (0 + (1 - 0) * u) = round1 0).
  { unfold round1. f_equal. f_equal.
    rewrite (py_round_small ((0 + (1 - 0) * u) * 10)).
    - reflexivity.
    - assert (E : ((0 + (1 - 0) * u) * 10 == u * 10)%Q) by ring.
      rewrite E. apply Qmult_le_0_compat; [exact Hu0|discriminate].
    - assert (E : ((0 + (1 - 0) * u) * 10 == u * 10)%Q) by ring.
      rewrite E.
      assert (E2 : ((1 # 2) == (1 # 20) * 10)%Q) by reflexivity.
      rewrite E2. apply Qmult_lt_compat_r; [reflexivity|exact Hu]. }
  assert (Hgo : Qle_bool (round1 (0 + (1 - 0) * u))
                         (ImageTransformWrapper.probability self) = true).
  { rewrite Hround. apply Qle_bool_iff.
    eapply Qle_trans; [|exact Hp0]. discriminate. }
  assert (Hno : Qle_bool 1 (ImageTransformWrapper.probability self) = false)
    by (apply Qle_bool_false; exact Hp1).
  unfold ImageTransformWrapper.__call__. cbv iota beta.
  cbn [ImageTransformWrapper.probability ImageTransformWrapper.operation
       ImageTransformWrapper.force_convert].
  rewrite Hno. change (Qle_bool 1 1) with true. cbv iota.
  unfold mbind at 1 3. unfold rand_bind at 1 3.
  unfold lift.
  destruct Hx as [-> | ->]; cbv iota beta;
    unfold mbind at 1 4; unfold rand_bind at 1 4;
    unfold np_uniform, np_random, mbind, rand_bind, mret, rand_ret;
    cbv iota beta; fold u; rewrite Hgo;
    rewrite (apply_loop_operation fromarray asarray self
               (ImageTransformWrapper.mk
                  (ImageTransformWrapper.operation self) 1
                  (ImageTransformWrapper.force_convert self))) by reflexivity;
    reflexivity.
Qed.

Lemma ImageTransformWrapper_low_draw_applies_witness :
  ImageTransformWrapper.__call__ Ok Ok
    (ImageTransformWrapper.mk (fun _ => mret PyNone) 0 false)
    (PyList [PyArray (mk_ndarray [2; 2]%nat (fun _ => 1%Q))])
    (mk_rng (fun _ => (1 # 32)%Q) 0)
  = ImageTransformWrapper.__call__ Ok Ok
      (ImageTransformWrapper.mk (fun _ => mret PyNone) 1 false)
      (PyList [PyArray (mk_ndarray [2; 2]%nat (fun _ => 1%Q))])
      (mk_rng (fun _ => (1 # 32)%Q) 1).
Proof.
  apply (ImageTransformWrapper_low_draw_applies Ok Ok
           (ImageTransformWrapper.mk (fun _ => mret PyNone) 0 false)
           (PyArray (mk_ndarray [2; 2]%nat (fun _ => 1%Q))) []
           (mk_rng (fun _ => (1 # 32)%Q) 0));
    [discriminate | reflexivity | reflexivity |].
  exists (mk_ndarray [2; 2]%nat (fun _ => 1%Q)). left. reflexivity.
Defined.
